(** * Design linter: rule evaluation, provenance check, traversal and
      issue aggregation

    A shallow embedding of the linter's core:
    - [utils/lint]: [matchesExceptions], [getStyleLibraryInfo],
      [hasVariableBinding], the audit log, [checkLibrarySources] and
      [checkDetachedStyles];
    - [main.ts]: [isLintableNode], [scanForIssues] and the [SCAN_AGAIN]
      handler;
    - [components/ErrorDisplay.tsx]: the deduplication and the per-type
      counts.

    Conventions of the embedding.
    - The process-wide [radiusAuditLog.entries] array is threaded through
      the functions that push to it: they take the log and return the new
      one.
    - Numbers (radii, spacing, padding) are integers [Z]; the host symbol
      [figma.mixed] is a constructor of its own.
    - A property that may be missing on a node ('x' in node) is an
      [option]; a missing [children] array is the empty list.
    - Strings are ASCII strings; [toLowerCase] folds A-Z only.
    - Console logging and the diagnostic [debug] text attached to radius
      issues are left out.  A host call that throws is caught where it is
      made and reads as "nothing found"; nothing else in the modelled code
      throws, so the [try] blocks leave no trace. *)

From Stdlib Require Import ZArith Bool Ascii String DecimalString Lia.
From stdpp Require Import base strings gmap.
From Stdlib Require Import List.
Import ListNotations.

Local Open Scope string_scope.
Local Open Scope Z_scope.

(** ** JavaScript string primitives used by the linter *)

Module Js.

Definition lowerAscii (c : ascii) : ascii :=
  let n := nat_of_ascii c in
  if (Nat.leb 65 n && Nat.leb n 90)%bool then ascii_of_nat (n + 32) else c.

Fixpoint toLowerCase (s : string) : string :=
  match s with
  | EmptyString => EmptyString
  | String c r => String (lowerAscii c) (toLowerCase r)
  end.

Definition isSpace (c : ascii) : bool :=
  let n := nat_of_ascii c in
  (Nat.eqb n 32 || (Nat.leb 9 n && Nat.leb n 13))%bool.

Fixpoint trimStart (s : string) : string :=
  match s with
  | EmptyString => EmptyString
  | String c r => if isSpace c then trimStart r else s
  end.

Fixpoint trimEnd (s : string) : string :=
  match s with
  | EmptyString => EmptyString
  | String c r =>
      match trimEnd r with
      | EmptyString => if isSpace c then EmptyString else String c EmptyString
      | r' => String c r'
      end
  end.

Definition trim (s : string) : string := trimEnd (trimStart s).

Definition isEmpty (s : string) : bool :=
  match s with EmptyString => true | _ => false end.

(** [s.startsWith(p)] *)
Definition startsWith (s p : string) : bool := String.prefix p s.

(** [s.includes(p)] *)
Fixpoint includes (s p : string) : bool :=
  (String.prefix p s ||
   match s with
   | EmptyString => false
   | String _ r => includes r p
   end)%bool.

(** [s.endsWith(c)] for a one-character [c] *)
Fixpoint endsWithChar (s : string) (c : ascii) : bool :=
  match s with
  | EmptyString => false
  | String d EmptyString => Ascii.eqb d c
  | String _ r => endsWithChar r c
  end.

(** [s.slice(0, -1)] *)
Fixpoint dropLast (s : string) : string :=
  match s with
  | EmptyString => EmptyString
  | String _ EmptyString => EmptyString
  | String c r => String c (dropLast r)
  end.

(** [s.split(c)] for a one-character separator *)
Fixpoint split (c : ascii) (s : string) : list string :=
  match s with
  | EmptyString => [EmptyString]
  | String d r =>
      if Ascii.eqb d c then EmptyString :: split c r
      else match split c r with
           | [] => [String d EmptyString]
           | p :: ps => String d p :: ps
           end
  end.

Definition isLetter (c : ascii) : bool :=
  let n := nat_of_ascii c in
  ((Nat.leb 65 n && Nat.leb n 90) || (Nat.leb 97 n && Nat.leb n 122))%bool.

Fixpoint skipLetters (s : string) : string :=
  match s with
  | String c r => if isLetter c then skipLetters r else s
  | EmptyString => EmptyString
  end.

(** [s.replace(/^[a-zA-Z]+:/, '')]: the greedy run of letters has no
    colon in it, so the pattern matches exactly when at least one letter
    is followed at once by a colon. *)
Definition stripTypePrefix (s : string) : string :=
  match s with
  | String c _ =>
      if isLetter c then
        match skipLetters s with
        | String ":" r => r
        | _ => s
        end
      else s
  | EmptyString => s
  end.

(** Template-literal printing of a number and of a boolean. *)
Definition numToString (z : Z) : string := NilZero.string_of_int (Z.to_int z).

Definition boolToString (b : bool) : string := if b then "true" else "false".

(** [parts.join(sep)] *)
Fixpoint join (sep : string) (l : list string) : string :=
  match l with
  | [] => ""
  | [x] => x
  | x :: r => x ++ sep ++ join sep r
  end.

End Js.

(** ** Data model *)

(** [LintIssueType] of [types/lint]: the six string literals. *)
Inductive LintIssueType := Fill | Stroke | Text | Radius | Gap | Padding.

Definition typeString (t : LintIssueType) : string :=
  match t with
  | Fill => "fill" | Stroke => "stroke" | Text => "text"
  | Radius => "radius" | Gap => "gap" | Padding => "padding"
  end.

Definition LintIssueType_eqb (a b : LintIssueType) : bool :=
  match a, b with
  | Fill, Fill | Stroke, Stroke | Text, Text
  | Radius, Radius | Gap, Gap | Padding, Padding => true
  | _, _ => false
  end.

(** The four fields that [getAutoLayoutInfo] spreads into every issue. *)
Record AutoLayoutInfo := {
  isAutoLayout : bool;
  infoLayoutMode : string;
  layoutAlign : option string;
  infoLayoutWrap : string
}.

Record LintIssue := {
  nodeId : string;
  nodeName : string;
  type : LintIssueType;
  message : string;
  details : option string;
  sourceLibraryId : option string;
  sourceLibraryName : option string;
  nodeType : string;
  layoutInfo : AutoLayoutInfo
}.

Record RadiusAuditEntry := {
  entryNodeId : string;
  entryNodeName : string;
  entryNodeType : string;
  entryCornerRadius : string;
  isIssue : bool;
  decisionPath : string;
  bindingDetails : string;
  inspectionDetails : string;
  entryTopLeftRadius : option string;
  entryTopRightRadius : option string;
  entryBottomLeftRadius : option string;
  entryBottomRightRadius : option string
}.

(** [radiusAuditLog.entries] *)
Definition AuditLog := list RadiusAuditEntry.

(** A style id that the host may report as [figma.mixed]. *)
Inductive StyleRef := StyleMixed | StyleId (s : string).

Record Paint := { paintType : string }.

Inductive Paints := PaintsMixed | PaintList (l : list Paint).

Inductive RadiusValue := RadiusMixed | RadiusNum (z : Z).

(** A value of the [boundVariables] object: one alias, or (for paints)
    an array of aliases, which has no [id] of its own. *)
Inductive Binding := Alias (id : string) | AliasList (ids : list string).

(** The [boundVariables] object, keys in insertion order. *)
Definition BoundVariables := list (string * Binding).

(** What the linter reads of an instance's main component. *)
Record ComponentRef := {
  compId : string;
  compName : string;
  compBoundVariables : option BoundVariables
}.

Record NodeData := {
  id : string;
  name : string;
  kind : string;                        (* node.type *)
  locked : bool;
  visible : bool;
  parentType : option string;           (* node.parent?.type *)
  fills : option Paints;
  strokes : option Paints;
  fillStyleId : option StyleRef;
  strokeStyleId : option string;
  textStyleId : option StyleRef;
  effectStyleId : option string;
  boundVariables : option BoundVariables;
  cornerRadius : option RadiusValue;
  topLeftRadius : option Z;
  topRightRadius : option Z;
  bottomLeftRadius : option Z;
  bottomRightRadius : option Z;
  layoutMode : option string;
  primaryAxisAlignItems : option string;
  layoutWrap : option string;
  itemSpacing : Z;
  paddingLeft : Z;
  paddingRight : Z;
  paddingTop : Z;
  paddingBottom : Z;
  mainComponent : option ComponentRef
}.

#[local] Set Warnings "-register-all".

Inductive Node := MkNode (data : NodeData) (children : list Node).

Definition nodeData (n : Node) : NodeData := let 'MkNode d _ := n in d.
Definition nodeChildren (n : Node) : list Node := let 'MkNode _ c := n in c.

(** JavaScript truthiness of the values the linter tests. *)
Definition truthyString (s : string) : bool := negb (Js.isEmpty s).

Definition truthyOptString (o : option string) : bool :=
  match o with Some s => truthyString s | None => false end.

Definition truthyStyleRef (o : option StyleRef) : bool :=
  match o with
  | Some StyleMixed => true
  | Some (StyleId s) => truthyString s
  | None => false
  end.

(** ** [utils/lint]: helpers *)

Definition hasAutoLayout (n : NodeData) : bool :=
  match layoutMode n with
  | Some m => negb (String.eqb m "NONE")
  | None => false
  end.

Definition hasCornerRadius (n : NodeData) : bool :=
  match cornerRadius n with Some _ => true | None => false end.

Definition getAutoLayoutInfo (n : NodeData) : AutoLayoutInfo :=
  match layoutMode n with
  | Some m =>
      {| isAutoLayout := negb (String.eqb m "NONE");
         infoLayoutMode := m;
         layoutAlign := primaryAxisAlignItems n;
         infoLayoutWrap := if truthyOptString (layoutWrap n) then "WRAP" else "NO_WRAP" |}
  | None =>
      {| isAutoLayout := false;
         infoLayoutMode := "NONE";
         layoutAlign := Some "NONE";
         infoLayoutWrap := "NO_WRAP" |}
  end.

Definition mkIssue (n : NodeData) (t : LintIssueType) (msg : string)
    (det : option string) (lib : option (string * string)) : LintIssue :=
  {| nodeId := id n;
     nodeName := name n;
     type := t;
     message := msg;
     details := det;
     sourceLibraryId := option_map fst lib;
     sourceLibraryName := option_map snd lib;
     nodeType := kind n;
     layoutInfo := getAutoLayoutInfo n |}.

Definition createFillIssue (n : NodeData) : LintIssue :=
  mkIssue n Fill "Fill not linked to a style or variable" None None.

Definition createStrokeIssue (n : NodeData) : LintIssue :=
  mkIssue n Stroke "Stroke not linked to a style or variable" None None.

Definition createTextIssue (n : NodeData) : LintIssue :=
  mkIssue n Text "Text not linked to a style or variable" None None.

Definition createRadiusIssue (n : NodeData) (radiusDetails : string) : LintIssue :=
  mkIssue n Radius "Corner radius not linked to a variable" (Some radiusDetails) None.

Definition createGapIssue (n : NodeData) : LintIssue :=
  mkIssue n Gap "Item spacing not linked to a variable" None None.

Definition createPaddingIssue (n : NodeData) (paddingDetails : string) : LintIssue :=
  mkIssue n Padding "Padding not linked to a variable" (Some paddingDetails) None.

Fixpoint lookupBinding (property : string) (b : BoundVariables) : option Binding :=
  match b with
  | [] => None
  | (k, v) :: r => if String.eqb k property then Some v else lookupBinding property r
  end.

(** [hasVariableBinding(node, property)], on the node's [boundVariables]:
    every alias object and every array is truthy. *)
Definition hasVariableBinding (b : option BoundVariables) (property : string) : bool :=
  match b with
  | Some m => match lookupBinding property m with Some _ => true | None => false end
  | None => false
  end.

Definition typeText (t : LintIssueType) : string :=
  match t with
  | Fill => "Color Fill" | Stroke => "Color Stroke" | Text => "Text Style"
  | Radius => "Radius" | Gap => "Gap" | Padding => "Padding"
  end.

Definition createWrongLibraryIssue (n : NodeData) (itemType : LintIssueType)
    (srcLibraryId srcLibraryName : string) : LintIssue :=
  mkIssue n itemType ("Wrong library/" ++ typeText itemType) None
          (Some (srcLibraryId, srcLibraryName)).

Record StyleLibraryInfo := { libraryId : string; styleKeyId : string }.

Definition getStyleLibraryInfo (styleId : string) : option StyleLibraryInfo :=
  if Js.isEmpty styleId then None
  else if negb (Js.includes styleId ",") then
    Some {| libraryId := "local"; styleKeyId := styleId |}
  else
    match Js.split "," (Js.stripTypePrefix styleId) with
    | p0 :: p1 :: _ => Some {| libraryId := p0; styleKeyId := p1 |}
    | _ => None
    end.

(** The test that [matchesExceptions], [checkLibrarySources] and
    [isExceptionStyle] each apply to one exception. *)
Definition exceptionMatches (text exception : string) : bool :=
  let trimmedException := Js.trim exception in
  if Js.isEmpty trimmedException then false
  else if Js.endsWithChar trimmedException "*" then
    Js.startsWith (Js.toLowerCase text) (Js.toLowerCase (Js.dropLast trimmedException))
  else Js.includes (Js.toLowerCase text) (Js.toLowerCase trimmedException).

Definition matchesExceptions (styleName : string) (exceptions : list string) : bool :=
  match exceptions with
  | [] => false
  | _ =>
      if Js.isEmpty (Js.trim styleName) then false
      else existsb (exceptionMatches styleName) exceptions
  end.

(** ** The audit log *)

Definition clearRadiusAuditLog (log : AuditLog) : AuditLog := [].

Definition radiusToString (v : RadiusValue) : string :=
  match v with RadiusMixed => "mixed" | RadiusNum z => Js.numToString z end.

Definition addRadiusAuditEntry (n : NodeData) (cr : RadiusValue)
    (tl tr bl br : option Z) (issue : bool) (path bindingText inspectionText : string)
    (log : AuditLog) : AuditLog :=
  (log ++ [ {| entryNodeId := id n;
              entryNodeName := name n;
              entryNodeType := kind n;
              entryCornerRadius := radiusToString cr;
              isIssue := issue;
              decisionPath := path;
              bindingDetails := bindingText;
              inspectionDetails := inspectionText;
              entryTopLeftRadius := option_map Js.numToString tl;
              entryTopRightRadius := option_map Js.numToString tr;
              entryBottomLeftRadius := option_map Js.numToString bl;
              entryBottomRightRadius := option_map Js.numToString br |} ])%list.

(** ** [checkDetachedStyles]: the corner-radius block *)

Definition gtZero (o : option Z) : bool :=
  match o with Some z => 0 <? z | None => false end.

Definition optZ_eqb (a b : option Z) : bool :=
  match a, b with
  | Some x, Some y => x =? y
  | None, None => true
  | _, _ => false
  end.

Definition hasIndividualCornerRadii (n : NodeData) : bool :=
  match topLeftRadius n, topRightRadius n, bottomLeftRadius n, bottomRightRadius n with
  | Some _, Some _, Some _, Some _ => true
  | _, _, _, _ => false
  end.

Definition topLeft (n : NodeData) : option Z :=
  if hasIndividualCornerRadii n then topLeftRadius n else None.
Definition topRight (n : NodeData) : option Z :=
  if hasIndividualCornerRadii n then topRightRadius n else None.
Definition bottomLeft (n : NodeData) : option Z :=
  if hasIndividualCornerRadii n then bottomLeftRadius n else None.
Definition bottomRight (n : NodeData) : option Z :=
  if hasIndividualCornerRadii n then bottomRightRadius n else None.

Definition hasUniformIndividualCorners (n : NodeData) : bool :=
  hasIndividualCornerRadii n &&
  optZ_eqb (topLeft n) (topRight n) && optZ_eqb (topRight n) (bottomLeft n) &&
  optZ_eqb (bottomLeft n) (bottomRight n) && gtZero (topLeft n).

Definition isIndividualModeConsistent (n : NodeData) (cr : RadiusValue) : bool :=
  hasUniformIndividualCorners n &&
  match cr, topLeft n with
  | RadiusNum c, Some t => t =? c
  | _, _ => false
  end.

Definition isInstanceWithInheritedVariables (n : NodeData) : bool :=
  if String.eqb (kind n) "INSTANCE" then
    match mainComponent n with
    | Some mc =>
        let b := compBoundVariables mc in
        hasVariableBinding b "cornerRadius" ||
        hasVariableBinding b "topLeftRadius" ||
        hasVariableBinding b "topRightRadius" ||
        hasVariableBinding b "bottomLeftRadius" ||
        hasVariableBinding b "bottomRightRadius"
    | None => false
    end
  else false.

Definition isComponentOrInstance (n : NodeData) : bool :=
  String.eqb (kind n) "COMPONENT" || String.eqb (kind n) "INSTANCE".

(** The text printed for [isInsideComponentInstance]: the expression is
    [isComponentOrInstance || (node.parent && (...))], so a node without
    a parent prints [null]. *)
Definition isInsideComponentInstanceText (n : NodeData) : string :=
  if isComponentOrInstance n then "true"
  else match parentType n with
       | None => "null"
       | Some t => Js.boolToString (String.eqb t "COMPONENT" || String.eqb t "INSTANCE")
       end.

Definition hasCornerRadiusVariable (n : NodeData) : bool :=
  hasVariableBinding (boundVariables n) "cornerRadius".
Definition hasTopLeftVariable (n : NodeData) : bool :=
  hasVariableBinding (boundVariables n) "topLeftRadius" ||
  hasVariableBinding (boundVariables n) "topLeftRadius.value".
Definition hasTopRightVariable (n : NodeData) : bool :=
  hasVariableBinding (boundVariables n) "topRightRadius" ||
  hasVariableBinding (boundVariables n) "topRightRadius.value".
Definition hasBottomLeftVariable (n : NodeData) : bool :=
  hasVariableBinding (boundVariables n) "bottomLeftRadius" ||
  hasVariableBinding (boundVariables n) "bottomLeftRadius.value".
Definition hasBottomRightVariable (n : NodeData) : bool :=
  hasVariableBinding (boundVariables n) "bottomRightRadius" ||
  hasVariableBinding (boundVariables n) "bottomRightRadius.value".

Definition hasIndividualCornerVariables (n : NodeData) : bool :=
  hasTopLeftVariable n || hasTopRightVariable n ||
  hasBottomLeftVariable n || hasBottomRightVariable n.

(** [corner === 0 || corner === undefined || hasCornerVariable] *)
Definition cornerCovered (corner : option Z) (hasVariable : bool) : bool :=
  match corner with
  | Some z => (z =? 0) || hasVariable
  | None => true
  end.

Definition allCornersHaveVariables (n : NodeData) : bool :=
  cornerCovered (topLeft n) (hasTopLeftVariable n) &&
  cornerCovered (topRight n) (hasTopRightVariable n) &&
  cornerCovered (bottomLeft n) (hasBottomLeftVariable n) &&
  cornerCovered (bottomRight n) (hasBottomRightVariable n).

(** Truthiness of [hasAnyRadiusBinding]; its last disjunct is the raw
    [effectStyleId]. *)
Definition hasAnyRadiusBinding (n : NodeData) : bool :=
  hasCornerRadiusVariable n ||
  hasVariableBinding (boundVariables n) "cornerRadius.value" ||
  hasVariableBinding (boundVariables n) "cornerRadiusValue" ||
  hasIndividualCornerVariables n ||
  isInstanceWithInheritedVariables n ||
  truthyOptString (effectStyleId n).

(** What the template literal prints for [hasAnyRadiusBinding]. *)
Definition hasAnyRadiusBindingText (n : NodeData) : string :=
  if hasCornerRadiusVariable n ||
     hasVariableBinding (boundVariables n) "cornerRadius.value" ||
     hasVariableBinding (boundVariables n) "cornerRadiusValue" ||
     hasIndividualCornerVariables n ||
     isInstanceWithInheritedVariables n
  then "true"
  else match effectStyleId n with
       | Some s => s
       | None => "false"
       end.

Definition bindingDetailsText (n : NodeData) : string :=
  "cornerRadius: " ++ Js.boolToString (hasCornerRadiusVariable n) ++ ", " ++
  "topLeft: " ++ Js.boolToString (hasTopLeftVariable n) ++ ", " ++
  "topRight: " ++ Js.boolToString (hasTopRightVariable n) ++ ", " ++
  "bottomLeft: " ++ Js.boolToString (hasBottomLeftVariable n) ++ ", " ++
  "bottomRight: " ++ Js.boolToString (hasBottomRightVariable n) ++ ", " ++
  "inherited: " ++ Js.boolToString (isInstanceWithInheritedVariables n).

Definition inspectionDetailsText (n : NodeData) (cr : RadiusValue) : string :=
  "isComponentOrInstance: " ++ Js.boolToString (isComponentOrInstance n) ++ ", " ++
  "isInsideComponent: " ++ isInsideComponentInstanceText n ++ ", " ++
  "hasUniformCorners: " ++ Js.boolToString (hasUniformIndividualCorners n) ++ ", " ++
  "consistent: " ++ Js.boolToString (isIndividualModeConsistent n cr) ++ ", " ++
  "allCornersHaveVars: " ++ Js.boolToString (allCornersHaveVariables n) ++ ", " ++
  "anyRadiusBinding: " ++ hasAnyRadiusBindingText n.

(** The conditions of the decision tree, in the order they are tested. *)
Definition branchA (n : NodeData) : bool :=
  (isInstanceWithInheritedVariables n || hasAnyRadiusBinding n) &&
  allCornersHaveVariables n.

Definition branchB (n : NodeData) : bool :=
  hasUniformIndividualCorners n && hasAnyRadiusBinding n && allCornersHaveVariables n.

Definition branchC (n : NodeData) (cr : RadiusValue) : bool :=
  match cr with
  | RadiusNum c => (0 <? c) && negb (hasCornerRadiusVariable n)
  | RadiusMixed => false
  end.

(** [if (corner > 0 && !hasCornerVariable) missingBindings.push(...)] *)
Definition missingCorner (label : string) (corner : option Z) (hasVariable : bool)
    : list string :=
  match corner with
  | Some z => if (0 <? z) && negb hasVariable
              then [label ++ ": " ++ Js.numToString z] else []
  | None => []
  end.

Definition missingBindings (n : NodeData) : list string :=
  (missingCorner "topLeft" (topLeft n) (hasTopLeftVariable n) ++
   missingCorner "topRight" (topRight n) (hasTopRightVariable n) ++
   missingCorner "bottomLeft" (bottomLeft n) (hasBottomLeftVariable n) ++
   missingCorner "bottomRight" (bottomRight n) (hasBottomRightVariable n))%list.

Definition pathExcludedBindings : string := "EXCLUDED: Has necessary variable bindings".
Definition pathExcludedUniform : string := "EXCLUDED: Uniform corners with variables".
Definition pathIssueUniform : string := "ISSUE: Uniform radius without variables".
Definition pathIssueUniformCorners : string :=
  "ISSUE: Uniform individual corners without variables".
Definition pathExcludedNoMissing : string := "EXCLUDED: No corners missing variables".

(** The body of [if ('cornerRadius' in node) { ... }], for a node whose
    [cornerRadius] is [cr]. *)
Definition cornerRadiusCheck (n : NodeData) (cr : RadiusValue) (log : AuditLog)
    : list LintIssue * AuditLog :=
  let audit := addRadiusAuditEntry n cr (topLeft n) (topRight n)
                                   (bottomLeft n) (bottomRight n) in
  let bd := bindingDetailsText n in
  let idt := inspectionDetailsText n cr in
  if branchA n then
    ([], audit false pathExcludedBindings bd idt log)
  else if branchB n then
    ([], audit false pathExcludedUniform bd idt log)
  else if branchC n cr then
    ([createRadiusIssue n "uniform"], audit true pathIssueUniform bd idt log)
  else if hasIndividualCornerRadii n then
    let missing := missingBindings n in
    match missing with
    | _ :: _ =>
        let issueDetails :=
          if hasUniformIndividualCorners n then pathIssueUniformCorners
          else "ISSUE: Mixed corners without variables (" ++ Js.join ", " missing ++ ")" in
        let log' := audit true issueDetails bd idt log in
        if hasUniformIndividualCorners n then
          ([createRadiusIssue n "uniform"], log')
        else
          ([createRadiusIssue n ("mixed (" ++ Js.join ", " missing ++ ")")], log')
    | [] => ([], audit false pathExcludedNoMissing bd idt log)
    end
  else ([], log).

(** ** [checkDetachedStyles] *)

Definition firstIsSolid (p : option Paints) : bool :=
  match p with
  | Some (PaintList (f :: _)) => String.eqb (paintType f) "SOLID"
  | _ => false
  end.

Definition fillCheck (n : NodeData) : list LintIssue :=
  if firstIsSolid (fills n) && negb (truthyStyleRef (fillStyleId n)) &&
     negb (hasVariableBinding (boundVariables n) "fills")
  then [createFillIssue n] else [].

Definition strokeCheck (n : NodeData) : list LintIssue :=
  if firstIsSolid (strokes n) && negb (truthyOptString (strokeStyleId n)) &&
     negb (hasVariableBinding (boundVariables n) "strokes")
  then [createStrokeIssue n] else [].

Definition textCheck (n : NodeData) : list LintIssue :=
  if String.eqb (kind n) "TEXT" then
    let hasTextStyle := truthyStyleRef (textStyleId n) in
    let hasTextVariable :=
      hasVariableBinding (boundVariables n) "characters" ||
      hasVariableBinding (boundVariables n) "textStyleId" ||
      hasVariableBinding (boundVariables n) "fontName" ||
      hasVariableBinding (boundVariables n) "fontSize" in
    if negb hasTextStyle && negb hasTextVariable then [createTextIssue n] else []
  else [].

Definition hasAutoSpacing (n : NodeData) : bool :=
  match layoutMode n, primaryAxisAlignItems n with
  | Some _, Some a => String.eqb a "SPACE_BETWEEN"
  | _, _ => false
  end.

Definition gapCheck (n : NodeData) : list LintIssue :=
  if (0 <? itemSpacing n) && negb (hasVariableBinding (boundVariables n) "itemSpacing") &&
     negb (hasAutoSpacing n)
  then [createGapIssue n] else [].

Definition paddingCheck (n : NodeData) : list LintIssue :=
  let b := boundVariables n in
  let hasHorizontalPaddingIssue :=
    ((0 <? paddingLeft n) && negb (hasVariableBinding b "paddingLeft")) ||
    ((0 <? paddingRight n) && negb (hasVariableBinding b "paddingRight")) in
  let hasVerticalPaddingIssue :=
    ((0 <? paddingTop n) && negb (hasVariableBinding b "paddingTop")) ||
    ((0 <? paddingBottom n) && negb (hasVariableBinding b "paddingBottom")) in
  if hasHorizontalPaddingIssue || hasVerticalPaddingIssue then
    let paddingDetails :=
      if hasHorizontalPaddingIssue && negb hasVerticalPaddingIssue then "horizontal"
      else if negb hasHorizontalPaddingIssue && hasVerticalPaddingIssue then "vertical"
      else "all" in
    [createPaddingIssue n paddingDetails]
  else [].

Definition checkDetachedStyles (n : NodeData) (log : AuditLog)
    : list LintIssue * AuditLog :=
  if locked n || negb (visible n) then ([], log)
  else
    let '(radiusIssues, log') :=
      match cornerRadius n with
      | Some cr => cornerRadiusCheck n cr log
      | None => ([], log)
      end in
    let layoutIssues :=
      if hasAutoLayout n then (gapCheck n ++ paddingCheck n)%list else [] in
    ((fillCheck n ++ strokeCheck n ++ textCheck n ++
      radiusIssues ++ layoutIssues)%list, log').

(** ** [checkLibrarySources] *)

(** The host's style and variable resolver.  A call that throws is caught
    by the linter and has the effect of finding nothing, so it is [None]
    here. *)
Record VariableInfo := { variableName : string; variableCollectionId : string }.

Record CollectionInfo := { collectionLibraryId : option string }.

Record Host := {
  getStyleById : string -> option string;          (* the style's name *)
  getVariableById : string -> option VariableInfo;
  getVariableCollectionById : string -> option CollectionInfo
}.

(** [libraryMap.get(id)?.name || 'Unknown library'] *)
Definition libraryNameOf (libraryMap : gmap string string) (lib : string) : string :=
  match libraryMap !! lib with
  | Some nm => if truthyString nm then nm else "Unknown library"
  | None => "Unknown library"
  end.

(** One of the four style blocks (fill, stroke, text, effect), which
    differ in the property read and in the issue type only. *)
Definition checkStyleSource (host : Host) (n : NodeData) (selectedLibraryId : string)
    (libraryMap : gmap string string) (exceptions : list string)
    (itemType : LintIssueType) (styleId : string) : list LintIssue :=
  if truthyString styleId then
    let styleInfo := getStyleLibraryInfo styleId in
    let styleName :=
      match getStyleById host styleId with Some nm => nm | None => "" end in
    if truthyString styleName && matchesExceptions styleName exceptions then []
    else
      match styleInfo with
      | Some info =>
          if String.eqb (libraryId info) "local" then []
          else if negb (String.eqb (libraryId info) selectedLibraryId) then
            [createWrongLibraryIssue n itemType (libraryId info)
               (libraryNameOf libraryMap (libraryId info))]
          else []
      | None => []
      end
  else [].

(** [typeof id === 'symbol' ? null : String(id)], on a present property *)
Definition styleRefString (o : option StyleRef) : string :=
  match o with
  | Some (StyleId s) => s
  | _ => ""
  end.

Definition optString (o : option string) : string :=
  match o with Some s => s | None => "" end.

Definition issueTypeOfProperty (propName : string) : LintIssueType :=
  if Js.includes propName "radius" then Radius
  else if Js.includes propName "gap" || Js.includes propName "itemSpacing" then Gap
  else if Js.includes propName "padding" then Padding
  else if Js.includes propName "stroke" then Stroke
  else if Js.includes propName "text" || Js.includes propName "font" then Text
  else Fill.

(** The callback of [Object.entries(boundVars).forEach]. *)
Definition checkVariableSource (host : Host) (n : NodeData) (selectedLibraryId : string)
    (libraryMap : gmap string string) (entry : string * Binding) : list LintIssue :=
  match entry with
  | (propName, Alias varId) =>
      if truthyString varId then
        match getVariableById host varId with
        | Some variable =>
            match getVariableCollectionById host (variableCollectionId variable) with
            | Some collection =>
                match collectionLibraryId collection with
                | Some lib =>
                    if truthyString lib && negb (String.eqb lib selectedLibraryId) then
                      [createWrongLibraryIssue n (issueTypeOfProperty propName) lib
                         (libraryNameOf libraryMap lib)]
                    else []
                | None => []
                end
            | None => []
            end
        | None => []
        end
      else []
  | (_, AliasList _) => []
  end.

Definition checkVariableSources (host : Host) (n : NodeData) (selectedLibraryId : string)
    (libraryMap : gmap string string) : list LintIssue :=
  match boundVariables n with
  | Some boundVars =>
      flat_map (checkVariableSource host n selectedLibraryId libraryMap) boundVars
  | None => []
  end.

Definition checkLibrarySources (host : Host) (n : NodeData) (selectedLibraryId : string)
    (libraryMap : gmap string string) (exceptions : list string) : list LintIssue :=
  if existsb (exceptionMatches (name n)) exceptions then []
  else
    let style := checkStyleSource host n selectedLibraryId libraryMap exceptions in
    (style Fill (styleRefString (fillStyleId n)) ++
     style Stroke (optString (strokeStyleId n)) ++
     (if String.eqb (kind n) "TEXT"
      then style Text (styleRefString (textStyleId n)) else []) ++
     style Fill (optString (effectStyleId n)) ++
     checkVariableSources host n selectedLibraryId libraryMap)%list.

(** ** [main.ts]: settings, traversal and scan *)

Record Settings := {
  selectedLibraryId : option string;
  libraryMap : gmap string string;
  styleExceptions : list string;
  excludeLockedLayers : bool;
  excludeHiddenLayers : bool;
  checkFills : bool;
  checkStrokes : bool;
  checkTexts : bool;
  checkRadius : bool;
  checkGaps : bool;
  checkPadding : bool
}.

(** The [switch] of the filter in [scanForIssues]. *)
Definition shouldInclude (s : Settings) (t : LintIssueType) : bool :=
  match t with
  | Fill => checkFills s
  | Stroke => checkStrokes s
  | Text => checkTexts s
  | Radius => checkRadius s
  | Gap => checkGaps s
  | Padding => checkPadding s
  end.

Definition isLintableNode (s : Settings) (n : NodeData) : bool :=
  if String.eqb (kind n) "PAGE" || String.eqb (kind n) "DOCUMENT" then false
  else if excludeLockedLayers s && locked n then false
  else if excludeHiddenLayers s && negb (visible n) then false
  else
    let hasTextProperties := String.eqb (kind n) "TEXT" in
    let hasFillProperties := match fills n with Some _ => true | None => false end in
    let hasStrokeProperties := match strokes n with Some _ => true | None => false end in
    hasTextProperties || hasFillProperties || hasStrokeProperties ||
    hasCornerRadius n || hasAutoLayout n.

(** The state that [traverse] updates: the local [issues] array and
    [nodeCount], and the process-wide audit log. *)
Record ScanState := {
  issues : list LintIssue;
  nodeCount : nat;
  auditLog : AuditLog
}.

(** [if (selectedLibraryId) { ... checkLibrarySources(...) }] *)
Definition libraryIssuesOf (s : Settings) (host : Host) (n : NodeData) : list LintIssue :=
  match selectedLibraryId s with
  | Some lib =>
      if truthyString lib
      then checkLibrarySources host n lib (libraryMap s) (styleExceptions s)
      else []
  | None => []
  end.

(** The body of [if (isLintableNode(node)) { ... }]. *)
Definition lintNode (s : Settings) (host : Host) (n : NodeData) (st : ScanState)
    : ScanState :=
  let '(detachedIssues, log') := checkDetachedStyles n (auditLog st) in
  let filteredDetachedIssues :=
    List.filter (fun issue => shouldInclude s (type issue)) detachedIssues in
  let libraryIssues := libraryIssuesOf s host n in
  {| issues := (issues st ++ filteredDetachedIssues ++ libraryIssues)%list;
     nodeCount := nodeCount st;
     auditLog := log' |}.

(** The filter applied to the children before recursing. *)
Definition keepChild (s : Settings) (child : Node) : bool :=
  let c := nodeData child in
  if excludeLockedLayers s && locked c then false
  else if excludeHiddenLayers s && negb (visible c) then false
  else true.

Fixpoint traverse (s : Settings) (host : Host) (node : Node) (st : ScanState)
    : ScanState :=
  match node with
  | MkNode d children =>
      let st0 := {| issues := issues st; nodeCount := S (nodeCount st);
                    auditLog := auditLog st |} in
      let st1 := if isLintableNode s d then lintNode s host d st0 else st0 in
      (fix forEach (l : list Node) (acc : ScanState) : ScanState :=
         match l with
         | [] => acc
         | c :: r =>
             forEach r (if keepChild s c then traverse s host c acc else acc)
         end) children st1
  end.

(** [nodes.forEach(traverse)] *)
Definition traverseAll (s : Settings) (host : Host) (nodes : list Node)
    (st : ScanState) : ScanState :=
  fold_left (fun acc n => traverse s host n acc) nodes st.

(** [scanForIssues()]: the roots are the selection, or the children of
    the page when nothing is selected; the result is the issue array and
    the audit log the scan leaves behind. *)
Definition scanForIssues (s : Settings) (host : Host) (selection pageChildren : list Node)
    (log : AuditLog) : list LintIssue * AuditLog :=
  let nodes := match selection with [] => pageChildren | _ => selection end in
  let st := traverseAll s host nodes {| issues := []; nodeCount := 0; auditLog := log |} in
  (issues st, auditLog st).

(** *** The [SCAN_AGAIN] handler *)

Inductive Emitted :=
| UPDATE_ISSUES (l : list LintIssue)
| SELECTION_ERROR (title : option string) (text : string).

Definition isFrameLike (n : NodeData) : bool :=
  String.eqb (kind n) "FRAME" || String.eqb (kind n) "COMPONENT" ||
  String.eqb (kind n) "INSTANCE".

(** [countFrames], adding to the running [totalFrameCount]. *)
Fixpoint countFrames (node : Node) (totalFrameCount : nat) : nat :=
  match node with
  | MkNode d children =>
      if isFrameLike d then
        (fix forEach (l : list Node) (acc : nat) : nat :=
           match l with
           | [] => acc
           | c :: r => forEach r (countFrames c acc)
           end) children (S totalFrameCount)
      else totalFrameCount
  end.

Definition tooManyFrames : Emitted :=
  SELECTION_ERROR (Some "Too many frames detected")
    "More than 5000 nested frames detected. Select fewer frames and try again.".

(** [selection.forEach(countFrames)], from [totalFrameCount = 0] *)
Definition totalFrameCount (selection : list Node) : nat :=
  fold_left (fun acc n => countFrames n acc) selection 0%nat.

Definition onScanAgain (s : Settings) (host : Host) (selection pageChildren : list Node)
    (log : AuditLog) : list Emitted * AuditLog :=
  let selectionCount := length selection in
  if Nat.eqb selectionCount 0 then
    ([UPDATE_ISSUES []; SELECTION_ERROR None "Please select 1-5 frames to lint"], log)
  else if Nat.ltb 5 selectionCount then
    ([UPDATE_ISSUES []; SELECTION_ERROR None "Please select no more than 5 frames"], log)
  else
    if Nat.ltb 5000 (totalFrameCount selection) then
      ([UPDATE_ISSUES []; tooManyFrames], log)
    else
      let '(found, log') := scanForIssues s host selection pageChildren log in
      ([UPDATE_ISSUES found], log').

(** ** [ErrorDisplay]: deduplication and counts *)

(** The key under which the reducer files an issue. *)
Definition dedupKey (issue : LintIssue) : string :=
  match type issue with
  | Radius =>
      nodeId issue ++ "-" ++ typeString (type issue) ++ "-" ++
      optString (details issue) ++ "-" ++ message issue
  | _ =>
      nodeId issue ++ "-" ++ typeString (type issue) ++
      (if truthyOptString (details issue)
       then "-" ++ optString (details issue) else "")
  end.

(** The accumulator object [acc], its keys in insertion order. *)
Fixpoint lookupKey (key : string) (acc : list (string * LintIssue)) : option LintIssue :=
  match acc with
  | [] => None
  | (k, v) :: r => if String.eqb k key then Some v else lookupKey key r
  end.

Definition dedupStep (acc : list (string * LintIssue)) (issue : LintIssue)
    : list (string * LintIssue) :=
  let key := dedupKey issue in
  match lookupKey key acc with
  | None => (acc ++ [(key, issue)])%list
  | Some _ => acc
  end.

Definition allDeduplicatedIssues (l : list LintIssue) : list (string * LintIssue) :=
  fold_left dedupStep l [].

(** [Object.values(allDeduplicatedIssues)] *)
Definition allUniqueIssues (l : list LintIssue) : list LintIssue :=
  map snd (allDeduplicatedIssues l).

(** The reducer that builds [counts]; a type that was never counted
    reads as 0 where it is displayed ([counts[...] || 0]). *)
Definition countStep (acc : LintIssueType -> nat) (issue : LintIssue)
    : LintIssueType -> nat :=
  fun t => if LintIssueType_eqb t (type issue) then S (acc t) else acc t.

Definition counts (l : list LintIssue) : LintIssueType -> nat :=
  fold_left countStep (allUniqueIssues l) (fun _ => 0%nat).

(** ** Vocabulary of the properties *)

(** Induction on a tree, with the hypothesis for every child. *)
Fixpoint Node_forall_ind (P : Node -> Prop)
    (step : forall d children, Forall P children -> P (MkNode d children))
    (n : Node) : P n :=
  match n with
  | MkNode d children =>
      step d children
        ((fix all (l : list Node) : Forall P l :=
            match l with
            | [] => @Forall_nil Node P
            | c :: r => @Forall_cons Node P c r (Node_forall_ind P step c) (all r)
            end) children)
  end.

(** The loop [children.forEach(traverse)] over the children that
    [keepChild] lets through, as a fold. *)
Definition traverseChildren (s : Settings) (host : Host) (l : list Node)
    (st : ScanState) : ScanState :=
  fold_left (fun acc c => if keepChild s c then traverse s host c acc else acc) l st.

(** [nodeCount++] *)
Definition enterNode (st : ScanState) : ScanState :=
  {| issues := issues st; nodeCount := S (nodeCount st); auditLog := auditLog st |}.

(** The issues and audit entries that one node contributes. *)
Definition nodeIssues (s : Settings) (host : Host) (n : NodeData) : list LintIssue :=
  issues (lintNode s host n {| issues := []; nodeCount := 0; auditLog := [] |}).

Definition nodeEntries (n : NodeData) : AuditLog := snd (checkDetachedStyles n []).

(** What a subtree, and a forest, add to a scan. *)
Definition emptyState : ScanState := {| issues := []; nodeCount := 0; auditLog := [] |}.

Definition appendState (st delta : ScanState) : ScanState :=
  {| issues := (issues st ++ issues delta)%list;
     nodeCount := nodeCount st + nodeCount delta;
     auditLog := (auditLog st ++ auditLog delta)%list |}.

(** The radius issues of a list, in order. *)
Definition radiusIssuesOf (l : list LintIssue) : list LintIssue :=
  List.filter (fun i => LintIssueType_eqb (type i) Radius) l.

(** The four corners in the order topLeft, topRight, bottomLeft,
    bottomRight, each with its value and whether a variable is bound. *)
Definition cornerTable (n : NodeData) : list (string * option Z * bool) :=
  [ ("topLeft", topLeftRadius n, hasTopLeftVariable n);
    ("topRight", topRightRadius n, hasTopRightVariable n);
    ("bottomLeft", bottomLeftRadius n, hasBottomLeftVariable n);
    ("bottomRight", bottomRightRadius n, hasBottomRightVariable n) ].

(** A corner is offending when its value is above 0 and no variable is
    bound to it; [showCorner] prints it as the code does. *)
Definition isOffending (c : string * option Z * bool) : bool :=
  gtZero (snd (fst c)) && negb (snd c).

Definition showCorner (c : string * option Z * bool) : string :=
  fst (fst c) ++ ": " ++
  match snd (fst c) with Some z => Js.numToString z | None => "undefined" end.

(** The corners with a value above 0 and no variable binding. *)
Definition offendingCorners (n : NodeData) : list string :=
  map showCorner (List.filter isOffending (cornerTable n)).

(** The four corner values are equal. *)
Definition allFourEqual (n : NodeData) : bool :=
  optZ_eqb (topLeftRadius n) (topRightRadius n) &&
  optZ_eqb (topRightRadius n) (bottomLeftRadius n) &&
  optZ_eqb (bottomLeftRadius n) (bottomRightRadius n).

(** The style ids that [checkLibrarySources] looks at, with the issue
    type each is reported under: fill, stroke, text (on text nodes) and
    effect. *)
Definition boundStyles (n : NodeData) : list (LintIssueType * string) :=
  ([ (Fill, styleRefString (fillStyleId n));
     (Stroke, optString (strokeStyleId n)) ] ++
   (if String.eqb (kind n) "TEXT" then [ (Text, styleRefString (textStyleId n)) ] else []) ++
   [ (Fill, optString (effectStyleId n)) ])%list.

(** The shape of the issues of each checker. *)
Definition isWrongLibraryIssue (i : LintIssue) : Prop :=
  message i = "Wrong library/" ++ typeText (type i) /\ sourceLibraryId i <> None.


(** Every node of a tree, whatever its kind. *)
Fixpoint totalNodeCount (node : Node) : nat :=
  match node with
  | MkNode _ children =>
      S ((fix sum (l : list Node) : nat :=
            match l with
            | [] => 0%nat
            | c :: r => (totalNodeCount c + sum r)%nat
            end) children)
  end.

(** Every node below a list of roots. *)
Definition forestNodeCount (nodes : list Node) : nat :=
  fold_left (fun acc n => (acc + totalNodeCount n)%nat) nodes 0%nat.

(** The issues of one type, in order. *)
Definition ofType (t : LintIssueType) (l : list LintIssue) : list LintIssue :=
  List.filter (fun i => LintIssueType_eqb t (type i)) l.




(** The part of the key after the node id and its dash. *)
Definition keyTail (x : LintIssue) : string :=
  match type x with
  | Radius =>
      typeString (type x) ++ "-" ++ optString (details x) ++ "-" ++ message x
  | _ =>
      typeString (type x) ++
      (if truthyString (optString (details x)) then "-" ++ optString (details x) else "")
  end.

(** First occurrences under a key: [sameKey x y] compares two keys,
    [firstOccurrencesBy] is the list without the elements whose key an
    earlier element has, [fresh keys y] says that the key of [y] is not
    among [keys]. *)
Section FirstOccurrencesBy.
Context {A : Type} (key : A -> string).

Definition sameKey (x y : A) : bool := String.eqb (key y) (key x).

(** Keep the head; of the rest, keep the first occurrences whose key
    differs from the head's. *)
Fixpoint firstOccurrencesBy (l : list A) : list A :=
  match l with
  | [] => []
  | x :: r => x :: List.filter (fun y => negb (sameKey x y)) (firstOccurrencesBy r)
  end.

Definition fresh (keys : list string) (y : A) : bool :=
  negb (existsb (fun k => String.eqb k (key y)) keys).

End FirstOccurrencesBy.

(** ** Sample documents *)

Module Sample.

Definition blank (nid nm k : string) : NodeData :=
  {| id := nid; name := nm; kind := k; locked := false; visible := true;
     parentType := Some "PAGE";
     fills := None; strokes := None; fillStyleId := None; strokeStyleId := None;
     textStyleId := None; effectStyleId := None; boundVariables := None;
     cornerRadius := None; topLeftRadius := None; topRightRadius := None;
     bottomLeftRadius := None; bottomRightRadius := None;
     layoutMode := None; primaryAxisAlignItems := None; layoutWrap := None;
     itemSpacing := 0; paddingLeft := 0; paddingRight := 0; paddingTop := 0;
     paddingBottom := 0; mainComponent := None |}.

(** A rectangle-like node: aggregate radius and the four corners. *)
Definition withCorners (cr : RadiusValue) (tl tr bl br : Z) (n : NodeData) : NodeData :=
  {| id := id n; name := name n; kind := kind n; locked := locked n;
     visible := visible n; parentType := parentType n;
     fills := fills n; strokes := strokes n; fillStyleId := fillStyleId n;
     strokeStyleId := strokeStyleId n; textStyleId := textStyleId n;
     effectStyleId := effectStyleId n; boundVariables := boundVariables n;
     cornerRadius := Some cr; topLeftRadius := Some tl; topRightRadius := Some tr;
     bottomLeftRadius := Some bl; bottomRightRadius := Some br;
     layoutMode := layoutMode n; primaryAxisAlignItems := primaryAxisAlignItems n;
     layoutWrap := layoutWrap n; itemSpacing := itemSpacing n;
     paddingLeft := paddingLeft n; paddingRight := paddingRight n;
     paddingTop := paddingTop n; paddingBottom := paddingBottom n;
     mainComponent := mainComponent n |}.

(** A vector-like node: the aggregate radius only. *)
Definition withRadiusOnly (cr : RadiusValue) (n : NodeData) : NodeData :=
  {| id := id n; name := name n; kind := kind n; locked := locked n;
     visible := visible n; parentType := parentType n;
     fills := fills n; strokes := strokes n; fillStyleId := fillStyleId n;
     strokeStyleId := strokeStyleId n; textStyleId := textStyleId n;
     effectStyleId := effectStyleId n; boundVariables := boundVariables n;
     cornerRadius := Some cr; topLeftRadius := None; topRightRadius := None;
     bottomLeftRadius := None; bottomRightRadius := None;
     layoutMode := layoutMode n; primaryAxisAlignItems := primaryAxisAlignItems n;
     layoutWrap := layoutWrap n; itemSpacing := itemSpacing n;
     paddingLeft := paddingLeft n; paddingRight := paddingRight n;
     paddingTop := paddingTop n; paddingBottom := paddingBottom n;
     mainComponent := mainComponent n |}.

Definition withLocked (b : bool) (n : NodeData) : NodeData :=
  {| id := id n; name := name n; kind := kind n; locked := b;
     visible := visible n; parentType := parentType n;
     fills := fills n; strokes := strokes n; fillStyleId := fillStyleId n;
     strokeStyleId := strokeStyleId n; textStyleId := textStyleId n;
     effectStyleId := effectStyleId n; boundVariables := boundVariables n;
     cornerRadius := cornerRadius n; topLeftRadius := topLeftRadius n;
     topRightRadius := topRightRadius n; bottomLeftRadius := bottomLeftRadius n;
     bottomRightRadius := bottomRightRadius n;
     layoutMode := layoutMode n; primaryAxisAlignItems := primaryAxisAlignItems n;
     layoutWrap := layoutWrap n; itemSpacing := itemSpacing n;
     paddingLeft := paddingLeft n; paddingRight := paddingRight n;
     paddingTop := paddingTop n; paddingBottom := paddingBottom n;
     mainComponent := mainComponent n |}.

(** A solid fill, optionally linked to a style. *)
Definition withFill (style : option StyleRef) (n : NodeData) : NodeData :=
  {| id := id n; name := name n; kind := kind n; locked := locked n;
     visible := visible n; parentType := parentType n;
     fills := Some (PaintList [ {| paintType := "SOLID" |} ]); strokes := strokes n;
     fillStyleId := style;
     strokeStyleId := strokeStyleId n; textStyleId := textStyleId n;
     effectStyleId := effectStyleId n; boundVariables := boundVariables n;
     cornerRadius := cornerRadius n; topLeftRadius := topLeftRadius n;
     topRightRadius := topRightRadius n; bottomLeftRadius := bottomLeftRadius n;
     bottomRightRadius := bottomRightRadius n;
     layoutMode := layoutMode n; primaryAxisAlignItems := primaryAxisAlignItems n;
     layoutWrap := layoutWrap n; itemSpacing := itemSpacing n;
     paddingLeft := paddingLeft n; paddingRight := paddingRight n;
     paddingTop := paddingTop n; paddingBottom := paddingBottom n;
     mainComponent := mainComponent n |}.

(** A horizontal auto-layout with the given item spacing and bindings. *)
Definition withLayout (spacing : Z) (b : option BoundVariables) (n : NodeData) : NodeData :=
  {| id := id n; name := name n; kind := kind n; locked := locked n;
     visible := visible n; parentType := parentType n;
     fills := fills n; strokes := strokes n; fillStyleId := fillStyleId n;
     strokeStyleId := strokeStyleId n; textStyleId := textStyleId n;
     effectStyleId := effectStyleId n; boundVariables := b;
     cornerRadius := cornerRadius n; topLeftRadius := topLeftRadius n;
     topRightRadius := topRightRadius n; bottomLeftRadius := bottomLeftRadius n;
     bottomRightRadius := bottomRightRadius n;
     layoutMode := Some "HORIZONTAL"; primaryAxisAlignItems := Some "MIN";
     layoutWrap := Some "NO_WRAP"; itemSpacing := spacing;
     paddingLeft := paddingLeft n; paddingRight := paddingRight n;
     paddingTop := paddingTop n; paddingBottom := paddingBottom n;
     mainComponent := mainComponent n |}.

Definition settings (lib : option string) (exceptions : list string)
    (exclude : bool) (flags : bool) : Settings :=
  {| selectedLibraryId := lib; libraryMap := {[ "libA" := "Brand A" ]};
     styleExceptions := exceptions;
     excludeLockedLayers := exclude; excludeHiddenLayers := exclude;
     checkFills := flags; checkStrokes := flags; checkTexts := flags;
     checkRadius := flags; checkGaps := flags; checkPadding := flags |}.

(** A host that knows one style and one variable, both of library
    [libA] and both named under [Retail UI/]. *)
Definition host : Host :=
  {| getStyleById := fun sid =>
       if String.eqb sid "S:libA,1:7" then Some "Retail UI/border-banner" else None;
     getVariableById := fun vid =>
       if String.eqb vid "VariableID:9:1"
       then Some {| variableName := "Retail UI/gap-small";
                    variableCollectionId := "VariableCollectionId:9:0" |}
       else None;
     getVariableCollectionById := fun cid =>
       if String.eqb cid "VariableCollectionId:9:0"
       then Some {| collectionLibraryId := Some "libA" |} else None |}.

(** A host without any style or variable. *)
Definition noHost : Host :=
  {| getStyleById := fun _ => None;
     getVariableById := fun _ => None;
     getVariableCollectionById := fun _ => None |}.

Definition rect8 : NodeData :=
  withCorners (RadiusNum 8) 8 8 8 8 (blank "1:2" "Card" "RECTANGLE").

Definition rectMixed : NodeData :=
  withCorners RadiusMixed 8 8 0 8 (blank "1:3" "Tab" "RECTANGLE").

Definition star0 : NodeData :=
  withRadiusOnly (RadiusNum 0) (blank "1:4" "Star" "STAR").

Definition lockedRect8 : NodeData := withLocked true rect8.

End Sample.

Definition styledCard : NodeData :=
  Sample.withFill (Some (StyleId "S:libA,1:7")) (Sample.blank "2:1" "Card" "RECTANGLE").

Definition spacedCard : NodeData :=
  Sample.withLayout 16 (Some [("itemSpacing", Alias "VariableID:9:1")])
    (Sample.blank "2:2" "Card" "FRAME").

(** A page with one rectangle whose fill is linked to a style of library
    [libA], scanned against [libB] with every category switch off. *)
Definition allOff : Settings := Sample.settings (Some "libB") [] true false.

Definition frameNode : NodeData := Sample.blank "3:1" "Screen" "FRAME".

Definition paintedRect : NodeData :=
  Sample.withFill None (Sample.blank "3:2" "Tile" "RECTANGLE").

(** One frame holding 5000 empty frames. *)
Definition manyFrames : list Node :=
  [MkNode frameNode (repeat (MkNode frameNode []) 5000)].

(** One frame holding 5001 rectangles with an unlinked solid fill. *)
Definition manyRectangles : list Node :=
  [MkNode frameNode (repeat (MkNode paintedRect []) 5001)].

(** Four equal corners, each bound to a variable. *)
Definition boundRect : NodeData :=
  {| id := "4:1"; name := "Chip"; kind := "RECTANGLE"; locked := false; visible := true;
     parentType := Some "FRAME";
     fills := None; strokes := None; fillStyleId := None; strokeStyleId := None;
     textStyleId := None; effectStyleId := None;
     boundVariables :=
       Some [ ("topLeftRadius", Alias "VariableID:9:2");
              ("topRightRadius", Alias "VariableID:9:2");
              ("bottomLeftRadius", Alias "VariableID:9:2");
              ("bottomRightRadius", Alias "VariableID:9:2") ];
     cornerRadius := Some (RadiusNum 8); topLeftRadius := Some 8;
     topRightRadius := Some 8; bottomLeftRadius := Some 8; bottomRightRadius := Some 8;
     layoutMode := None; primaryAxisAlignItems := None; layoutWrap := None;
     itemSpacing := 0; paddingLeft := 0; paddingRight := 0; paddingTop := 0;
     paddingBottom := 0; mainComponent := None |}.

Definition lockedStyledCard : NodeData := Sample.withLocked true styledCard.

Definition lintLocked : Settings := Sample.settings (Some "libB") [] false true.

(** ** Further vocabulary: the nodes a scan visits *)

(** The nodes that [traverse] reaches from a root, parent before
    children, children in order: the root itself, and below it the
    children that [keepChild] lets through. *)
Fixpoint visited (s : Settings) (node : Node) : list NodeData :=
  match node with
  | MkNode d children =>
      d :: (fix each (l : list Node) : list NodeData :=
              match l with
              | [] => []
              | c :: r => ((if keepChild s c then visited s c else []) ++ each r)%list
              end) children
  end.

(** The nodes visited below a node. *)
Definition visitedChildren (s : Settings) (l : list Node) : list NodeData :=
  flat_map (fun c => if keepChild s c then visited s c else []) l.

(** What a scan gains from a list of visited nodes: the issues and audit
    entries of the lintable ones, and a count of all of them. *)
Definition walk (s : Settings) (host : Host) (seen : list NodeData) : ScanState :=
  {| issues := flat_map (nodeIssues s host) (List.filter (isLintableNode s) seen);
     nodeCount := length seen;
     auditLog := flat_map nodeEntries (List.filter (isLintableNode s) seen) |}.

(** The roots of a scan, and the visited nodes that are handed to the two
    checkers. *)
Definition scanRoots (selection pageChildren : list Node) : list Node :=
  match selection with [] => pageChildren | _ => selection end.

Definition evaluated (s : Settings) (nodes : list Node) : list NodeData :=
  List.filter (isLintableNode s) (flat_map (visited s) nodes).

(** Every node of a tree, parent before children. *)
Fixpoint allNodes (node : Node) : list NodeData :=
  match node with
  | MkNode d children =>
      d :: (fix each (l : list Node) : list NodeData :=
              match l with
              | [] => []
              | c :: r => (allNodes c ++ each r)%list
              end) children
  end.

(** The issues of the detachment evaluator among a list of issues: they
    are the ones without a source library. *)
Definition isDetachment (i : LintIssue) : bool :=
  match sourceLibraryId i with None => true | Some _ => false end.

Definition detachmentIssues (l : list LintIssue) : list LintIssue :=
  List.filter isDetachment l.

(** The two padding tests of [checkDetachedStyles]. *)
Definition hasHorizontalPaddingIssue (n : NodeData) : bool :=
  ((0 <? paddingLeft n) && negb (hasVariableBinding (boundVariables n) "paddingLeft")) ||
  ((0 <? paddingRight n) && negb (hasVariableBinding (boundVariables n) "paddingRight")).

Definition hasVerticalPaddingIssue (n : NodeData) : bool :=
  ((0 <? paddingTop n) && negb (hasVariableBinding (boundVariables n) "paddingTop")) ||
  ((0 <? paddingBottom n) && negb (hasVariableBinding (boundVariables n) "paddingBottom")).

(** The evaluator goes past its guard. *)
Definition evaluatorRuns (n : NodeData) : bool := negb (locked n) && visible n.

(** The issue carries the identity of the node it was created for. *)
Definition issueOfNode (d : NodeData) (i : LintIssue) : Prop :=
  nodeId i = id d /\ nodeName i = name d /\ nodeType i = kind d /\
  layoutInfo i = getAutoLayoutInfo d.

(** The radius issues and the layout issues of one evaluation. *)
Definition radiusPart (n : NodeData) : list LintIssue :=
  match cornerRadius n with
  | Some cr => fst (cornerRadiusCheck n cr [])
  | None => []
  end.

Definition layoutPart (n : NodeData) : list LintIssue :=
  if hasAutoLayout n then (gapCheck n ++ paddingCheck n)%list else [].

(** Every character of the string is a letter. *)
Fixpoint allLetters (s : string) : bool :=
  match s with
  | EmptyString => true
  | String c r => Js.isLetter c && allLetters r
  end.

(** The name under which the host knows a style, empty when it does not
    know it. *)
Definition styleNameOf (host : Host) (styleId : string) : string :=
  match getStyleById host styleId with Some nm => nm | None => "" end.

(** Sample inputs: a page, a frame that holds a locked rectangle and a
    painted one, and settings with every category on. *)
Definition pageNode : NodeData := Sample.blank "0:1" "Page 1" "PAGE".

Definition lockedChild : Node := MkNode Sample.lockedRect8 [MkNode paintedRect []].

Definition mixedFrame : Node := MkNode frameNode [lockedChild; MkNode paintedRect []].

Definition checkAll : Settings := Sample.settings None [] false true.

Definition checkUnlocked : Settings := Sample.settings None [] true true.

Definition checkAgainstB : Settings := Sample.settings (Some "libB") ["Tile"] false true.



(** ** [main.ts]: the exception list, the selection state and the
       message handlers *)

(** [exceptionsString.split(',').map(item => item.trim())
      .filter(item => item.length > 0)], as [UPDATE_EXCEPTIONS] and
    [loadExceptions] compute it. *)
Definition parseExceptions (exceptionsString : string) : list string :=
  List.filter (fun item => negb (Js.isEmpty item))
              (map Js.trim (Js.split "," exceptionsString)).

(** [styleExceptions.join(', ')], what [GET_EXCEPTIONS] sends back. *)
Definition exceptionsToString (exceptions : list string) : string :=
  Js.join ", " exceptions.

(** [isValid] of [SELECTION_CHANGE]: [selectionCount > 0 &&
    selectionCount <= 10]. *)
Definition isValidSelection (selectionCount : nat) : bool :=
  Nat.ltb 0 selectionCount && Nat.leb selectionCount 10.

(** The globals of [main.ts] that the handlers read and write. *)
Record Plugin := {
  settings : Settings;
  currentIssues : list LintIssue;
  radiusAuditLog : AuditLog
}.

(** What the host shows of the document when a handler runs. *)
Record Document := {
  selection : list Node;
  pageChildren : list Node
}.

(** The [settings] argument of [UPDATE_ISSUE_TYPE_CHECKS]: each field may
    be undefined. *)
Record TypeChecks := {
  fillCheckUpdate : option bool;
  strokeCheckUpdate : option bool;
  textCheckUpdate : option bool;
  radiusCheckUpdate : option bool;
  gapCheckUpdate : option bool;
  paddingCheckUpdate : option bool
}.

Definition orKeep (update : option bool) (current : bool) : bool :=
  match update with Some b => b | None => current end.

Definition withTypeChecks (u : TypeChecks) (s : Settings) : Settings :=
  {| selectedLibraryId := selectedLibraryId s; libraryMap := libraryMap s;
     styleExceptions := styleExceptions s;
     excludeLockedLayers := excludeLockedLayers s;
     excludeHiddenLayers := excludeHiddenLayers s;
     checkFills := orKeep (fillCheckUpdate u) (checkFills s);
     checkStrokes := orKeep (strokeCheckUpdate u) (checkStrokes s);
     checkTexts := orKeep (textCheckUpdate u) (checkTexts s);
     checkRadius := orKeep (radiusCheckUpdate u) (checkRadius s);
     checkGaps := orKeep (gapCheckUpdate u) (checkGaps s);
     checkPadding := orKeep (paddingCheckUpdate u) (checkPadding s) |}.

Definition withExcludeLocked (b : bool) (s : Settings) : Settings :=
  {| selectedLibraryId := selectedLibraryId s; libraryMap := libraryMap s;
     styleExceptions := styleExceptions s;
     excludeLockedLayers := b;
     excludeHiddenLayers := excludeHiddenLayers s;
     checkFills := checkFills s; checkStrokes := checkStrokes s;
     checkTexts := checkTexts s; checkRadius := checkRadius s;
     checkGaps := checkGaps s; checkPadding := checkPadding s |}.

Definition withExcludeHidden (b : bool) (s : Settings) : Settings :=
  {| selectedLibraryId := selectedLibraryId s; libraryMap := libraryMap s;
     styleExceptions := styleExceptions s;
     excludeLockedLayers := excludeLockedLayers s;
     excludeHiddenLayers := b;
     checkFills := checkFills s; checkStrokes := checkStrokes s;
     checkTexts := checkTexts s; checkRadius := checkRadius s;
     checkGaps := checkGaps s; checkPadding := checkPadding s |}.

Definition withExceptions (l : list string) (s : Settings) : Settings :=
  {| selectedLibraryId := selectedLibraryId s; libraryMap := libraryMap s;
     styleExceptions := l;
     excludeLockedLayers := excludeLockedLayers s;
     excludeHiddenLayers := excludeHiddenLayers s;
     checkFills := checkFills s; checkStrokes := checkStrokes s;
     checkTexts := checkTexts s; checkRadius := checkRadius s;
     checkGaps := checkGaps s; checkPadding := checkPadding s |}.

Definition withSelectedLibrary (lib : string) (s : Settings) : Settings :=
  {| selectedLibraryId := Some lib; libraryMap := libraryMap s;
     styleExceptions := styleExceptions s;
     excludeLockedLayers := excludeLockedLayers s;
     excludeHiddenLayers := excludeHiddenLayers s;
     checkFills := checkFills s; checkStrokes := checkStrokes s;
     checkTexts := checkTexts s; checkRadius := checkRadius s;
     checkGaps := checkGaps s; checkPadding := checkPadding s |}.

(** What a handler emits to the UI. *)
Inductive Message :=
| FromRescan (e : Emitted)
| SETTINGS_UPDATING
| REPORT_GENERATED (content timestamp : string)
| SELECTION_CHANGE (isValid : bool) (count : nat)
| EXCEPTIONS_LOADED (text : string).

(** The messages the UI sends, with what the host answers while the
    handler runs: the document it shows, whether the writes to the client
    storage go through, and the two readings of the clock that a report
    carries. *)
Inductive Request :=
| SCAN_AGAIN (doc : Document)
| GET_SELECTION_STATE (doc : Document)
| GET_EXCEPTIONS
| UPDATE_EXCEPTIONS (exceptionsString : string)
| SAVE_SELECTED_LIBRARY (lib : string)
| UPDATE_ISSUE_TYPE_CHECKS (u : TypeChecks) (doc : Document) (stored : bool)
| UPDATE_EXCLUDE_LOCKED (b : bool) (doc : Document) (stored : bool)
| UPDATE_EXCLUDE_HIDDEN (b : bool) (doc : Document) (stored : bool)
| GENERATE_REPORT (now timestamp : string).

Section Handlers.

(** The host's resolver, and the text of a report that has issues: the
    text depends on the [debug] strings that are left out of the issues
    here, so it is not spelled out. *)
Variable host : Host.
Variable reportText : list LintIssue -> Settings -> AuditLog -> string -> string.

(** [generateLintReport]: the early return, then the text. *)
Definition generateLintReport (found : list LintIssue) (s : Settings)
    (log : AuditLog) (now : string) : string :=
  match found with
  | [] => "No lint issues found in current selection/document."
  | _ => reportText found s log now
  end.

(** The rescan that follows a change of settings: the new settings are in
    place before the storage is written; when the write fails the handler
    stops there. *)
Definition rescanWith (s : Settings) (doc : Document) (stored : bool) (p : Plugin)
    : Plugin * list Message :=
  if stored then
    let '(found, log') :=
      scanForIssues s host (selection doc) (pageChildren doc) (radiusAuditLog p) in
    ({| settings := s; currentIssues := found; radiusAuditLog := log' |},
     [SETTINGS_UPDATING; FromRescan (UPDATE_ISSUES found)])
  else
    ({| settings := s; currentIssues := currentIssues p;
        radiusAuditLog := radiusAuditLog p |}, []).

Definition handle (p : Plugin) (r : Request) : Plugin * list Message :=
  match r with
  | SCAN_AGAIN doc =>
      let '(emitted, log') :=
        onScanAgain (settings p) host (selection doc) (pageChildren doc)
                    (radiusAuditLog p) in
      ({| settings := settings p; currentIssues := currentIssues p;
          radiusAuditLog := log' |}, map FromRescan emitted)
  | GET_SELECTION_STATE doc =>
      (p, [SELECTION_CHANGE (isValidSelection (length (selection doc)))
                            (length (selection doc))])
  | GET_EXCEPTIONS =>
      (p, [EXCEPTIONS_LOADED (exceptionsToString (styleExceptions (settings p)))])
  | UPDATE_EXCEPTIONS exceptionsString =>
      ({| settings := withExceptions (parseExceptions exceptionsString) (settings p);
          currentIssues := currentIssues p; radiusAuditLog := radiusAuditLog p |}, [])
  | SAVE_SELECTED_LIBRARY lib =>
      ({| settings := withSelectedLibrary lib (settings p);
          currentIssues := currentIssues p; radiusAuditLog := radiusAuditLog p |}, [])
  | UPDATE_ISSUE_TYPE_CHECKS u doc stored =>
      rescanWith (withTypeChecks u (settings p)) doc stored p
  | UPDATE_EXCLUDE_LOCKED b doc stored =>
      rescanWith (withExcludeLocked b (settings p)) doc stored p
  | UPDATE_EXCLUDE_HIDDEN b doc stored =>
      rescanWith (withExcludeHidden b (settings p)) doc stored p
  | GENERATE_REPORT now timestamp =>
      (p, [REPORT_GENERATED
             (generateLintReport (currentIssues p) (settings p) (radiusAuditLog p) now)
             timestamp])
  end.

(** A session: the requests handled one after the other. *)
Definition session (p : Plugin) (requests : list Request) : Plugin :=
  fold_left (fun q r => fst (handle q r)) requests p.

End Handlers.

(** The requests after which [currentIssues] is assigned: the three
    changes of settings, when the storage write went through. *)
Definition feedsReport (r : Request) : bool :=
  match r with
  | UPDATE_ISSUE_TYPE_CHECKS _ _ stored
  | UPDATE_EXCLUDE_LOCKED _ _ stored
  | UPDATE_EXCLUDE_HIDDEN _ _ stored => stored
  | _ => false
  end.

(** The blank that [join(', ')] leaves in front of every item but the
    first. *)
Definition lead (b : bool) : string := if b then " " else "".

(** A plug-in that has just started, with nothing scanned yet. *)
Definition freshPlugin (s : Settings) : Plugin :=
  {| settings := s; currentIssues := []; radiusAuditLog := [] |}.

(** A page that shows one rectangle with an unbound radius of 8, which is
    also the selection. *)
Definition cardDocument : Document :=
  {| selection := [MkNode Sample.rect8 []]; pageChildren := [MkNode Sample.rect8 []] |}.

(** Six selected frames. *)
Definition sixFrames : list Node := repeat (MkNode frameNode []) 6.

(** ** [ErrorDisplay] and [utils/report]: filtering and grouping *)

(** [getIssueTypeText(issue.type, issue)]: a wrong-library issue is shown
    with its message, any other issue with the name of its type. *)
Definition getIssueTypeText (t : LintIssueType) (issue : LintIssue) : string :=
  if truthyString (message issue) && Js.startsWith (message issue) "Wrong library/"
  then message issue
  else match t with
       | Fill => "Color Fill" | Stroke => "Color Stroke" | Text => "Text Style"
       | Radius => "Radius" | Gap => "Gap" | Padding => "Padding"
       end.

(** [filteredIssues]: the selected filter is 'all' ([None]) or a type. *)
Definition filteredIssues (selectedFilter : option LintIssueType) (l : list LintIssue)
    : list LintIssue :=
  match selectedFilter with
  | None => allUniqueIssues l
  | Some f =>
      List.filter
        (fun issue =>
           match type issue with
           | Radius => LintIssueType_eqb f Radius
           | t => LintIssueType_eqb t f
           end)
        (allUniqueIssues l)
  end.

(** The reducers that file each element under a key of an object and
    push it to the array found there ([groupedIssues], [issuesByType]).
    The keys used are no array indices and no property names of
    [Object.prototype], so the object lists them in insertion order and
    holds nothing under a key before the first push. *)
Section GroupInto.
Context {A : Type} (key : A -> string).

Definition hasGroup (k : string) (acc : list (string * list A)) : bool :=
  existsb (fun e => String.eqb (fst e) k) acc.

(** [acc[k].push(x)] *)
Fixpoint pushTo (k : string) (x : A) (acc : list (string * list A))
    : list (string * list A) :=
  match acc with
  | [] => []
  | (k', g) :: r =>
      if String.eqb k' k then (k', (g ++ [x])%list) :: r
      else (k', g) :: pushTo k x r
  end.

(** [if (!acc[k]) acc[k] = []; acc[k].push(x)] *)
Definition groupStep (acc : list (string * list A)) (x : A) : list (string * list A) :=
  let k := key x in
  if hasGroup k acc then pushTo k x acc else (acc ++ [(k, [x])])%list.

Definition groupInto (l : list A) : list (string * list A) :=
  fold_left groupStep l [].

(** The elements filed under the key of [x]. *)
Definition groupOf (l : list A) (x : A) : string * list A :=
  (key x, List.filter (sameKey key x) l).

End GroupInto.

(** The key of a layer row. *)
Definition layerKey (issue : LintIssue) : string :=
  nodeId issue ++ "-" ++ nodeName issue.

Definition groupedIssues (selectedFilter : option LintIssueType) (l : list LintIssue)
    : list (string * list LintIssue) :=
  groupInto layerKey (filteredIssues selectedFilter l).



(** [issuesByType] of [generateLintReport]: the sections of the report,
    in the order of [Object.keys]. *)
Definition issueTypeKey (issue : LintIssue) : string := typeString (type issue).

Definition issuesByType (l : list LintIssue) : list (string * list LintIssue) :=
  groupInto issueTypeKey l.

(** The sum of the lengths of the groups. *)
Definition groupedCount {A : Type} (groups : list (string * list A)) : nat :=
  list_sum (map (fun g => length (snd g)) groups).


(** ** [main.ts]: [getAvailableLibraries] *)

(** A variable collection published by an enabled library, as the host
    lists it. *)
Module Collection.

Record t := { name : string; key : string; libraryName : string }.

End Collection.

Inductive LibraryType := document | team.

(** [LibraryInfo]; a missing [isDependency] reads as [false]. *)
Module Library.

Record t := {
  id : string;
  name : string;
  type : LibraryType;
  enabled : bool;
  firstCollectionKey : option string;
  firstCollectionName : option string;
  collectionCount : option nat;
  collectionNames : option (list string);
  displayName : option string;
  isDependency : bool
}.

End Library.

(** What [figma.teamLibrary] gives: the interface is missing, the request
    for the collections throws, or the collections arrive. *)
Inductive TeamLibraryApi :=
  | Unavailable
  | Rejects
  | Collections (libraryCollections : list Collection.t).

(** The local [Map] from library id to library, in insertion order, and
    the two objects that count and name the collections of a library. *)
Record LibraryTables := {
  byId : list (string * Library.t);
  collectionsPerLibrary : gmap string nat;
  collectionNamesPerLibrary : gmap string (list string)
}.

Definition noTables : LibraryTables :=
  {| byId := []; collectionsPerLibrary := ∅; collectionNamesPerLibrary := ∅ |}.

(** [libraryMap.has(libraryId)] *)
Definition hasLibrary (libraryId : string) (m : list (string * Library.t)) : bool :=
  existsb (fun e => String.eqb (fst e) libraryId) m.

(** The entry set for a library when its first collection is met. *)
Definition newLibrary (libraryId : string) (collection : Collection.t) : Library.t :=
  {| Library.id := libraryId;
     Library.name :=
       if truthyString (Collection.libraryName collection)
       then Collection.libraryName collection else "Unknown Library";
     Library.type := team;
     Library.enabled := true;
     Library.firstCollectionKey := Some (Collection.key collection);
     Library.firstCollectionName := Some (Collection.name collection);
     Library.collectionCount := None;
     Library.collectionNames := None;
     Library.displayName := None;
     Library.isDependency := false |}.

(** The body of the loop over the collections, once the library id is
    read off the key. *)
Definition recordCollection (libraryId : string) (collection : Collection.t)
    (t : LibraryTables) : LibraryTables :=
  let counts :=
    <[ libraryId := (default 0%nat (collectionsPerLibrary t !! libraryId) + 1)%nat ]>
      (collectionsPerLibrary t) in
  let names0 :=
    match collectionNamesPerLibrary t !! libraryId with
    | Some _ => collectionNamesPerLibrary t
    | None => <[ libraryId := [] ]> (collectionNamesPerLibrary t)
    end in
  let names :=
    if truthyString (Collection.name collection)
    then <[ libraryId :=
              (default [] (names0 !! libraryId) ++ [Collection.name collection])%list ]>
           names0
    else names0 in
  {| byId :=
       if hasLibrary libraryId (byId t) then byId t
       else (byId t ++ [(libraryId, newLibrary libraryId collection)])%list;
     collectionsPerLibrary := counts;
     collectionNamesPerLibrary := names |}.

(** [const parts = collection.key.split('/'); if (parts.length > 0) ...] *)
Definition processCollection (t : LibraryTables) (collection : Collection.t)
    : LibraryTables :=
  match Js.split "/" (Collection.key collection) with
  | libraryId :: _ => recordCollection libraryId collection t
  | [] => t
  end.

(** The two tests on the lower-cased name of the first collection. *)
Definition hasSpecialName (firstCollectionName : string) : bool :=
  let lower := Js.toLowerCase firstCollectionName in
  Js.includes lower "semantic" || Js.includes lower "primitive" ||
  Js.includes lower "token".

Definition hasDependencyName (firstCollectionName : string) : bool :=
  let lower := Js.toLowerCase firstCollectionName in
  Js.includes lower "primitive" ||
  (Js.includes lower "token" && negb (Js.includes lower "semantic")).

(** The first [libraryMap.forEach]: count, names, display name and the
    dependency flag of one library. *)
Definition describeLibrary (t : LibraryTables) (entry : string * Library.t) : Library.t :=
  let (id, library) := entry in
  let special :=
    match Library.firstCollectionName library with
    | Some n => truthyString n && hasSpecialName n
    | None => false
    end in
  {| Library.id := Library.id library;
     Library.name := Library.name library;
     Library.type := Library.type library;
     Library.enabled := Library.enabled library;
     Library.firstCollectionKey := Library.firstCollectionKey library;
     Library.firstCollectionName := Library.firstCollectionName library;
     Library.collectionCount := Some (default 0%nat (collectionsPerLibrary t !! id));
     Library.collectionNames := Some (default [] (collectionNamesPerLibrary t !! id));
     Library.displayName :=
       match Library.firstCollectionName library with
       | Some n =>
           if special then Some (Library.name library ++ " (" ++ n ++ ")")
           else Library.displayName library
       | None => Library.displayName library
       end;
     Library.isDependency :=
       match Library.firstCollectionName library with
       | Some n =>
           if special && hasDependencyName n then true
           else Library.isDependency library
       | None => Library.isDependency library
       end |}.

(** The tables after the loop, and the team libraries added to the list:
    the libraries of the map that are no dependencies. *)
Definition libraryTables (libraryCollections : list Collection.t) : LibraryTables :=
  fold_left processCollection libraryCollections noTables.

Definition teamLibraries (libraryCollections : list Collection.t) : list Library.t :=
  let t := libraryTables libraryCollections in
  List.filter (fun library => negb (Library.isDependency library))
    (map (describeLibrary t) (byId t)).

Definition documentStyles : Library.t :=
  {| Library.id := "local-styles";
     Library.name := "Document Styles";
     Library.type := document;
     Library.enabled := true;
     Library.firstCollectionKey := None;
     Library.firstCollectionName := None;
     Library.collectionCount := None;
     Library.collectionNames := None;
     Library.displayName := None;
     Library.isDependency := false |}.

(** [libraryMap.clear(); libraries.forEach(lib => libraryMap.set(...))] *)
Definition libraryMapOf (libraries : list Library.t) : gmap string string :=
  fold_left (fun m lib => <[ Library.id lib := Library.name lib ]> m) libraries ∅.

(** [getAvailableLibraries]: the libraries returned and the global
    library map afterwards.  [localStyles] is the number of local text,
    effect, paint and grid styles, or [None] when the host fails to list
    them: the outer [catch] then returns no library and leaves the map as
    it was. *)
Definition getAvailableLibraries (libraryMap : gmap string string)
    (localStyles : option nat) (teamLibrary : TeamLibraryApi)
    : list Library.t * gmap string string :=
  match localStyles with
  | None => ([], libraryMap)
  | Some n =>
      let libraries :=
        ((if (0 <? n)%nat then [documentStyles] else []) ++
         match teamLibrary with
         | Collections libraryCollections => teamLibraries libraryCollections
         | Unavailable | Rejects => []
         end)%list in
      (libraries, libraryMapOf libraries)
  end.

(** The library id of a collection: its key up to the first slash. *)
Definition libraryIdOf (collection : Collection.t) : string :=
  hd "" (Js.split "/" (Collection.key collection)).

(** The two counting objects are plain objects: a library id that names
    a property of [Object.prototype] would find that property in them.
    Such ids are outside the model. *)
Definition objectPrototypeNames : list string :=
  ["constructor"; "hasOwnProperty"; "isPrototypeOf"; "propertyIsEnumerable";
   "toLocaleString"; "toString"; "valueOf"; "__proto__";
   "__defineGetter__"; "__defineSetter__"; "__lookupGetter__"; "__lookupSetter__"].

Definition plainIds (libraryCollections : list Collection.t) : bool :=
  forallb (fun c => negb (existsb (String.eqb (libraryIdOf c)) objectPrototypeNames))
          libraryCollections.

(** The collections of a library, and the first collection of a library
    in the list. *)
Definition collectionsOf (libraryId : string) (l : list Collection.t) : list Collection.t :=
  List.filter (fun c => String.eqb (libraryIdOf c) libraryId) l.

Definition firstCollectionOf (libraryId : string) (l : list Collection.t)
    : option Collection.t :=
  find (fun c => String.eqb (libraryIdOf c) libraryId) l.

(** Two libraries with variables: a brand library whose first collection
    holds semantic tokens, and the primitives it builds on. *)
Definition brandCollections : list Collection.t :=
  [ {| Collection.name := "Semantic tokens"; Collection.key := "libA/c1";
       Collection.libraryName := "Brand A" |};
    {| Collection.name := "Primitives"; Collection.key := "libP/c1";
       Collection.libraryName := "Core" |};
    {| Collection.name := "Sizes"; Collection.key := "libA/c2";
       Collection.libraryName := "Brand A" |} ].

(** The entry of the map for the library of a collection, once
    described. *)
Definition describedLibrary (l : list Collection.t) (c : Collection.t) : Library.t :=
  describeLibrary (libraryTables l) (libraryIdOf c, newLibrary (libraryIdOf c) c).

(** The name given to a library: [collection.libraryName || 'Unknown Library'] *)
Definition libraryNameFrom (c : Collection.t) : string :=
  if truthyString (Collection.libraryName c) then Collection.libraryName c
  else "Unknown Library".

(** * Properties *)

(** ** The string primitives and helpers on examples *)

Example trim_example : Js.trim "  Retail UI/*  " = "Retail UI/*".
Proof. reflexivity. Qed.

Example split_example : Js.split "," "a,b,,c" = ["a"; "b"; ""; "c"].
Proof. reflexivity. Qed.

Example strip_example :
  Js.stripTypePrefix "S:abc,1:2" = "abc,1:2" /\ Js.stripTypePrefix "12:a" = "12:a".
Proof. split; reflexivity. Qed.

Example numToString_example :
  Js.numToString 8 = "8" /\ Js.numToString 0 = "0" /\ Js.numToString 120 = "120".
Proof. repeat split; reflexivity. Qed.

Example matchesExceptions_example :
  matchesExceptions "Retail UI/border-banner" ["Retail UI/*"] = true /\
  matchesExceptions "Brand/red" ["Retail UI/*"; " RED "] = true /\
  matchesExceptions "Brand/blue" ["Retail UI/*"; "red"] = false.
Proof. repeat split; reflexivity. Qed.

Example getStyleLibraryInfo_example :
  getStyleLibraryInfo "S:libA,12:7" = Some {| libraryId := "libA"; styleKeyId := "12:7" |} /\
  getStyleLibraryInfo "S:12:7" = Some {| libraryId := "local"; styleKeyId := "S:12:7" |}.
Proof. split; reflexivity. Qed.

(** ** Induction on trees and the shape of a traversal *)

Lemma traverse_unfold s host d children st :
  traverse s host (MkNode d children) st =
  traverseChildren s host children
    (if isLintableNode s d then lintNode s host d (enterNode st) else enterNode st).
Proof.
  unfold traverseChildren, enterNode. simpl.
  generalize (if isLintableNode s d
              then lintNode s host d
                     {| issues := issues st; nodeCount := S (nodeCount st);
                        auditLog := auditLog st |}
              else {| issues := issues st; nodeCount := S (nodeCount st);
                      auditLog := auditLog st |}).
  induction children as [|c r IH]; intros acc; simpl; [reflexivity|apply IH].
Qed.

(** ** The audit log only grows, and what is added does not depend on
       what is already there *)

Lemma addRadiusAuditEntry_app n cr tl tr bl br b p bd idt log :
  addRadiusAuditEntry n cr tl tr bl br b p bd idt log =
  (log ++ addRadiusAuditEntry n cr tl tr bl br b p bd idt [])%list.
Proof. reflexivity. Qed.

Lemma cornerRadiusCheck_app n cr log :
  cornerRadiusCheck n cr log =
  (fst (cornerRadiusCheck n cr []), (log ++ snd (cornerRadiusCheck n cr []))%list).
Proof.
  unfold cornerRadiusCheck.
  destruct (branchA n); [reflexivity|].
  destruct (branchB n); [reflexivity|].
  destruct (branchC n cr); [reflexivity|].
  destruct (hasIndividualCornerRadii n); [|simpl; now rewrite app_nil_r].
  destruct (missingBindings n); [reflexivity|].
  destruct (hasUniformIndividualCorners n); reflexivity.
Qed.

Lemma checkDetachedStyles_app n log :
  checkDetachedStyles n log =
  (fst (checkDetachedStyles n []), (log ++ snd (checkDetachedStyles n []))%list).
Proof.
  unfold checkDetachedStyles.
  destruct (locked n || negb (visible n)); [simpl; now rewrite app_nil_r|].
  destruct (cornerRadius n) as [cr|]; [|simpl; now rewrite app_nil_r].
  rewrite (cornerRadiusCheck_app n cr log).
  destruct (cornerRadiusCheck n cr []) as [ri l0]. reflexivity.
Qed.

Lemma lintNode_app s host n st :
  lintNode s host n st =
  {| issues := (issues st ++ nodeIssues s host n)%list;
     nodeCount := nodeCount st;
     auditLog := (auditLog st ++ nodeEntries n)%list |}.
Proof.
  unfold nodeIssues, nodeEntries, lintNode. simpl.
  rewrite (checkDetachedStyles_app n (auditLog st)).
  destruct (checkDetachedStyles n []) as [di l0]. reflexivity.
Qed.

Lemma appendState_empty st : appendState st emptyState = st.
Proof.
  destruct st; unfold appendState; simpl.
  now rewrite !app_nil_r, Nat.add_0_r.
Qed.

Lemma appendState_assoc a b c :
  appendState (appendState a b) c = appendState a (appendState b c).
Proof.
  unfold appendState; simpl. now rewrite !app_assoc, Nat.add_assoc.
Qed.

Lemma traverseChildren_app s host l :
  Forall (fun c => forall st,
            traverse s host c st = appendState st (traverse s host c emptyState)) l ->
  forall st, traverseChildren s host l st =
             appendState st (traverseChildren s host l emptyState).
Proof.
  unfold traverseChildren.
  induction 1 as [|c r Hc _ IH]; intros st; simpl.
  - now rewrite appendState_empty.
  - destruct (keepChild s c).
    + rewrite IH, (IH (traverse s host c emptyState)), (Hc st).
      now rewrite appendState_assoc.
    + apply IH.
Qed.

Lemma traverse_app s host n :
  forall st, traverse s host n st = appendState st (traverse s host n emptyState).
Proof.
  induction n as [d children IH] using Node_forall_ind. intros st.
  rewrite !traverse_unfold.
  pose proof (traverseChildren_app s host children IH) as Hc.
  destruct (isLintableNode s d).
  - rewrite Hc, (Hc (lintNode s host d (enterNode emptyState))).
    rewrite <- appendState_assoc. f_equal.
    rewrite !lintNode_app. unfold appendState, enterNode; simpl.
    f_equal. lia.
  - rewrite Hc, (Hc (enterNode emptyState)).
    rewrite <- appendState_assoc. f_equal.
    unfold appendState, enterNode; simpl.
    rewrite !app_nil_r. f_equal. lia.
Qed.

Lemma traverseAll_app s host nodes :
  forall st, traverseAll s host nodes st =
             appendState st (traverseAll s host nodes emptyState).
Proof.
  unfold traverseAll.
  induction nodes as [|n r IH]; intros st; simpl.
  - now rewrite appendState_empty.
  - rewrite IH, (IH (traverse s host n emptyState)), (traverse_app s host n st).
    now rewrite appendState_assoc.
Qed.

(** A scan returns the same issues whatever the log holds, and leaves the
    log it found with the entries of this scan added at the end. *)
Lemma scanForIssues_app s host selection pageChildren log :
  scanForIssues s host selection pageChildren log =
  (fst (scanForIssues s host selection pageChildren []),
   (log ++ snd (scanForIssues s host selection pageChildren []))%list).
Proof.
  unfold scanForIssues.
  set (nodes := match selection with [] => pageChildren | _ => selection end).
  rewrite (traverseAll_app s host nodes
             {| issues := []; nodeCount := 0; auditLog := log |}).
  reflexivity.
Qed.

(** ** The detachment evaluator on one node *)

Lemma radiusIssuesOf_app a b :
  radiusIssuesOf (a ++ b)%list = (radiusIssuesOf a ++ radiusIssuesOf b)%list.
Proof. apply filter_app. Qed.

Lemma fillCheck_no_radius n : radiusIssuesOf (fillCheck n) = [].
Proof. unfold fillCheck. now destruct (_ && _ && _). Qed.

Lemma strokeCheck_no_radius n : radiusIssuesOf (strokeCheck n) = [].
Proof. unfold strokeCheck. now destruct (_ && _ && _). Qed.

Lemma textCheck_no_radius n : radiusIssuesOf (textCheck n) = [].
Proof.
  unfold textCheck. destruct (String.eqb (kind n) "TEXT"); [|reflexivity].
  now destruct (_ && _).
Qed.

Lemma gapCheck_no_radius n : radiusIssuesOf (gapCheck n) = [].
Proof. unfold gapCheck. now destruct (_ && _ && _). Qed.

Lemma paddingCheck_no_radius n : radiusIssuesOf (paddingCheck n) = [].
Proof. unfold paddingCheck. now destruct (_ || _). Qed.

Lemma checkDetachedStyles_guard n log :
  locked n = true \/ visible n = false -> checkDetachedStyles n log = ([], log).
Proof.
  intros [H|H]; unfold checkDetachedStyles; rewrite H; [reflexivity|].
  now rewrite orb_true_r.
Qed.

(** Past the guard, the radius issues and the log are those of the
    corner-radius block. *)
Lemma checkDetachedStyles_radius n cr log :
  locked n = false -> visible n = true -> cornerRadius n = Some cr ->
  radiusIssuesOf (fst (checkDetachedStyles n log)) =
    radiusIssuesOf (fst (cornerRadiusCheck n cr log)) /\
  snd (checkDetachedStyles n log) = snd (cornerRadiusCheck n cr log).
Proof.
  intros Hl Hv Hc. unfold checkDetachedStyles. rewrite Hl, Hv, Hc. simpl.
  destruct (cornerRadiusCheck n cr log) as [ri l']. simpl. split; [|reflexivity].
  rewrite !radiusIssuesOf_app, fillCheck_no_radius, strokeCheck_no_radius,
    textCheck_no_radius. simpl.
  destruct (hasAutoLayout n).
  - now rewrite radiusIssuesOf_app, gapCheck_no_radius, paddingCheck_no_radius, app_nil_r.
  - simpl. now rewrite app_nil_r.
Qed.

Lemma branchB_implies_branchA n : branchB n = true -> branchA n = true.
Proof.
  unfold branchB, branchA. intros H.
  apply andb_prop in H as [H Hall]. apply andb_prop in H as [_ Hany].
  rewrite Hany, Hall. now rewrite orb_true_r.
Qed.

Lemma branchA_false_branchB_false n : branchA n = false -> branchB n = false.
Proof.
  intros HA. destruct (branchB n) eqn:HB; [|reflexivity].
  apply branchB_implies_branchA in HB. congruence.
Qed.

(** C9: Branch B of the corner-radius decision tree is dead.  Whenever
    its condition holds, the condition of Branch A holds as well, so the
    entries that one evaluation appends to the audit log never carry the
    path "EXCLUDED: Uniform corners with variables". *)
Theorem C9_branch_B_unreachable (n : NodeData) (log : AuditLog) :
  (branchB n = true -> branchA n = true) /\
  exists added : AuditLog,
    snd (checkDetachedStyles n log) = (log ++ added)%list /\
    Forall (fun e => decisionPath e <> "EXCLUDED: Uniform corners with variables") added.
Proof.
  split; [apply branchB_implies_branchA|].
  exists (nodeEntries n). split.
  - now rewrite checkDetachedStyles_app.
  - unfold nodeEntries, checkDetachedStyles.
    destruct (locked n || negb (visible n)); [constructor|].
    destruct (cornerRadius n) as [cr|]; [|constructor].
    destruct (cornerRadiusCheck n cr []) as [ri l'] eqn:E. simpl.
    revert E. unfold cornerRadiusCheck.
    destruct (branchA n) eqn:HA.
    { intros [= _ <-]. repeat constructor. simpl. discriminate. }
    rewrite (branchA_false_branchB_false n HA).
    destruct (branchC n cr).
    { intros [= _ <-]. repeat constructor. simpl. discriminate. }
    destruct (hasIndividualCornerRadii n); [|intros [= _ <-]; constructor].
    destruct (missingBindings n).
    { intros [= _ <-]. repeat constructor. simpl. discriminate. }
    destruct (hasUniformIndividualCorners n);
      intros [= _ <-]; repeat constructor; simpl; discriminate.
Qed.

(** C10: a locked or hidden node gets no detachment issue (and no audit
    entry), whatever the settings.  With both exclusion settings off such
    a node is kept by the traversal, and when it is lintable the only
    issues it contributes are those of the provenance check. *)
Theorem C10_locked_or_hidden_node (s : Settings) (host : Host) (n : NodeData)
    (children : list Node) (st : ScanState) :
  locked n = true \/ visible n = false ->
  (forall log, checkDetachedStyles n log = ([], log)) /\
  (excludeLockedLayers s = false -> excludeHiddenLayers s = false ->
   keepChild s (MkNode n children) = true /\
   (isLintableNode s n = true ->
    lintNode s host n st =
      {| issues := (issues st ++ libraryIssuesOf s host n)%list;
         nodeCount := nodeCount st;
         auditLog := auditLog st |})).
Proof.
  intros H. split; [intros log; now apply checkDetachedStyles_guard|].
  intros HL HH. split.
  - unfold keepChild. now rewrite HL, HH.
  - intros _. unfold lintNode.
    now rewrite (checkDetachedStyles_guard n (auditLog st) H).
Qed.

(** C3 (amended): an unlocked, visible node with a corner-radius property
    gets exactly one audit entry per evaluation when it carries the four
    individual corner properties, or is excluded by Branch A, or has an
    unbound positive aggregate radius. *)
Theorem C3_one_audit_entry (n : NodeData) (cr : RadiusValue) (log : AuditLog) :
  locked n = false -> visible n = true -> cornerRadius n = Some cr ->
  hasIndividualCornerRadii n = true \/ branchA n = true \/ branchC n cr = true ->
  exists e : RadiusAuditEntry,
    snd (checkDetachedStyles n log) = (log ++ [e])%list /\
    entryNodeId e = id n /\ entryCornerRadius e = radiusToString cr.
Proof.
  intros Hl Hv Hc Hcase.
  destruct (checkDetachedStyles_radius n cr log Hl Hv Hc) as [_ ->].
  unfold cornerRadiusCheck.
  destruct (branchA n) eqn:HA; [eexists; simpl; eauto|].
  rewrite (branchA_false_branchB_false n HA).
  destruct (branchC n cr) eqn:HC; [eexists; simpl; eauto|].
  destruct Hcase as [Hi|[Habs|Habs]]; try discriminate.
  rewrite Hi. destruct (missingBindings n); [eexists; simpl; eauto|].
  destruct (hasUniformIndividualCorners n); eexists; simpl; eauto.
Qed.

(** C6 (amended): on an unlocked, visible node that Branch A and Branch B
    do not exclude and whose aggregate radius is a positive number
    without a variable binding, the evaluator emits exactly one radius
    issue, with details "uniform", and appends one audit entry marked as
    an issue under the uniform-radius path. *)
Theorem C6_uniform_radius_issue (n : NodeData) (c : Z) (log : AuditLog) :
  locked n = false -> visible n = true ->
  cornerRadius n = Some (RadiusNum c) -> 0 < c ->
  hasVariableBinding (boundVariables n) "cornerRadius" = false ->
  branchA n = false -> branchB n = false ->
  radiusIssuesOf (fst (checkDetachedStyles n log)) = [createRadiusIssue n "uniform"] /\
  details (createRadiusIssue n "uniform") = Some "uniform" /\
  exists e : RadiusAuditEntry,
    snd (checkDetachedStyles n log) = (log ++ [e])%list /\
    entryNodeId e = id n /\ isIssue e = true /\
    decisionPath e = "ISSUE: Uniform radius without variables".
Proof.
  intros Hl Hv Hc Hpos Hvar HA HB.
  destruct (checkDetachedStyles_radius n (RadiusNum c) log Hl Hv Hc) as [-> ->].
  unfold cornerRadiusCheck. rewrite HA, HB.
  assert (HC : branchC n (RadiusNum c) = true).
  { unfold branchC, hasCornerRadiusVariable. rewrite Hvar.
    apply andb_true_intro. split; [now apply Z.ltb_lt|reflexivity]. }
  rewrite HC. simpl. repeat split. eexists. repeat split.
Qed.

(** *** Branch D, described by a table of the four corners *)

Lemma missingBindings_table n :
  hasIndividualCornerRadii n = true -> missingBindings n = offendingCorners n.
Proof.
  intros Hi.
  unfold missingBindings, offendingCorners, cornerTable, topLeft, topRight,
    bottomLeft, bottomRight.
  rewrite Hi. unfold hasIndividualCornerRadii in Hi.
  destruct (topLeftRadius n) as [a|]; [|discriminate].
  destruct (topRightRadius n) as [b|]; [|discriminate].
  destruct (bottomLeftRadius n) as [c|]; [|discriminate].
  destruct (bottomRightRadius n) as [d|]; [|discriminate].
  unfold missingCorner, isOffending, showCorner. simpl.
  destruct (0 <? a), (hasTopLeftVariable n), (0 <? b), (hasTopRightVariable n),
    (0 <? c), (hasBottomLeftVariable n), (0 <? d), (hasBottomRightVariable n);
    reflexivity.
Qed.

(** When some corner is offending, "uniform" in the code's sense (equal
    and positive) is the same as the four corners being equal. *)
Lemma uniform_when_offending n :
  hasIndividualCornerRadii n = true -> offendingCorners n <> [] ->
  hasUniformIndividualCorners n = allFourEqual n.
Proof.
  intros Hi Hne.
  unfold hasUniformIndividualCorners, allFourEqual, topLeft, topRight,
    bottomLeft, bottomRight.
  rewrite Hi. simpl.
  unfold offendingCorners, cornerTable, isOffending in Hne.
  unfold hasIndividualCornerRadii in Hi.
  destruct (topLeftRadius n) as [a|]; [|discriminate].
  destruct (topRightRadius n) as [b|]; [|discriminate].
  destruct (bottomLeftRadius n) as [c|]; [|discriminate].
  destruct (bottomRightRadius n) as [d|]; [|discriminate].
  simpl in *.
  destruct (a =? b) eqn:Eab; [|reflexivity].
  destruct (b =? c) eqn:Ebc; [|reflexivity].
  destruct (c =? d) eqn:Ecd; [|reflexivity].
  apply Z.eqb_eq in Eab, Ebc, Ecd. subst b c d. simpl.
  destruct (0 <? a); [reflexivity|]. simpl in Hne. now contradiction Hne.
Qed.

(** C7: on a node that reaches Branch D (past the guard, not taken by
    Branches A to C, with the four individual corners), the corners
    collected are those of the table with value > 0 and no binding, in
    table order; if there is none no radius issue is emitted, otherwise
    exactly one: a radius issue of the node whose details is "uniform"
    when the four corners are equal and else "mixed (...)" listing the
    collected corners. *)
Theorem C7_individual_corners (n : NodeData) (cr : RadiusValue) (log : AuditLog) :
  locked n = false -> visible n = true -> cornerRadius n = Some cr ->
  branchA n = false -> branchC n cr = false ->
  hasIndividualCornerRadii n = true ->
  missingBindings n = offendingCorners n /\
  radiusIssuesOf (fst (checkDetachedStyles n log)) =
    match offendingCorners n with
    | [] => []
    | _ :: _ =>
        [createRadiusIssue n
           (if allFourEqual n then "uniform"
            else "mixed (" ++ Js.join ", " (offendingCorners n) ++ ")")]
    end /\
  map (fun i => (nodeId i, type i, details i))
      (radiusIssuesOf (fst (checkDetachedStyles n log))) =
    match offendingCorners n with
    | [] => []
    | _ :: _ =>
        [(id n, Radius,
          Some (if allFourEqual n then "uniform"
                else "mixed (" ++ Js.join ", " (offendingCorners n) ++ ")"))]
    end.
Proof.
  intros Hl Hv Hc HA HC Hi.
  pose proof (missingBindings_table n Hi) as Hm. split; [exact Hm|].
  assert (H : radiusIssuesOf (fst (checkDetachedStyles n log)) =
              match offendingCorners n with
              | [] => []
              | _ :: _ =>
                  [createRadiusIssue n
                     (if allFourEqual n then "uniform"
                      else "mixed (" ++ Js.join ", " (offendingCorners n) ++ ")")]
              end).
  { destruct (checkDetachedStyles_radius n cr log Hl Hv Hc) as [-> _].
    unfold cornerRadiusCheck.
    rewrite HA, (branchA_false_branchB_false n HA), HC, Hi, Hm.
    pose proof (uniform_when_offending n Hi) as Hu.
    destruct (offendingCorners n) as [|x r]; [reflexivity|].
    rewrite Hu by discriminate.
    destruct (allFourEqual n); reflexivity. }
  split; [exact H|]. rewrite H.
  destruct (offendingCorners n) as [|x r]; reflexivity.
Qed.

(** The spec's example: corners [8, 8, 0, 8] and no binding. *)
Lemma C7_individual_corners_witness :
  missingBindings Sample.rectMixed = ["topLeft: 8"; "topRight: 8"; "bottomRight: 8"] /\
  radiusIssuesOf (fst (checkDetachedStyles Sample.rectMixed [])) =
    [createRadiusIssue Sample.rectMixed
       "mixed (topLeft: 8, topRight: 8, bottomRight: 8)"] /\
  map (fun i => (nodeId i, type i, details i))
      (radiusIssuesOf (fst (checkDetachedStyles Sample.rectMixed []))) =
    [("1:3", Radius, Some "mixed (topLeft: 8, topRight: 8, bottomRight: 8)")].
Proof.
  exact (C7_individual_corners Sample.rectMixed RadiusMixed []
           eq_refl eq_refl eq_refl eq_refl eq_refl eq_refl).
Defined.

Lemma C3_one_audit_entry_witness :
  exists e : RadiusAuditEntry,
    snd (checkDetachedStyles Sample.rectMixed []) = [e] /\
    entryNodeId e = "1:3" /\ entryCornerRadius e = "mixed".
Proof.
  exact (C3_one_audit_entry Sample.rectMixed RadiusMixed []
           eq_refl eq_refl eq_refl (or_introl eq_refl)).
Defined.

Lemma C6_uniform_radius_issue_witness :
  radiusIssuesOf (fst (checkDetachedStyles Sample.rect8 [])) =
    [createRadiusIssue Sample.rect8 "uniform"] /\
  details (createRadiusIssue Sample.rect8 "uniform") = Some "uniform" /\
  exists e : RadiusAuditEntry,
    snd (checkDetachedStyles Sample.rect8 []) = [e] /\
    entryNodeId e = "1:2" /\ isIssue e = true /\
    decisionPath e = "ISSUE: Uniform radius without variables".
Proof.
  exact (C6_uniform_radius_issue Sample.rect8 8 []
           eq_refl eq_refl eq_refl eq_refl eq_refl eq_refl eq_refl).
Defined.

(** A node that is lintable with layer exclusion off, yet locked: the
    evaluator returns before it reaches the radius rule. *)
Lemma C3_locked_node_no_entry :
  isLintableNode (Sample.settings None [] false true) Sample.lockedRect8 = true /\
  cornerRadius Sample.lockedRect8 = Some (RadiusNum 8) /\
  ~ exists e : RadiusAuditEntry,
      snd (checkDetachedStyles Sample.lockedRect8 []) = [e].
Proof.
  repeat split. intros [e He]. discriminate He.
Qed.

Lemma C6_locked_node_no_issue :
  isLintableNode (Sample.settings None [] false true) Sample.lockedRect8 = true /\
  cornerRadius Sample.lockedRect8 = Some (RadiusNum 8) /\
  hasVariableBinding (boundVariables Sample.lockedRect8) "cornerRadius" = false /\
  branchA Sample.lockedRect8 = false /\ branchB Sample.lockedRect8 = false /\
  checkDetachedStyles Sample.lockedRect8 [] = ([], []).
Proof. repeat split. Qed.

(** Past the guard, the one shape that gets no audit entry: no individual
    corners and an aggregate radius that is not a positive number. *)
Example star_without_entry :
  locked Sample.star0 = false /\ visible Sample.star0 = true /\
  cornerRadius Sample.star0 = Some (RadiusNum 0) /\
  checkDetachedStyles Sample.star0 [] = ([], []).
Proof. repeat split. Qed.

(** ** Two scans in a row *)

(** Nothing in [scanForIssues] empties the log: the second of two scans
    returns the same issues and leaves the entries of both. *)
Lemma scan_twice s host selection pageChildren log :
  let first := scanForIssues s host selection pageChildren log in
  let second := scanForIssues s host selection pageChildren (snd first) in
  fst second = fst first /\
  snd second = (snd first ++ snd (scanForIssues s host selection pageChildren []))%list.
Proof.
  cbv zeta.
  rewrite (scanForIssues_app s host selection pageChildren
             (snd (scanForIssues s host selection pageChildren log))).
  split; cbn [fst snd]; [|reflexivity].
  now rewrite (scanForIssues_app s host selection pageChildren log).
Qed.

(** C2, evaluated on a page holding one rectangle with an unbound radius
    of 8, scanned twice from an empty log: the issues of the two scans
    (and their deduplicated sets) agree, but the log after the second
    scan is the log after the first one twice over. *)
Theorem C2_second_scan_doubles_log :
  let s := Sample.settings None [] true true in
  let page := [MkNode Sample.rect8 []] in
  let first := scanForIssues s Sample.noHost [] page [] in
  let second := scanForIssues s Sample.noHost [] page (snd first) in
  fst second = fst first /\
  allUniqueIssues (fst second) = allUniqueIssues (fst first) /\
  length (snd first) = 1%nat /\
  snd second = (snd first ++ snd first)%list /\
  snd second <> snd first.
Proof.
  vm_compute. repeat split. discriminate.
Qed.

(** ** The provenance check *)

Lemma checkLibrarySources_parts host n lib map exceptions :
  checkLibrarySources host n lib map exceptions =
  if existsb (exceptionMatches (name n)) exceptions then []
  else
    (flat_map (fun b => checkStyleSource host n lib map exceptions (fst b) (snd b))
              (boundStyles n) ++
     checkVariableSources host n lib map)%list.
Proof.
  unfold checkLibrarySources, boundStyles.
  destruct (existsb _ exceptions); [reflexivity|].
  destruct (String.eqb (kind n) "TEXT"); simpl; now rewrite ?app_nil_r, <- ?app_assoc.
Qed.

Lemma matchesExceptions_nonempty nm exceptions :
  matchesExceptions nm exceptions = true -> truthyString nm = true.
Proof.
  destruct nm; [|reflexivity].
  destruct exceptions; simpl; discriminate.
Qed.

(** C5 (amended): a bound style whose resolved name matches an exception
    pattern yields no wrong-library issue, whatever library its id names;
    the issues of the provenance check are those of the node's style
    bindings followed by those of its variable bindings, and there are
    none when the node's own name matches an exception.  The name of a
    bound variable is not looked at: a property bound to one variable
    whose collection belongs to a library other than the selected one
    yields one wrong-library issue that names that library, whatever the
    variable is called and whatever the exceptions are, and the check
    reports it on every node whose own name matches no exception. *)
Theorem C5_exceptions_cover_styles_only (host : Host) (n : NodeData) (lib : string)
    (map : gmap string string) (exceptions : list string)
    (t : LintIssueType) (styleId styleName : string)
    (propName varId source : string) (variable : VariableInfo)
    (collection : CollectionInfo) (boundVars : BoundVariables) :
  (getStyleById host styleId = Some styleName ->
   matchesExceptions styleName exceptions = true ->
   checkStyleSource host n lib map exceptions t styleId = []) /\
  checkLibrarySources host n lib map exceptions =
    (if existsb (exceptionMatches (name n)) exceptions then []
     else
       (flat_map (fun b => checkStyleSource host n lib map exceptions (fst b) (snd b))
                 (boundStyles n) ++
        checkVariableSources host n lib map)%list) /\
  (existsb (exceptionMatches (name n)) exceptions = true ->
   checkLibrarySources host n lib map exceptions = []) /\
  (truthyString varId = true ->
   getVariableById host varId = Some variable ->
   getVariableCollectionById host (variableCollectionId variable) = Some collection ->
   collectionLibraryId collection = Some source ->
   truthyString source = true -> String.eqb source lib = false ->
   let issue :=
     createWrongLibraryIssue n (issueTypeOfProperty propName) source
       (libraryNameOf map source) in
   checkVariableSource host n lib map (propName, Alias varId) = [issue] /\
   nodeId issue = id n /\ type issue = issueTypeOfProperty propName /\
   sourceLibraryId issue = Some source /\
   sourceLibraryName issue = Some (libraryNameOf map source) /\
   (existsb (exceptionMatches (name n)) exceptions = false ->
    boundVariables n = Some boundVars ->
    In (propName, Alias varId) boundVars ->
    In issue (checkLibrarySources host n lib map exceptions))).
Proof.
  split; [|split; [apply checkLibrarySources_parts|split]].
  - intros Hname Hmatch. unfold checkStyleSource.
    destruct (truthyString styleId); [|reflexivity].
    rewrite Hname, Hmatch, (matchesExceptions_nonempty _ _ Hmatch). reflexivity.
  - intros Hnode. rewrite checkLibrarySources_parts. now rewrite Hnode.
  - intros Hid Hvar Hcoll Hlib Hsource Hother. cbv zeta.
    assert (Hone : checkVariableSource host n lib map (propName, Alias varId) =
                   [createWrongLibraryIssue n (issueTypeOfProperty propName) source
                      (libraryNameOf map source)]).
    { unfold checkVariableSource. now rewrite Hid, Hvar, Hcoll, Hlib, Hsource, Hother. }
    split; [exact Hone|]. do 4 (split; [reflexivity|]).
    intros Hnode Hbound Hin. rewrite checkLibrarySources_parts, Hnode.
    apply in_or_app. right. unfold checkVariableSources. rewrite Hbound.
    apply in_flat_map. exists (propName, Alias varId). split; [exact Hin|].
    rewrite Hone. now left.
Qed.

(** A style and a variable that both match [Retail UI/*], on a node that
    does not: the style is passed over, the variable is reported. *)
Lemma C5_exceptions_cover_styles_only_witness :
  checkStyleSource Sample.host spacedCard "libB" ∅ ["Retail UI/*"] Fill "S:libA,1:7" = [] /\
  matchesExceptions "Retail UI/gap-small" ["Retail UI/*"] = true /\
  In (createWrongLibraryIssue spacedCard Gap "libA" "Unknown library")
     (checkLibrarySources Sample.host spacedCard "libB" ∅ ["Retail UI/*"]) /\
  sourceLibraryId (createWrongLibraryIssue spacedCard Gap "libA" "Unknown library") =
    Some "libA".
Proof.
  destruct (C5_exceptions_cover_styles_only Sample.host spacedCard "libB" ∅
              ["Retail UI/*"] Fill "S:libA,1:7" "Retail UI/border-banner"
              "itemSpacing" "VariableID:9:1" "libA"
              {| variableName := "Retail UI/gap-small";
                 variableCollectionId := "VariableCollectionId:9:0" |}
              {| collectionLibraryId := Some "libA" |}
              [("itemSpacing", Alias "VariableID:9:1")])
    as (Hstyle & _ & _ & Hvariable).
  split; [exact (Hstyle eq_refl eq_refl)|]. split; [reflexivity|].
  destruct (Hvariable eq_refl eq_refl eq_refl eq_refl eq_refl eq_refl)
    as (_ & _ & _ & Hsource & _ & Hin).
  split; [exact (Hin eq_refl eq_refl (or_introl eq_refl))|exact Hsource].
Defined.

(** Without the exception the same style is reported. *)
Example style_flagged_without_exception :
  checkLibrarySources Sample.host styledCard "libB" ∅ [] =
  [createWrongLibraryIssue styledCard Fill "libA" "Unknown library"].
Proof. reflexivity. Qed.

(** A bound variable is not compared with the exception patterns: its
    name matches [Retail UI/*], and it is reported all the same. *)
Lemma C5_excepted_variable_flagged :
  (exists v, getVariableById Sample.host "VariableID:9:1" = Some v /\
             matchesExceptions (variableName v) ["Retail UI/*"] = true) /\
  checkVariableSource Sample.host spacedCard "libB" ∅
    ("itemSpacing", Alias "VariableID:9:1") =
    [createWrongLibraryIssue spacedCard Gap "libA" "Unknown library"] /\
  checkLibrarySources Sample.host spacedCard "libB" ∅ ["Retail UI/*"] =
    [createWrongLibraryIssue spacedCard Gap "libA" "Unknown library"].
Proof.
  split; [eexists; split; reflexivity|]. split; reflexivity.
Qed.

(** ** What a scan reports *)

(** A property of every issue a node contributes holds of every issue of
    a traversal. *)
Section ScanInvariant.
Variables (s : Settings) (host : Host) (P : LintIssue -> Prop).
Hypothesis node_ok : forall d, Forall P (nodeIssues s host d).

Lemma traverseChildren_invariant l :
  Forall (fun c => forall st, Forall P (issues st) ->
                              Forall P (issues (traverse s host c st))) l ->
  forall st, Forall P (issues st) -> Forall P (issues (traverseChildren s host l st)).
Proof.
  unfold traverseChildren.
  induction 1 as [|c r Hc _ IH]; intros st Hst; simpl; [exact Hst|].
  apply IH. destruct (keepChild s c); [now apply Hc|exact Hst].
Qed.

Lemma traverse_invariant n :
  forall st, Forall P (issues st) -> Forall P (issues (traverse s host n st)).
Proof.
  induction n as [d children IH] using Node_forall_ind. intros st Hst.
  rewrite traverse_unfold. apply (traverseChildren_invariant children IH).
  destruct (isLintableNode s d); [|exact Hst].
  rewrite lintNode_app. simpl. apply Forall_app. split; [exact Hst|apply node_ok].
Qed.

Lemma scanForIssues_invariant selection pageChildren log :
  Forall P (fst (scanForIssues s host selection pageChildren log)).
Proof.
  unfold scanForIssues, traverseAll. simpl.
  generalize (match selection with [] => pageChildren | _ => selection end).
  intros nodes.
  assert (H : Forall P (issues {| issues := []; nodeCount := 0; auditLog := log |}))
    by constructor.
  revert H. generalize {| issues := []; nodeCount := 0; auditLog := log |}.
  induction nodes as [|n r IH]; intros st Hst; simpl; [exact Hst|].
  apply IH. now apply traverse_invariant.
Qed.

End ScanInvariant.

Lemma checkStyleSource_shape host n lib map exceptions t sid :
  Forall isWrongLibraryIssue (checkStyleSource host n lib map exceptions t sid).
Proof.
  unfold checkStyleSource.
  destruct (truthyString sid); [|constructor].
  destruct (_ && _); [constructor|].
  destruct (getStyleLibraryInfo sid) as [info|]; [|constructor].
  destruct (String.eqb (libraryId info) "local"); [constructor|].
  destruct (negb _); repeat constructor. discriminate.
Qed.

Lemma checkVariableSource_shape host n lib map entry :
  Forall isWrongLibraryIssue (checkVariableSource host n lib map entry).
Proof.
  unfold checkVariableSource.
  destruct entry as [propName [varId|ids]]; [|constructor].
  destruct (truthyString varId); [|constructor].
  destruct (getVariableById host varId) as [v|]; [|constructor].
  destruct (getVariableCollectionById host _) as [c|]; [|constructor].
  destruct (collectionLibraryId c) as [l|]; [|constructor].
  destruct (_ && _); repeat constructor. discriminate.
Qed.

Lemma checkLibrarySources_shape host n lib map exceptions :
  Forall isWrongLibraryIssue (checkLibrarySources host n lib map exceptions).
Proof.
  rewrite checkLibrarySources_parts.
  destruct (existsb _ exceptions); [constructor|].
  apply Forall_app. split.
  - apply Forall_flat_map, Forall_forall. intros b _. apply checkStyleSource_shape.
  - unfold checkVariableSources. destruct (boundVariables n) as [bv|]; [|constructor].
    apply Forall_flat_map, Forall_forall. intros e _. apply checkVariableSource_shape.
Qed.

Lemma checkDetachedStyles_no_source n log :
  Forall (fun i => sourceLibraryId i = None) (fst (checkDetachedStyles n log)).
Proof.
  unfold checkDetachedStyles.
  destruct (locked n || negb (visible n)); [constructor|].
  assert (Hr : Forall (fun i => sourceLibraryId i = None)
                 (fst (match cornerRadius n with
                       | Some cr => cornerRadiusCheck n cr log
                       | None => ([], log)
                       end))).
  { destruct (cornerRadius n) as [cr|]; [|constructor].
    unfold cornerRadiusCheck.
    destruct (branchA n); [constructor|]. destruct (branchB n); [constructor|].
    destruct (branchC n cr); [repeat constructor|].
    destruct (hasIndividualCornerRadii n); [|constructor].
    destruct (missingBindings n); [constructor|].
    destruct (hasUniformIndividualCorners n); repeat constructor. }
  destruct (match cornerRadius n with
            | Some cr => cornerRadiusCheck n cr log
            | None => ([], log)
            end) as [ri l']. simpl in *.
  repeat (apply Forall_app; split); try exact Hr.
  - unfold fillCheck. destruct (_ && _ && _); repeat constructor.
  - unfold strokeCheck. destruct (_ && _ && _); repeat constructor.
  - unfold textCheck. destruct (String.eqb (kind n) "TEXT"); [|constructor].
    destruct (_ && _); repeat constructor.
  - destruct (hasAutoLayout n); [|constructor]. apply Forall_app. split.
    + unfold gapCheck. destruct (_ && _ && _); repeat constructor.
    + unfold paddingCheck. destruct (_ || _); repeat constructor.
Qed.





(** ** The size cap of the manual rescan *)

(** C4 (amended): when one to five roots are selected and more than 5000
    frames, components and instances are counted below them (a node is
    counted when it and all its ancestors up to the root are of these
    kinds), the manual rescan emits an empty issue list and the
    too-many-frames selection error, and leaves the audit log as it
    was: no node is evaluated. *)
Theorem C4_frame_cap (s : Settings) (host : Host) (selection pageChildren : list Node)
    (log : AuditLog) :
  (1 <= length selection <= 5)%nat ->
  (5000 <? totalFrameCount selection)%nat = true ->
  onScanAgain s host selection pageChildren log =
    ([UPDATE_ISSUES []; tooManyFrames], log).
Proof.
  intros [Hlo Hhi] Hcap. unfold onScanAgain.
  destruct (Nat.eqb_spec (length selection) 0) as [E|_]; [lia|].
  destruct (Nat.ltb_spec 5 (length selection)) as [E|_]; [lia|].
  now rewrite Hcap.
Qed.

Lemma C4_frame_cap_witness :
  onScanAgain (Sample.settings None [] true true) Sample.noHost manyFrames [] [] =
    ([UPDATE_ISSUES []; tooManyFrames], []).
Proof.
  apply (C4_frame_cap (Sample.settings None [] true true) Sample.noHost manyFrames [] []).
  - simpl. lia.
  - vm_compute. reflexivity.
Defined.

(** 5002 nodes, one of them a frame: the rescan runs and reports the
    5001 fills. *)
Lemma C4_many_nodes_are_scanned :
  (5000 <? forestNodeCount manyRectangles)%nat = true /\
  totalFrameCount manyRectangles = 1%nat /\
  match fst (onScanAgain (Sample.settings None [] true true) Sample.noHost
               manyRectangles [] []) with
  | [UPDATE_ISSUES found] => length found = 5001%nat
  | _ => False
  end.
Proof.
  split; [vm_compute; reflexivity|]. split; vm_compute; reflexivity.
Qed.

(** ** Aggregation *)

(** *** First occurrences *)

Section FirstOccurrences.
Context {A : Type} (key : A -> string).

Lemma filter_fresh_cons keys x l :
  List.filter (fresh key (keys ++ [key x])) l =
  List.filter (fresh key keys) (List.filter (fun y => negb (sameKey key x y)) l).
Proof.
  induction l as [|y r IH]; [reflexivity|]. simpl.
  unfold fresh at 1, sameKey at 1. rewrite existsb_app. simpl. rewrite orb_false_r.
  rewrite negb_orb. fold (fresh key keys y).
  rewrite (String.eqb_sym (key x) (key y)).
  destruct (String.eqb (key y) (key x)); simpl.
  - rewrite andb_false_r. exact IH.
  - rewrite andb_true_r. destruct (fresh key keys y); [now rewrite IH|exact IH].
Qed.

Lemma filter_fresh_seen keys x l :
  fresh key keys x = false ->
  List.filter (fresh key keys) (List.filter (fun y => negb (sameKey key x y)) l) =
  List.filter (fresh key keys) l.
Proof.
  intros Hx. induction l as [|y r IH]; [reflexivity|]. simpl.
  unfold sameKey at 1. destruct (String.eqb (key y) (key x)) eqn:E; simpl.
  - apply String.eqb_eq in E. unfold fresh at 2. rewrite E. fold (fresh key keys x).
    rewrite Hx. exact IH.
  - destruct (fresh key keys y); [now rewrite IH|exact IH].
Qed.

Lemma firstOccurrencesBy_keys_in l x :
  In x (firstOccurrencesBy key l) -> In x l.
Proof.
  revert x. induction l as [|y r IH]; intros x; simpl; [tauto|].
  intros [->|H]; [now left|]. right. apply IH. now apply filter_In in H as [H _].
Qed.

Lemma NoDup_map_filter (p : A -> bool) l :
  NoDup (map key l) -> NoDup (map key (List.filter p l)).
Proof.
  induction l as [|y r IH]; simpl; [trivial|].
  intros H. inversion H as [|? ? Hn Hr]; subst.
  destruct (p y); simpl; [|now apply IH].
  constructor; [|now apply IH].
  intros Hin. apply Hn. apply in_map_iff in Hin as [z [Hz Hin]].
  apply in_map_iff. exists z. split; [exact Hz|]. now apply filter_In in Hin as [Hin _].
Qed.

Lemma firstOccurrencesBy_NoDup l : NoDup (map key (firstOccurrencesBy key l)).
Proof.
  induction l as [|x r IH]; simpl; constructor.
  - intros Hin. apply in_map_iff in Hin as [z [Hz Hin]].
    apply filter_In in Hin as [_ Hin]. unfold sameKey in Hin.
    rewrite Hz, String.eqb_refl in Hin. discriminate.
  - now apply NoDup_map_filter.
Qed.

End FirstOccurrences.

(** The reducer, from any accumulator. *)
Lemma lookupKey_fresh key acc :
  lookupKey key acc = None <-> existsb (fun k => String.eqb k key) (map fst acc) = false.
Proof.
  induction acc as [|[k v] r IH]; simpl; [tauto|].
  destruct (String.eqb k key); simpl; [split; discriminate|exact IH].
Qed.

Lemma dedup_fold l : forall acc,
  map snd (fold_left dedupStep l acc) =
  (map snd acc ++
   List.filter (fresh dedupKey (map fst acc)) (firstOccurrencesBy dedupKey l))%list.
Proof.
  induction l as [|x r IH]; intros acc; simpl; [now rewrite app_nil_r|].
  rewrite IH. unfold dedupStep.
  destruct (lookupKey (dedupKey x) acc) as [v|] eqn:E.
  - assert (Hx : fresh dedupKey (map fst acc) x = false).
    { unfold fresh. destruct (existsb _ _) eqn:E'; [reflexivity|].
      apply lookupKey_fresh in E'. congruence. }
    rewrite Hx. now rewrite filter_fresh_seen.
  - assert (Hx : fresh dedupKey (map fst acc) x = true).
    { unfold fresh. apply lookupKey_fresh in E. now rewrite E. }
    rewrite Hx, !map_app. simpl. rewrite <- app_assoc. simpl.
    now rewrite filter_fresh_cons.
Qed.

Lemma filter_all_true {A} (p : A -> bool) l :
  (forall x, p x = true) -> List.filter p l = l.
Proof.
  intros H. induction l as [|x r IH]; simpl; [reflexivity|]. now rewrite H, IH.
Qed.

Lemma allUniqueIssues_first l : allUniqueIssues l = firstOccurrencesBy dedupKey l.
Proof.
  unfold allUniqueIssues, allDeduplicatedIssues. rewrite dedup_fold. simpl.
  now apply filter_all_true.
Qed.

(** *** Counts *)

Lemma count_fold l : forall acc t,
  fold_left countStep l acc t = (acc t + length (ofType t l))%nat.
Proof.
  induction l as [|x r IH]; intros acc t; simpl; [lia|].
  rewrite IH. unfold countStep.
  destruct (LintIssueType_eqb t (type x)); simpl; lia.
Qed.

(** *** The key and the fields it is built from *)

Lemma truthyOptString_optString o : truthyOptString o = truthyString (optString o).
Proof. now destruct o. Qed.



Lemma dedupKey_tail x : dedupKey x = nodeId x ++ "-" ++ keyTail x.
Proof.
  unfold dedupKey, keyTail. rewrite truthyOptString_optString.
  destruct (type x); reflexivity.
Qed.




(** ** Witnesses for Branch B and for locked nodes *)

Lemma C9_branch_B_unreachable_witness :
  branchB boundRect = true /\ branchA boundRect = true /\
  exists added : AuditLog,
    snd (checkDetachedStyles boundRect []) = added /\
    Forall (fun e => decisionPath e <> "EXCLUDED: Uniform corners with variables") added.
Proof.
  destruct (C9_branch_B_unreachable boundRect []) as [HBA Hlog].
  split; [reflexivity|]. split; [apply HBA; reflexivity|exact Hlog].
Defined.

Example boundRect_entry :
  map decisionPath (snd (checkDetachedStyles boundRect [])) =
  ["EXCLUDED: Has necessary variable bindings"].
Proof. reflexivity. Qed.

Lemma C10_locked_or_hidden_node_witness :
  checkDetachedStyles lockedStyledCard [] = ([], []) /\
  keepChild lintLocked (MkNode lockedStyledCard []) = true /\
  isLintableNode lintLocked lockedStyledCard = true /\
  lintNode lintLocked Sample.host lockedStyledCard emptyState =
    {| issues := [createWrongLibraryIssue lockedStyledCard Fill "libA" "Brand A"];
       nodeCount := 0; auditLog := [] |}.
Proof.
  destruct (C10_locked_or_hidden_node lintLocked Sample.host lockedStyledCard []
              emptyState (or_introl eq_refl)) as [Hnone Hkept].
  destruct (Hkept eq_refl eq_refl) as [Hkeep Hlint].
  split; [apply Hnone|]. split; [exact Hkeep|]. split; [reflexivity|].
  rewrite (Hlint eq_refl). vm_compute. reflexivity.
Defined.

(** * Further properties *)

(** ** A scan as a walk over the visited nodes *)

Lemma visited_unfold s d children :
  visited s (MkNode d children) = d :: visitedChildren s children.
Proof.
  reflexivity.
Qed.

Lemma walk_app s host a b :
  walk s host (a ++ b)%list = appendState (walk s host a) (walk s host b).
Proof.
  unfold walk, appendState. simpl.
  now rewrite filter_app, !flat_map_app, length_app.
Qed.

Lemma traverseChildren_walk s host l :
  Forall (fun c => traverse s host c emptyState = walk s host (visited s c)) l ->
  traverseChildren s host l emptyState = walk s host (visitedChildren s l).
Proof.
  induction 1 as [|c r Hc _ IH]; [reflexivity|].
  unfold traverseChildren, visitedChildren in *. simpl.
  rewrite walk_app. destruct (keepChild s c).
  - fold (traverseChildren s host r (traverse s host c emptyState)).
    rewrite traverseChildren_app
      by (apply Forall_forall; intros x _; apply traverse_app).
    unfold traverseChildren. now rewrite IH, Hc.
  - rewrite IH. unfold appendState, walk. simpl. reflexivity.
Qed.

Lemma traverse_walk s host n :
  traverse s host n emptyState = walk s host (visited s n).
Proof.
  induction n as [d children IH] using Node_forall_ind.
  rewrite traverse_unfold, visited_unfold.
  rewrite traverseChildren_app
    by (apply Forall_forall; intros x _; apply traverse_app).
  rewrite (traverseChildren_walk s host children IH).
  change (d :: visitedChildren s children)
    with ([d] ++ visitedChildren s children)%list.
  rewrite walk_app. f_equal.
  unfold walk. simpl. destruct (isLintableNode s d).
  - rewrite lintNode_app. simpl. now rewrite !app_nil_r.
  - reflexivity.
Qed.

Lemma traverseAll_walk s host nodes :
  traverseAll s host nodes emptyState = walk s host (flat_map (visited s) nodes).
Proof.
  induction nodes as [|n r IH]; [reflexivity|].
  unfold traverseAll in *. simpl.
  fold (traverseAll s host r (traverse s host n emptyState)).
  rewrite traverseAll_app. unfold traverseAll. rewrite IH, traverse_walk.
  now rewrite walk_app.
Qed.

Lemma scanForIssues_walk (s : Settings) (host : Host)
    (selection pageChildren : list Node) (log : AuditLog) :
  scanForIssues s host selection pageChildren log =
    (flat_map (nodeIssues s host) (evaluated s (scanRoots selection pageChildren)),
     (log ++ flat_map nodeEntries (evaluated s (scanRoots selection pageChildren)))%list).
Proof.
  rewrite scanForIssues_app. unfold scanForIssues.
  fold (scanRoots selection pageChildren). fold emptyState.
  now rewrite traverseAll_walk.
Qed.


(** ** The issues of one evaluation *)

Lemma checkDetachedStyles_issues n log :
  fst (checkDetachedStyles n log) =
  if evaluatorRuns n
  then (fillCheck n ++ strokeCheck n ++ textCheck n ++ radiusPart n ++ layoutPart n)%list
  else [].
Proof.
  unfold checkDetachedStyles, evaluatorRuns, radiusPart, layoutPart.
  destruct (locked n), (visible n); simpl; try reflexivity.
  destruct (cornerRadius n) as [cr|]; [|reflexivity].
  rewrite (cornerRadiusCheck_app n cr log).
  now destruct (cornerRadiusCheck n cr []).
Qed.

Lemma radiusPart_shape n :
  radiusPart n = [] \/ exists det, radiusPart n = [createRadiusIssue n det].
Proof.
  unfold radiusPart. destruct (cornerRadius n) as [cr|]; [|now left].
  unfold cornerRadiusCheck.
  destruct (branchA n); [now left|]. destruct (branchB n); [now left|].
  destruct (branchC n cr); [right; now eexists|].
  destruct (hasIndividualCornerRadii n); [|now left].
  destruct (missingBindings n); [now left|].
  destruct (hasUniformIndividualCorners n); right; now eexists.
Qed.

Lemma mkIssue_ofNode n t msg det lib : issueOfNode n (mkIssue n t msg det lib).
Proof. repeat split. Qed.

Lemma checkDetachedStyles_ofNode n log :
  Forall (issueOfNode n) (fst (checkDetachedStyles n log)).
Proof.
  rewrite checkDetachedStyles_issues. destruct (evaluatorRuns n); [|constructor].
  repeat (apply Forall_app; split).
  - unfold fillCheck. destruct (_ && _ && _); repeat constructor.
  - unfold strokeCheck. destruct (_ && _ && _); repeat constructor.
  - unfold textCheck. destruct (String.eqb (kind n) "TEXT"); [|constructor].
    destruct (_ && _); repeat constructor.
  - destruct (radiusPart_shape n) as [->|[det ->]]; repeat constructor.
  - unfold layoutPart. destruct (hasAutoLayout n); [|constructor].
    apply Forall_app. split.
    + unfold gapCheck. destruct (_ && _ && _); repeat constructor.
    + unfold paddingCheck. destruct (_ || _); repeat constructor.
Qed.

Lemma checkLibrarySources_ofNode host n lib map exceptions :
  Forall (issueOfNode n) (checkLibrarySources host n lib map exceptions).
Proof.
  rewrite checkLibrarySources_parts.
  destruct (existsb _ exceptions); [constructor|].
  apply Forall_app. split.
  - apply Forall_flat_map, Forall_forall. intros b _. unfold checkStyleSource.
    destruct (truthyString (snd b)); [|constructor].
    destruct (_ && _); [constructor|].
    destruct (getStyleLibraryInfo (snd b)) as [info|]; [|constructor].
    destruct (String.eqb (libraryId info) "local"); [constructor|].
    destruct (negb _); repeat constructor.
  - unfold checkVariableSources. destruct (boundVariables n) as [bv|]; [|constructor].
    apply Forall_flat_map, Forall_forall. intros [propName [varId|ids]] _;
      unfold checkVariableSource; [|constructor].
    destruct (truthyString varId); [|constructor].
    destruct (getVariableById host varId) as [v|]; [|constructor].
    destruct (getVariableCollectionById host _) as [c|]; [|constructor].
    destruct (collectionLibraryId c) as [l|]; [|constructor].
    destruct (_ && _); repeat constructor.
Qed.

Lemma nodeIssues_eq s host d :
  nodeIssues s host d =
  (List.filter (fun i => shouldInclude s (type i)) (fst (checkDetachedStyles d [])) ++
   libraryIssuesOf s host d)%list.
Proof.
  unfold nodeIssues, lintNode. simpl. now destruct (checkDetachedStyles d []).
Qed.

Lemma libraryIssuesOf_ofNode s host d : Forall (issueOfNode d) (libraryIssuesOf s host d).
Proof.
  unfold libraryIssuesOf. destruct (selectedLibraryId s) as [lib|]; [|constructor].
  destruct (truthyString lib); [apply checkLibrarySources_ofNode|constructor].
Qed.

Lemma nodeIssues_ofNode s host d : Forall (issueOfNode d) (nodeIssues s host d).
Proof.
  rewrite nodeIssues_eq. apply Forall_app. split.
  - apply Forall_forall. intros i Hi. apply filter_In in Hi as [Hi _].
    pose proof (checkDetachedStyles_ofNode d []) as H. rewrite Forall_forall in H. auto.
  - apply libraryIssuesOf_ofNode.
Qed.

Lemma visited_allNodes s n : incl (visited s n) (allNodes n).
Proof.
  induction n as [d children IH] using Node_forall_ind.
  rewrite visited_unfold. simpl. intros x [->|Hx]; [now left|]. right.
  unfold visitedChildren in Hx. apply in_flat_map in Hx as [c [Hc Hx]].
  rewrite Forall_forall in IH. specialize (IH c Hc).
  destruct (keepChild s c); [|contradiction].
  clear -Hc Hx IH. induction children as [|c' r IHr]; [contradiction|].
  apply in_or_app. destruct Hc as [->|Hc]; [left; now apply IH|right; now apply IHr].
Qed.

(** X2: every issue a scan reports was created for a node of the scanned
    forest that the scan visited and found lintable: it carries that
    node's id, name, type and layout information. *)
Theorem scan_issue_has_node (s : Settings) (host : Host)
    (selection pageChildren : list Node) (log : AuditLog) (i : LintIssue) :
  In i (fst (scanForIssues s host selection pageChildren log)) ->
  exists d : NodeData,
    In d (flat_map allNodes (scanRoots selection pageChildren)) /\
    In d (flat_map (visited s) (scanRoots selection pageChildren)) /\
    isLintableNode s d = true /\ issueOfNode d i.
Proof.
  rewrite scanForIssues_walk. simpl. intros Hi.
  apply in_flat_map in Hi as [d [Hd Hi]].
  unfold evaluated in Hd. apply filter_In in Hd as [Hd Hl].
  exists d. repeat split; try assumption.
  - apply in_flat_map in Hd as [r [Hr Hd]]. apply in_flat_map. exists r.
    split; [exact Hr|]. now apply (visited_allNodes s r).
  - pose proof (nodeIssues_ofNode s host d) as H. rewrite Forall_forall in H.
    now apply H.
  - pose proof (nodeIssues_ofNode s host d) as H. rewrite Forall_forall in H.
    now apply H.
  - pose proof (nodeIssues_ofNode s host d) as H. rewrite Forall_forall in H.
    now apply H.
  - pose proof (nodeIssues_ofNode s host d) as H. rewrite Forall_forall in H.
    now apply H.
Qed.

(** ** What the layer exclusion does to the walk *)

Lemma traverseChildren_app_list s host a b st :
  traverseChildren s host (a ++ b)%list st =
  traverseChildren s host b (traverseChildren s host a st).
Proof. unfold traverseChildren. apply fold_left_app. Qed.

(** X3: a child that the exclusion settings filter out is skipped with
    its whole subtree: the traversal of its parent is the traversal of
    the parent without that child, whatever the child holds. *)
Theorem excluded_child_is_skipped (s : Settings) (host : Host) (d : NodeData)
    (before after : list Node) (c : Node) (st : ScanState) :
  keepChild s c = false ->
  traverse s host (MkNode d (before ++ c :: after)) st =
  traverse s host (MkNode d (before ++ after)) st.
Proof.
  intros Hc. rewrite !traverse_unfold, !traverseChildren_app_list.
  unfold traverseChildren at 1. simpl. now rewrite Hc.
Qed.

Lemma visited_roots_of_kept s children :
  flat_map (visited s) (List.filter (keepChild s) children) = visitedChildren s children.
Proof.
  unfold visitedChildren. induction children as [|c r IH]; [reflexivity|]. simpl.
  destruct (keepChild s c); simpl; now rewrite IH.
Qed.

(** X4: the roots of a scan are not filtered.  A root that is not
    lintable (a page, or a locked or hidden node under the exclusion
    settings) adds no issue and no audit entry itself, and the scan goes
    on below it as if its children that pass the filter were the
    roots. *)
Theorem unlintable_root_is_entered (s : Settings) (host : Host) (d : NodeData)
    (children pageChildren : list Node) (log : AuditLog) :
  isLintableNode s d = false ->
  scanForIssues s host [MkNode d children] pageChildren log =
    (flat_map (nodeIssues s host) (evaluated s (List.filter (keepChild s) children)),
     (log ++ flat_map nodeEntries (evaluated s (List.filter (keepChild s) children)))%list).
Proof.
  intros Hd. rewrite scanForIssues_walk. unfold evaluated, scanRoots.
  change (flat_map (visited s) [MkNode d children])
    with (visited s (MkNode d children) ++ [])%list.
  rewrite app_nil_r, visited_unfold, visited_roots_of_kept.
  cbn [List.filter]. now rewrite Hd.
Qed.

(** X5: with both exclusion settings off the scan visits every node of
    the forest, also what lies below locked and hidden nodes. *)
Theorem no_exclusion_visits_all (s : Settings) (n : Node) :
  excludeLockedLayers s = false -> excludeHiddenLayers s = false ->
  visited s n = allNodes n.
Proof.
  intros HL HH. induction n as [d children IH] using Node_forall_ind.
  rewrite visited_unfold. simpl. f_equal. unfold visitedChildren.
  induction IH as [|c r Hc _ IHr]; [reflexivity|]. simpl.
  unfold keepChild at 1. rewrite HL, HH. simpl. now rewrite Hc, IHr.
Qed.

(** ** What the issues and the log of a scan depend on *)

Lemma isLintableNode_flags s s' d :
  excludeLockedLayers s = excludeLockedLayers s' ->
  excludeHiddenLayers s = excludeHiddenLayers s' ->
  isLintableNode s d = isLintableNode s' d.
Proof. intros HL HH. unfold isLintableNode. now rewrite HL, HH. Qed.

Lemma visited_flags s s' n :
  excludeLockedLayers s = excludeLockedLayers s' ->
  excludeHiddenLayers s = excludeHiddenLayers s' ->
  visited s n = visited s' n.
Proof.
  intros HL HH. induction n as [d children IH] using Node_forall_ind.
  rewrite !visited_unfold. f_equal. unfold visitedChildren.
  induction IH as [|c r Hc _ IHr]; [reflexivity|]. simpl.
  unfold keepChild at 1 3. rewrite HL, HH, Hc, IHr. reflexivity.
Qed.

Lemma evaluated_flags s s' nodes :
  excludeLockedLayers s = excludeLockedLayers s' ->
  excludeHiddenLayers s = excludeHiddenLayers s' ->
  evaluated s nodes = evaluated s' nodes.
Proof.
  intros HL HH. unfold evaluated.
  replace (flat_map (visited s) nodes) with (flat_map (visited s') nodes).
  - apply filter_ext. intros d. now apply isLintableNode_flags.
  - induction nodes as [|n r IH]; [reflexivity|]. simpl.
    now rewrite IH, (visited_flags s s' n HL HH).
Qed.

Lemma filter_none {A} (p : A -> bool) l :
  Forall (fun x => p x = false) l -> List.filter p l = [].
Proof.
  induction 1 as [|x r Hx _ IH]; [reflexivity|]. simpl. now rewrite Hx.
Qed.

Lemma filter_all {A} (p : A -> bool) l :
  Forall (fun x => p x = true) l -> List.filter p l = l.
Proof.
  induction 1 as [|x r Hx _ IH]; [reflexivity|]. simpl. now rewrite Hx, IH.
Qed.

Lemma detachmentIssues_node s host d :
  detachmentIssues (nodeIssues s host d) =
  List.filter (fun i => shouldInclude s (type i)) (fst (checkDetachedStyles d [])).
Proof.
  rewrite nodeIssues_eq. unfold detachmentIssues. rewrite filter_app.
  rewrite (filter_none isDetachment (libraryIssuesOf s host d)), app_nil_r.
  - apply filter_all. apply Forall_forall. intros i Hi. apply filter_In in Hi as [Hi _].
    pose proof (checkDetachedStyles_no_source d []) as H. rewrite Forall_forall in H.
    unfold isDetachment. now rewrite (H i Hi).
  - unfold libraryIssuesOf. destruct (selectedLibraryId s) as [lib|]; [|constructor].
    destruct (truthyString lib); [|constructor].
    eapply Forall_impl; [|apply checkLibrarySources_shape].
    intros i [_ Hi]. unfold isDetachment. now destruct (sourceLibraryId i).
Qed.

Lemma detachmentIssues_flat_map s host l :
  detachmentIssues (flat_map (nodeIssues s host) l) =
  flat_map (fun d => List.filter (fun i => shouldInclude s (type i))
                                 (fst (checkDetachedStyles d []))) l.
Proof.
  induction l as [|d r IH]; [reflexivity|]. simpl.
  rewrite <- IH, <- (detachmentIssues_node s host d).
  unfold detachmentIssues. apply filter_app.
Qed.

(** X6: the detachment issues of a scan depend on the tree, the two
    exclusion settings and the six category switches only.  The reference
    library, the library map, the host's resolver and the exception
    patterns have no part in them: a node whose name matches an exception
    still gets its detachment issues. *)
Theorem detachment_issues_ignore_library_and_exceptions (s s' : Settings)
    (host host' : Host) (selection pageChildren : list Node) (log log' : AuditLog) :
  excludeLockedLayers s = excludeLockedLayers s' ->
  excludeHiddenLayers s = excludeHiddenLayers s' ->
  (forall t, shouldInclude s t = shouldInclude s' t) ->
  detachmentIssues (fst (scanForIssues s host selection pageChildren log)) =
  detachmentIssues (fst (scanForIssues s' host' selection pageChildren log')).
Proof.
  intros HL HH Hcat. rewrite !scanForIssues_walk. simpl.
  rewrite !detachmentIssues_flat_map, (evaluated_flags s s' _ HL HH).
  apply flat_map_ext. intros d. apply filter_ext. intros i. apply Hcat.
Qed.

(** X7: the audit entries that a scan appends depend on the tree and the
    two exclusion settings only: switching the radius category off, or
    any other category, or changing the library or the exceptions, leaves
    them as they are. *)
Theorem audit_entries_ignore_switches (s s' : Settings) (host host' : Host)
    (selection pageChildren : list Node) (log : AuditLog) :
  excludeLockedLayers s = excludeLockedLayers s' ->
  excludeHiddenLayers s = excludeHiddenLayers s' ->
  snd (scanForIssues s host selection pageChildren log) =
  snd (scanForIssues s' host' selection pageChildren log).
Proof.
  intros HL HH. rewrite !scanForIssues_walk. simpl.
  now rewrite (evaluated_flags s s' _ HL HH).
Qed.

(** ** The audit log against the radius issues *)

Lemma radiusIssuesOf_evaluation n log :
  radiusIssuesOf (fst (checkDetachedStyles n log)) =
  if evaluatorRuns n then radiusPart n else [].
Proof.
  rewrite checkDetachedStyles_issues. destruct (evaluatorRuns n); [|reflexivity].
  rewrite !radiusIssuesOf_app, fillCheck_no_radius, strokeCheck_no_radius,
    textCheck_no_radius. simpl.
  assert (Hl : radiusIssuesOf (layoutPart n) = []).
  { unfold layoutPart. destruct (hasAutoLayout n); [|reflexivity].
    now rewrite radiusIssuesOf_app, gapCheck_no_radius, paddingCheck_no_radius. }
  rewrite Hl, app_nil_r.
  destruct (radiusPart_shape n) as [->|[det ->]]; reflexivity.
Qed.

Lemma nodeEntries_eq n :
  nodeEntries n =
  if evaluatorRuns n
  then match cornerRadius n with
       | Some cr => snd (cornerRadiusCheck n cr [])
       | None => []
       end
  else [].
Proof.
  unfold nodeEntries, checkDetachedStyles, evaluatorRuns.
  destruct (locked n), (visible n); simpl; try reflexivity.
  destruct (cornerRadius n) as [cr|]; [|reflexivity].
  now destruct (cornerRadiusCheck n cr []).
Qed.

Lemma node_entries_match_radius_issues n :
  length (List.filter isIssue (nodeEntries n)) =
  length (radiusIssuesOf (fst (checkDetachedStyles n []))).
Proof.
  rewrite radiusIssuesOf_evaluation, nodeEntries_eq.
  destruct (evaluatorRuns n); [|reflexivity].
  unfold radiusPart. destruct (cornerRadius n) as [cr|]; [|reflexivity].
  unfold cornerRadiusCheck.
  destruct (branchA n); [reflexivity|]. destruct (branchB n); [reflexivity|].
  destruct (branchC n cr); [reflexivity|].
  destruct (hasIndividualCornerRadii n); [|reflexivity].
  destruct (missingBindings n); [reflexivity|].
  destruct (hasUniformIndividualCorners n); reflexivity.
Qed.

Lemma radiusIssuesOf_included s l :
  checkRadius s = true ->
  radiusIssuesOf (List.filter (fun i => shouldInclude s (type i)) l) = radiusIssuesOf l.
Proof.
  intros Hr. induction l as [|i r IH]; [reflexivity|]. simpl.
  destruct (shouldInclude s (type i)) eqn:Hs; simpl.
  - now rewrite IH.
  - destruct (type i) eqn:Ht; simpl; try exact IH.
    simpl in Hs. congruence.
Qed.

(** X8: with the radius category on, the audit entries marked as issues
    that a scan appends are as many as the radius detachment issues it
    reports. *)
Theorem issue_entries_match_radius_issues (s : Settings) (host : Host)
    (selection pageChildren : list Node) (log : AuditLog) :
  checkRadius s = true ->
  exists added : AuditLog,
    snd (scanForIssues s host selection pageChildren log) = (log ++ added)%list /\
    length (List.filter isIssue added) =
    length (radiusIssuesOf
              (detachmentIssues (fst (scanForIssues s host selection pageChildren log)))).
Proof.
  intros Hr. rewrite scanForIssues_walk. simpl. eexists. split; [reflexivity|].
  rewrite detachmentIssues_flat_map.
  induction (evaluated s (scanRoots selection pageChildren)) as [|d r IH]; [reflexivity|].
  simpl. rewrite filter_app, radiusIssuesOf_app, !length_app, IH.
  now rewrite (radiusIssuesOf_included s _ Hr), node_entries_match_radius_issues.
Qed.

(** ** The rules for fills, strokes, text, gap and padding *)

Lemma ofType_radiusPart t n :
  ofType t (radiusPart n) = if LintIssueType_eqb t Radius then radiusPart n else [].
Proof.
  destruct (radiusPart_shape n) as [->|[det ->]]; destruct t; reflexivity.
Qed.

(** The issues of type [t] of an evaluation that went past the guard,
    block by block, and then by cases on the tests of the blocks. *)
Ltac by_blocks t n :=
  unfold ofType; rewrite !filter_app; fold (ofType t (radiusPart n));
  rewrite ofType_radiusPart; simpl;
  unfold fillCheck, strokeCheck, textCheck, layoutPart, gapCheck, paddingCheck,
    hasHorizontalPaddingIssue, hasVerticalPaddingIssue;
  destruct (hasAutoLayout n); simpl;
  repeat match goal with |- context [if ?c then _ else _] => destruct c end;
  reflexivity.

(** X9: an evaluation reports a fill issue exactly when the node is
    unlocked and visible, its first fill is solid, and it has neither a
    fill style nor a variable bound to its fills; the rule for strokes is
    the same over the strokes.  Only the first paint is looked at, and
    there is never more than one issue of either type. *)
Theorem fill_and_stroke_rule (n : NodeData) (log : AuditLog) :
  ofType Fill (fst (checkDetachedStyles n log)) =
    (if evaluatorRuns n && firstIsSolid (fills n) &&
        negb (truthyStyleRef (fillStyleId n)) &&
        negb (hasVariableBinding (boundVariables n) "fills")
     then [createFillIssue n] else []) /\
  ofType Stroke (fst (checkDetachedStyles n log)) =
    (if evaluatorRuns n && firstIsSolid (strokes n) &&
        negb (truthyOptString (strokeStyleId n)) &&
        negb (hasVariableBinding (boundVariables n) "strokes")
     then [createStrokeIssue n] else []).
Proof.
  rewrite checkDetachedStyles_issues.
  destruct (evaluatorRuns n); [|split; reflexivity]. simpl.
  split.
  - by_blocks Fill n.
  - by_blocks Stroke n.
Qed.

(** X10: an evaluation reports a text issue exactly when the node is an
    unlocked, visible text node without a text style and without a
    variable bound to its characters, text style, font name or font
    size; never more than one. *)
Theorem text_rule (n : NodeData) (log : AuditLog) :
  ofType Text (fst (checkDetachedStyles n log)) =
    if evaluatorRuns n && String.eqb (kind n) "TEXT" &&
       negb (truthyStyleRef (textStyleId n)) &&
       negb (hasVariableBinding (boundVariables n) "characters" ||
             hasVariableBinding (boundVariables n) "textStyleId" ||
             hasVariableBinding (boundVariables n) "fontName" ||
             hasVariableBinding (boundVariables n) "fontSize")
    then [createTextIssue n] else [].
Proof.
  rewrite checkDetachedStyles_issues.
  destruct (evaluatorRuns n); [|reflexivity]. simpl.
  destruct (String.eqb (kind n) "TEXT") eqn:Hk; simpl.
  - unfold textCheck at 1. rewrite Hk. by_blocks Text n.
  - unfold textCheck at 1. rewrite Hk. by_blocks Text n.
Qed.

(** X11: an evaluation reports a gap issue exactly when the node is
    unlocked and visible, has an active auto-layout, an item spacing
    above 0 without a bound variable, and its primary axis is not aligned
    SPACE_BETWEEN; never more than one. *)
Theorem gap_rule (n : NodeData) (log : AuditLog) :
  ofType Gap (fst (checkDetachedStyles n log)) =
    if evaluatorRuns n && hasAutoLayout n && (0 <? itemSpacing n) &&
       negb (hasVariableBinding (boundVariables n) "itemSpacing") &&
       negb (hasAutoSpacing n)
    then [createGapIssue n] else [].
Proof.
  rewrite checkDetachedStyles_issues.
  destruct (evaluatorRuns n); [|reflexivity]. simpl. by_blocks Gap n.
Qed.

(** X12: an evaluation reports at most one padding issue, and it does so
    exactly when the node is unlocked and visible, has an active
    auto-layout, and some padding above 0 has no variable bound to its
    side.  The issue is a padding issue of that node without a source
    library; its details are "horizontal" when only left or right are
    concerned, "vertical" when only top or bottom are, and "all" when
    both directions are. *)
Theorem padding_rule (n : NodeData) (log : AuditLog) :
  ofType Padding (fst (checkDetachedStyles n log)) =
    (if evaluatorRuns n && hasAutoLayout n &&
        (hasHorizontalPaddingIssue n || hasVerticalPaddingIssue n)
     then [createPaddingIssue n
             (if hasHorizontalPaddingIssue n && negb (hasVerticalPaddingIssue n)
              then "horizontal"
              else if negb (hasHorizontalPaddingIssue n) && hasVerticalPaddingIssue n
                   then "vertical" else "all")]
     else []) /\
  map (fun i => (nodeId i, type i, details i, sourceLibraryId i))
      (ofType Padding (fst (checkDetachedStyles n log))) =
    (if evaluatorRuns n && hasAutoLayout n &&
        (hasHorizontalPaddingIssue n || hasVerticalPaddingIssue n)
     then [(id n, Padding,
            Some (if hasHorizontalPaddingIssue n && negb (hasVerticalPaddingIssue n)
                  then "horizontal"
                  else if negb (hasHorizontalPaddingIssue n) && hasVerticalPaddingIssue n
                       then "vertical" else "all"),
            None)]
     else []).
Proof.
  assert (H : ofType Padding (fst (checkDetachedStyles n log)) =
              (if evaluatorRuns n && hasAutoLayout n &&
                  (hasHorizontalPaddingIssue n || hasVerticalPaddingIssue n)
               then [createPaddingIssue n
                       (if hasHorizontalPaddingIssue n && negb (hasVerticalPaddingIssue n)
                        then "horizontal"
                        else if negb (hasHorizontalPaddingIssue n) &&
                                hasVerticalPaddingIssue n
                             then "vertical" else "all")]
               else [])).
  { rewrite checkDetachedStyles_issues.
    destruct (evaluatorRuns n); [|reflexivity]. simpl. by_blocks Padding n. }
  split; [exact H|]. rewrite H.
  destruct (evaluatorRuns n && hasAutoLayout n &&
            (hasHorizontalPaddingIssue n || hasVerticalPaddingIssue n)); reflexivity.
Qed.

(** ** One evaluation and the aggregation *)

Lemma evaluation_types_NoDup n log :
  NoDup (map type (fst (checkDetachedStyles n log))).
Proof.
  rewrite checkDetachedStyles_issues. destruct (evaluatorRuns n); [|constructor].
  unfold fillCheck, strokeCheck, textCheck, layoutPart, gapCheck, paddingCheck.
  destruct (radiusPart_shape n) as [->|[det ->]];
    destruct (hasAutoLayout n); simpl;
    repeat match goal with |- context [if ?c then _ else _] => destruct c end;
    simpl; repeat constructor; simpl; intuition discriminate.
Qed.

Lemma string_app_inv_head a : forall x y : string, a ++ x = a ++ y -> x = y.
Proof.
  induction a as [|c a IH]; intros x y E; simpl in E; [exact E|].
  injection E as E. now apply IH.
Qed.

Lemma keyTail_type x y : keyTail x = keyTail y -> type x = type y.
Proof.
  unfold keyTail.
  destruct (type x), (type y); simpl; try reflexivity;
    try destruct (truthyString (optString (details x)));
    try destruct (truthyString (optString (details y)));
    simpl; discriminate.
Qed.

Lemma dedupKey_same_node x y :
  nodeId x = nodeId y -> dedupKey x = dedupKey y -> type x = type y.
Proof.
  intros Hn E. rewrite !dedupKey_tail, Hn in E.
  apply string_app_inv_head in E. simpl in E. injection E as E.
  now apply keyTail_type.
Qed.

Lemma firstOccurrences_distinct_types a l :
  Forall (fun i => nodeId i = a) l -> NoDup (map type l) ->
  firstOccurrencesBy dedupKey l = l.
Proof.
  induction l as [|x r IH]; intros Hn Hd; [reflexivity|]. simpl.
  inversion Hn as [|? ? Hx Hr]; subst. inversion Hd as [|? ? Hnot Hd']; subst.
  rewrite (IH Hr Hd'). f_equal. apply filter_all. apply Forall_forall.
  intros y Hy. unfold sameKey. destruct (String.eqb_spec (dedupKey y) (dedupKey x)) as [E|_];
    [|reflexivity].
  exfalso. apply Hnot. rewrite Forall_forall in Hr.
  apply dedupKey_same_node in E; [|now rewrite (Hr y Hy)].
  rewrite <- E. now apply in_map.
Qed.

(** X13: the issues of one evaluation have pairwise different types (at
    most one fill, stroke, text, radius, gap and padding issue per node),
    and the aggregation drops none of them. *)
Theorem evaluation_survives_aggregation (n : NodeData) (log : AuditLog) :
  NoDup (map type (fst (checkDetachedStyles n log))) /\
  allUniqueIssues (fst (checkDetachedStyles n log)) = fst (checkDetachedStyles n log).
Proof.
  split; [apply evaluation_types_NoDup|].
  rewrite allUniqueIssues_first.
  apply (firstOccurrences_distinct_types (id n)); [|apply evaluation_types_NoDup].
  eapply Forall_impl; [|apply checkDetachedStyles_ofNode]. now intros i [H _].
Qed.

(** ** The properties on sample documents *)

Lemma scan_issue_has_node_witness :
  exists d : NodeData,
    In d (flat_map allNodes (scanRoots [mixedFrame] [])) /\
    In d (flat_map (visited checkAll) (scanRoots [mixedFrame] [])) /\
    isLintableNode checkAll d = true /\ issueOfNode d (createFillIssue paintedRect).
Proof.
  apply (scan_issue_has_node checkAll Sample.noHost [mixedFrame] [] []
           (createFillIssue paintedRect)).
  vm_compute. right. left. reflexivity.
Defined.

Lemma excluded_child_is_skipped_witness :
  traverse checkUnlocked Sample.noHost
    (MkNode frameNode ([] ++ lockedChild :: [MkNode paintedRect []])) emptyState =
  traverse checkUnlocked Sample.noHost
    (MkNode frameNode ([] ++ [MkNode paintedRect []])) emptyState.
Proof.
  apply (excluded_child_is_skipped checkUnlocked Sample.noHost frameNode []
           [MkNode paintedRect []] lockedChild emptyState).
  reflexivity.
Defined.

Lemma unlintable_root_is_entered_witness :
  scanForIssues checkUnlocked Sample.noHost [MkNode pageNode [mixedFrame]] [] [] =
    (flat_map (nodeIssues checkUnlocked Sample.noHost)
       (evaluated checkUnlocked (List.filter (keepChild checkUnlocked) [mixedFrame])),
     ([] ++ flat_map nodeEntries
              (evaluated checkUnlocked
                 (List.filter (keepChild checkUnlocked) [mixedFrame])))%list).
Proof.
  apply (unlintable_root_is_entered checkUnlocked Sample.noHost pageNode [mixedFrame] [] []).
  reflexivity.
Defined.

Lemma no_exclusion_visits_all_witness :
  visited checkAll mixedFrame = allNodes mixedFrame.
Proof.
  apply (no_exclusion_visits_all checkAll mixedFrame); reflexivity.
Defined.

Lemma detachment_issues_ignore_library_and_exceptions_witness :
  detachmentIssues (fst (scanForIssues checkAll Sample.noHost [mixedFrame] [] [])) =
  detachmentIssues (fst (scanForIssues checkAgainstB Sample.host [mixedFrame] [] [])).
Proof.
  apply (detachment_issues_ignore_library_and_exceptions checkAll checkAgainstB
           Sample.noHost Sample.host [mixedFrame] [] [] []);
    [reflexivity|reflexivity|intros []; reflexivity].
Defined.

Lemma audit_entries_ignore_switches_witness :
  snd (scanForIssues checkUnlocked Sample.noHost [mixedFrame] [] []) =
  snd (scanForIssues allOff Sample.host [mixedFrame] [] []).
Proof.
  apply (audit_entries_ignore_switches checkUnlocked allOff Sample.noHost Sample.host
           [mixedFrame] [] []); reflexivity.
Defined.

Lemma issue_entries_match_radius_issues_witness :
  exists added : AuditLog,
    snd (scanForIssues checkAll Sample.noHost [mixedFrame] [] []) = ([] ++ added)%list /\
    length (List.filter isIssue added) =
    length (radiusIssuesOf
              (detachmentIssues
                 (fst (scanForIssues checkAll Sample.noHost [mixedFrame] [] [])))).
Proof.
  apply (issue_entries_match_radius_issues checkAll Sample.noHost [mixedFrame] [] []).
  reflexivity.
Defined.

(** ** Style ids *)

Lemma string_app_cons (x : ascii) (a b : string) : String x a ++ b = String x (a ++ b).
Proof. reflexivity. Qed.

Lemma string_app_assoc (a b c : string) : (a ++ b) ++ c = a ++ b ++ c.
Proof.
  induction a as [|x a IH]; [reflexivity|].
  now rewrite !string_app_cons, IH.
Qed.

Lemma prefix_comma c r :
  String.prefix "," (String c r) = Ascii.eqb c ",".
Proof.
  cbn [String.prefix]. destruct (ascii_dec "," c) as [E|Hne].
  - subst c. now destruct r.
  - symmetry. apply Ascii.eqb_neq. congruence.
Qed.

Lemma includes_cons c r :
  Js.includes (String c r) "," = (Ascii.eqb c "," || Js.includes r ",").
Proof.
  change (Js.includes (String c r) ",")
    with (String.prefix "," (String c r) || Js.includes r ",").
  now rewrite prefix_comma.
Qed.

Lemma includes_app_comma a b : Js.includes (a ++ "," ++ b) "," = true.
Proof.
  induction a as [|c a IH].
  - change ("" ++ "," ++ b) with (String "," b). now rewrite includes_cons.
  - change ((String c a) ++ "," ++ b) with (String c (a ++ "," ++ b)).
    rewrite includes_cons, IH. apply orb_true_r.
Qed.

Lemma split_app_comma a b :
  Js.includes a "," = false ->
  Js.split "," (a ++ "," ++ b) = a :: Js.split "," b.
Proof.
  induction a as [|c a IH]; intros Ha.
  - reflexivity.
  - rewrite includes_cons in Ha. apply orb_false_elim in Ha as [Hc Ha].
    change ((String c a) ++ "," ++ b) with (String c (a ++ "," ++ b)).
    simpl. rewrite Hc. simpl in IH. now rewrite (IH Ha).
Qed.

Lemma split_no_comma a : Js.includes a "," = false -> Js.split "," a = [a].
Proof.
  induction a as [|c a IH]; intros Ha; [reflexivity|].
  rewrite includes_cons in Ha. apply orb_false_elim in Ha as [Hc Ha].
  simpl. now rewrite Hc, (IH Ha).
Qed.

Lemma skipLetters_app p rest :
  allLetters p = true -> Js.skipLetters (p ++ ":" ++ rest) = ":" ++ rest.
Proof.
  induction p as [|c p IH]; intros Hp; [reflexivity|].
  simpl in Hp. apply andb_prop in Hp as [Hc Hp].
  change ((String c p) ++ ":" ++ rest) with (String c (p ++ ":" ++ rest)).
  simpl. rewrite Hc. now apply IH.
Qed.

Lemma stripTypePrefix_app p rest :
  p <> "" -> allLetters p = true -> Js.stripTypePrefix (p ++ ":" ++ rest) = rest.
Proof.
  intros Hne Hp. destruct p as [|c p]; [contradiction|].
  pose proof (skipLetters_app (String c p) rest Hp) as Hs.
  simpl in Hp. apply andb_prop in Hp as [Hc _].
  unfold Js.stripTypePrefix.
  change ((String c p) ++ ":" ++ rest) with (String c (p ++ ":" ++ rest)) in *.
  cbv beta iota. rewrite Hc, Hs. reflexivity.
Qed.

Lemma parse_style_id (p lib key local : string) :
  p <> "" -> allLetters p = true ->
  Js.includes lib "," = false -> Js.includes key "," = false ->
  local <> "" -> Js.includes local "," = false ->
  getStyleLibraryInfo (p ++ ":" ++ lib ++ "," ++ key) =
    Some {| libraryId := lib; styleKeyId := key |} /\
  getStyleLibraryInfo local = Some {| libraryId := "local"; styleKeyId := local |}.
Proof.
  intros Hne Hp Hlib Hkey Hl Hlocal. split.
  - assert (Hemp : Js.isEmpty (p ++ ":" ++ lib ++ "," ++ key) = false)
      by (destruct p; [contradiction|reflexivity]).
    assert (Hinc : Js.includes (p ++ ":" ++ lib ++ "," ++ key) "," = true).
    { replace (p ++ ":" ++ lib ++ "," ++ key) with ((p ++ ":" ++ lib) ++ "," ++ key)
        by (now rewrite !string_app_assoc).
      apply includes_app_comma. }
    unfold getStyleLibraryInfo. rewrite Hemp, Hinc.
    change (negb true) with false. cbv iota.
    rewrite (stripTypePrefix_app p (lib ++ "," ++ key) Hne Hp).
    rewrite (split_app_comma lib key Hlib), (split_no_comma key Hkey). reflexivity.
  - unfold getStyleLibraryInfo. destruct local; [contradiction|].
    change (Js.isEmpty (String a local)) with false. cbv iota. now rewrite Hlocal.
Qed.

(** X14: a style id made of a letter prefix, a colon, a library id
    without comma, a comma and a key without comma is taken apart into
    that library id and that key; an id without any comma is a local
    style, whatever else it holds. *)
Theorem getStyleLibraryInfo_parses (p lib key local : string) :
  p <> "" -> allLetters p = true ->
  Js.includes lib "," = false -> Js.includes key "," = false ->
  local <> "" -> Js.includes local "," = false ->
  getStyleLibraryInfo (p ++ ":" ++ lib ++ "," ++ key) =
    Some {| libraryId := lib; styleKeyId := key |} /\
  getStyleLibraryInfo local = Some {| libraryId := "local"; styleKeyId := local |}.
Proof. apply parse_style_id. Qed.

(** ** Which styles the provenance check reports *)

Lemma matchesExceptions_empty exceptions : matchesExceptions "" exceptions = false.
Proof. now destruct exceptions. Qed.

Lemma excepted_test nm exceptions :
  truthyString nm && matchesExceptions nm exceptions = matchesExceptions nm exceptions.
Proof.
  destruct nm; [now rewrite matchesExceptions_empty|reflexivity].
Qed.

(** X15: for a style id of the form prefix:library,key the provenance
    check reports nothing when the style's name matches an exception,
    nothing when the library is the reference library or is called
    "local", and otherwise exactly one wrong-library issue: an issue of
    the node and of the block's type, whose message is "Wrong library/"
    and the type's name, whose source library id is the library of the
    style id and whose source library name is the name the library map
    has for it. *)
Theorem style_source_rule (host : Host) (n : NodeData) (selected : string)
    (map : gmap string string) (exceptions : list string) (t : LintIssueType)
    (p lib key : string) :
  p <> "" -> allLetters p = true ->
  Js.includes lib "," = false -> Js.includes key "," = false ->
  checkStyleSource host n selected map exceptions t (p ++ ":" ++ lib ++ "," ++ key) =
    (if matchesExceptions (styleNameOf host (p ++ ":" ++ lib ++ "," ++ key)) exceptions
     then []
     else if String.eqb lib "local" || String.eqb lib selected then []
     else [createWrongLibraryIssue n t lib (libraryNameOf map lib)]) /\
  List.map (fun i => (nodeId i, type i, message i, sourceLibraryId i, sourceLibraryName i))
    (checkStyleSource host n selected map exceptions t (p ++ ":" ++ lib ++ "," ++ key)) =
    (if matchesExceptions (styleNameOf host (p ++ ":" ++ lib ++ "," ++ key)) exceptions
     then []
     else if String.eqb lib "local" || String.eqb lib selected then []
     else [(id n, t, "Wrong library/" ++ typeText t, Some lib,
            Some (libraryNameOf map lib))]).
Proof.
  intros Hne Hp Hlib Hkey.
  assert (Hparse : getStyleLibraryInfo (p ++ ":" ++ lib ++ "," ++ key) =
                   Some {| libraryId := lib; styleKeyId := key |}).
  { refine (proj1 (parse_style_id p lib key "x" Hne Hp Hlib Hkey _ _));
      [discriminate|reflexivity]. }
  assert (Ht : truthyString (p ++ ":" ++ lib ++ "," ++ key) = true)
    by (destruct p; [contradiction|reflexivity]).
  assert (H : checkStyleSource host n selected map exceptions t
                (p ++ ":" ++ lib ++ "," ++ key) =
              (if matchesExceptions (styleNameOf host (p ++ ":" ++ lib ++ "," ++ key))
                    exceptions
               then []
               else if String.eqb lib "local" || String.eqb lib selected then []
               else [createWrongLibraryIssue n t lib (libraryNameOf map lib)])).
  { unfold checkStyleSource, styleNameOf.
    rewrite Ht, Hparse, excepted_test. cbn [libraryId].
    destruct (matchesExceptions _ exceptions); [reflexivity|].
    destruct (String.eqb lib "local"); [reflexivity|].
    now destruct (String.eqb lib selected). }
  split; [exact H|]. rewrite H.
  destruct (matchesExceptions _ exceptions); [reflexivity|].
  destruct (String.eqb lib "local" || String.eqb lib selected); reflexivity.
Qed.

(** X16: a style id without a comma is a local style and is never
    reported, whatever the reference library and the exceptions are. *)
Theorem local_style_never_flagged (host : Host) (n : NodeData) (selected : string)
    (map : gmap string string) (exceptions : list string) (t : LintIssueType)
    (styleId : string) :
  Js.includes styleId "," = false ->
  checkStyleSource host n selected map exceptions t styleId = [].
Proof.
  intros Hc. unfold checkStyleSource.
  destruct styleId as [|c r]; [reflexivity|].
  change (truthyString (String c r)) with true. cbv iota.
  unfold getStyleLibraryInfo. change (Js.isEmpty (String c r)) with false.
  cbv iota. rewrite Hc. change (negb false) with true. cbv iota. cbn [libraryId].
  now destruct (_ && _).
Qed.

(** ** Exception patterns and letter case *)

Ltac all_chars c := destruct c as [[|] [|] [|] [|] [|] [|] [|] [|]]; reflexivity.

Lemma lowerAscii_idem c : Js.lowerAscii (Js.lowerAscii c) = Js.lowerAscii c.
Proof. all_chars c. Qed.

Lemma isSpace_lower c : Js.isSpace (Js.lowerAscii c) = Js.isSpace c.
Proof. all_chars c. Qed.

Lemma star_lower c : Ascii.eqb (Js.lowerAscii c) "*" = Ascii.eqb c "*".
Proof. all_chars c. Qed.

Lemma toLowerCase_idem s : Js.toLowerCase (Js.toLowerCase s) = Js.toLowerCase s.
Proof.
  induction s as [|c r IH]; [reflexivity|]. simpl. now rewrite lowerAscii_idem, IH.
Qed.

Lemma trimStart_lower s :
  Js.trimStart (Js.toLowerCase s) = Js.toLowerCase (Js.trimStart s).
Proof.
  induction s as [|c r IH]; [reflexivity|]. simpl. rewrite isSpace_lower.
  now destruct (Js.isSpace c).
Qed.

Lemma trimEnd_lower s :
  Js.trimEnd (Js.toLowerCase s) = Js.toLowerCase (Js.trimEnd s).
Proof.
  induction s as [|c r IH]; [reflexivity|]. simpl. rewrite IH, isSpace_lower.
  destruct (Js.trimEnd r); simpl; [now destruct (Js.isSpace c)|reflexivity].
Qed.

Lemma trim_lower s : Js.trim (Js.toLowerCase s) = Js.toLowerCase (Js.trim s).
Proof. unfold Js.trim. now rewrite trimStart_lower, trimEnd_lower. Qed.

Lemma isEmpty_lower s : Js.isEmpty (Js.toLowerCase s) = Js.isEmpty s.
Proof. now destruct s. Qed.

Lemma endsWithChar_lower s : Js.endsWithChar (Js.toLowerCase s) "*" = Js.endsWithChar s "*".
Proof.
  induction s as [|c r IH]; [reflexivity|]. simpl.
  destruct r as [|d r']; [apply star_lower|exact IH].
Qed.

Lemma dropLast_lower s : Js.dropLast (Js.toLowerCase s) = Js.toLowerCase (Js.dropLast s).
Proof.
  induction s as [|c r IH]; [reflexivity|]. simpl.
  destruct r as [|d r']; [reflexivity|]. simpl in *. now rewrite IH.
Qed.

Lemma exceptionMatches_lower_text text e :
  exceptionMatches (Js.toLowerCase text) e = exceptionMatches text e.
Proof. unfold exceptionMatches. now rewrite toLowerCase_idem. Qed.

Lemma exceptionMatches_lower_pattern text e :
  exceptionMatches text (Js.toLowerCase e) = exceptionMatches text e.
Proof.
  unfold exceptionMatches.
  now rewrite trim_lower, isEmpty_lower, endsWithChar_lower, dropLast_lower,
    !toLowerCase_idem.
Qed.

(** X17: exception matching is blind to letter case: writing the name,
    or the patterns, in lower case gives the same answer. *)
Theorem matchesExceptions_ignores_case (styleName : string) (exceptions : list string) :
  matchesExceptions (Js.toLowerCase styleName) exceptions =
    matchesExceptions styleName exceptions /\
  matchesExceptions styleName (map Js.toLowerCase exceptions) =
    matchesExceptions styleName exceptions.
Proof.
  split.
  - unfold matchesExceptions. destruct exceptions as [|e r]; [reflexivity|].
    rewrite trim_lower, isEmpty_lower.
    destruct (Js.isEmpty (Js.trim styleName)); [reflexivity|].
    generalize (e :: r). intros l. induction l as [|x l IH]; [reflexivity|].
    simpl. now rewrite exceptionMatches_lower_text, IH.
  - unfold matchesExceptions. destruct exceptions as [|e r]; [reflexivity|].
    cbn [map]. destruct (Js.isEmpty (Js.trim styleName)); [reflexivity|].
    change (Js.toLowerCase e :: map Js.toLowerCase r) with (map Js.toLowerCase (e :: r)).
    generalize (e :: r). intros l. induction l as [|x l IH]; [reflexivity|].
    simpl. now rewrite exceptionMatches_lower_pattern, IH.
Qed.

Example case_blind_example :
  matchesExceptions "RETAIL ui/Border" ["retail UI/*"] = true.
Proof. reflexivity. Qed.

(** ** The properties on sample style ids *)

Lemma getStyleLibraryInfo_parses_witness :
  getStyleLibraryInfo ("S" ++ ":" ++ "libA" ++ "," ++ "1:7") =
    Some {| libraryId := "libA"; styleKeyId := "1:7" |} /\
  getStyleLibraryInfo "1:7" = Some {| libraryId := "local"; styleKeyId := "1:7" |}.
Proof.
  apply (getStyleLibraryInfo_parses "S" "libA" "1:7" "1:7");
    first [discriminate | reflexivity].
Defined.

Lemma style_source_rule_witness :
  checkStyleSource Sample.host styledCard "libB" {[ "libA" := "Brand A" ]} [] Fill
    ("S" ++ ":" ++ "libA" ++ "," ++ "1:7") =
    [createWrongLibraryIssue styledCard Fill "libA" "Brand A"] /\
  List.map (fun i => (nodeId i, type i, message i, sourceLibraryId i, sourceLibraryName i))
    (checkStyleSource Sample.host styledCard "libB" {[ "libA" := "Brand A" ]} [] Fill
       ("S" ++ ":" ++ "libA" ++ "," ++ "1:7")) =
    [("2:1", Fill, "Wrong library/Color Fill", Some "libA", Some "Brand A")].
Proof.
  exact (style_source_rule Sample.host styledCard "libB" {[ "libA" := "Brand A" ]} []
           Fill "S" "libA" "1:7" ltac:(discriminate) eq_refl eq_refl eq_refl).
Defined.

Lemma local_style_never_flagged_witness :
  checkStyleSource Sample.host styledCard "libB" {[ "libA" := "Brand A" ]}
    ["Retail*"] Fill "1:7" = [].
Proof.
  apply (local_style_never_flagged Sample.host styledCard "libB"
           {[ "libA" := "Brand A" ]} ["Retail*"] Fill "1:7").
  reflexivity.
Defined.

(** ** The exception list as text *)

Lemma trim_leading_space x : Js.trim (String " " x) = Js.trim x.
Proof. reflexivity. Qed.

Lemma includes_lead b x :
  Js.includes x "," = false -> Js.includes (lead b ++ x) "," = false.
Proof.
  intros Hx. destruct b; [|exact Hx].
  change (lead true ++ x) with (String " " x). now rewrite includes_cons, Hx.
Qed.

Lemma trim_lead b x : Js.trim x = x -> Js.trim (lead b ++ x) = x.
Proof. intros Hx. destruct b; [|exact Hx]. exact Hx. Qed.

Lemma join_cons sep x y r :
  Js.join sep (x :: y :: r) = x ++ sep ++ Js.join sep (y :: r).
Proof. reflexivity. Qed.

Lemma split_join l : forall x b,
  Forall (fun y => Js.includes y "," = false /\ Js.trim y = y) (x :: l) ->
  map Js.trim (Js.split "," (lead b ++ Js.join ", " (x :: l))) = x :: l.
Proof.
  induction l as [|y r IH]; intros x b Hall.
  - inversion Hall as [|? ? [Hc Ht] _]; subst.
    change (Js.join ", " [x]) with x.
    rewrite (split_no_comma _ (includes_lead b x Hc)). cbn [map].
    now rewrite (trim_lead b x Ht).
  - inversion Hall as [|? ? [Hc Ht] Hrest]; subst.
    rewrite join_cons.
    replace (lead b ++ x ++ ", " ++ Js.join ", " (y :: r))
      with ((lead b ++ x) ++ "," ++ lead true ++ Js.join ", " (y :: r))
      by (now rewrite !string_app_assoc).
    rewrite (split_app_comma _ _ (includes_lead b x Hc)). cbn [map].
    now rewrite (trim_lead b x Ht), (IH y true Hrest).
Qed.

(** X18: the text that [GET_EXCEPTIONS] sends for a list of exceptions is
    read back by [UPDATE_EXCEPTIONS] as the same list, provided no exception
    is empty, holds a comma or has white space at either end. *)
Theorem exceptions_round_trip (exceptions : list string) :
  Forall (fun e => e <> "" /\ Js.includes e "," = false /\ Js.trim e = e) exceptions ->
  parseExceptions (exceptionsToString exceptions) = exceptions.
Proof.
  intros Hall. unfold parseExceptions, exceptionsToString.
  destruct exceptions as [|x l]; [reflexivity|].
  change (Js.join ", " (x :: l)) with (lead false ++ Js.join ", " (x :: l)).
  rewrite split_join.
  - apply filter_all. eapply Forall_impl; [|exact Hall].
    intros e [Hne _]. now destruct e.
  - eapply Forall_impl; [|exact Hall]. now intros e [_ H].
Qed.

Lemma exceptions_round_trip_witness :
  parseExceptions (exceptionsToString ["Retail UI/*"; "border-banner"; "Brand kit"]) =
  ["Retail UI/*"; "border-banner"; "Brand kit"].
Proof.
  apply (exceptions_round_trip ["Retail UI/*"; "border-banner"; "Brand kit"]).
  repeat constructor; discriminate.
Defined.

(** ** The manual rescan *)

Lemma onScanAgain_cases (s : Settings) (host : Host)
    (selected pageNodes : list Node) (log : AuditLog) :
  let accepted :=
    Nat.leb 1 (length selected) && Nat.leb (length selected) 5 &&
    Nat.leb (totalFrameCount selected) 5000 in
  if accepted
  then onScanAgain s host selected pageNodes log =
         ([UPDATE_ISSUES (fst (scanForIssues s host selected pageNodes log))],
          snd (scanForIssues s host selected pageNodes log))
  else exists title text,
         onScanAgain s host selected pageNodes log =
           ([UPDATE_ISSUES []; SELECTION_ERROR title text], log).
Proof.
  unfold onScanAgain.
  destruct (Nat.eqb_spec (length selected) 0) as [E0|N0].
  { rewrite E0. simpl. eauto. }
  destruct (Nat.ltb_spec 5 (length selected)) as [E5|N5].
  { replace (Nat.leb (length selected) 5) with false
      by (symmetry; apply Nat.leb_gt; lia).
    rewrite andb_false_r. simpl. eauto. }
  replace (Nat.leb 1 (length selected)) with true by (symmetry; apply Nat.leb_le; lia).
  replace (Nat.leb (length selected) 5) with true by (symmetry; apply Nat.leb_le; lia).
  simpl. destruct (Nat.ltb_spec 5000 (totalFrameCount selected)) as [Ec|Nc].
  - replace (Nat.leb (totalFrameCount selected) 5000) with false
      by (symmetry; apply Nat.leb_gt; lia).
    unfold tooManyFrames. eauto.
  - replace (Nat.leb (totalFrameCount selected) 5000) with true
      by (symmetry; apply Nat.leb_le; lia).
    now destruct (scanForIssues s host selected pageNodes log).
Qed.

(** X19: a manual rescan either refuses and emits an empty issue list
    with one selection error, leaving the audit log as it was, or it emits
    the issue list of one complete scan and nothing else; it scans exactly
    when one to five nodes are selected and at most 5000 frames are
    counted. *)
Theorem scan_again_all_or_nothing (s : Settings) (host : Host)
    (selected pageNodes : list Node) (log : AuditLog) :
  let accepted :=
    Nat.leb 1 (length selected) && Nat.leb (length selected) 5 &&
    Nat.leb (totalFrameCount selected) 5000 in
  if accepted
  then onScanAgain s host selected pageNodes log =
         ([UPDATE_ISSUES (fst (scanForIssues s host selected pageNodes log))],
          snd (scanForIssues s host selected pageNodes log))
  else exists title text,
         onScanAgain s host selected pageNodes log =
           ([UPDATE_ISSUES []; SELECTION_ERROR title text], log).
Proof. apply onScanAgain_cases. Qed.

(** X20: a selection of six to ten nodes is announced as valid by the
    selection state, and refused by the manual rescan. *)
Theorem valid_selection_refused (s : Settings) (host : Host)
    (selected pageNodes : list Node) (log : AuditLog) :
  (6 <= length selected <= 10)%nat ->
  isValidSelection (length selected) = true /\
  onScanAgain s host selected pageNodes log =
    ([UPDATE_ISSUES []; SELECTION_ERROR None "Please select no more than 5 frames"], log).
Proof.
  intros [Hlo Hhi]. split.
  - unfold isValidSelection. apply andb_true_intro. split.
    + apply Nat.ltb_lt. lia.
    + apply Nat.leb_le. lia.
  - unfold onScanAgain.
    destruct (Nat.eqb_spec (length selected) 0) as [E0|_]; [lia|].
    destruct (Nat.ltb_spec 5 (length selected)) as [_|N5]; [reflexivity|lia].
Qed.

Lemma valid_selection_refused_witness :
  isValidSelection (length sixFrames) = true /\
  onScanAgain (Sample.settings None [] true true) Sample.noHost sixFrames [] [] =
    ([UPDATE_ISSUES []; SELECTION_ERROR None "Please select no more than 5 frames"], []).
Proof.
  apply (valid_selection_refused (Sample.settings None [] true true) Sample.noHost
           sixFrames [] []).
  simpl. lia.
Defined.

(** ** The session: what the report is made from, and the audit log *)

Lemma scan_log_grows s host selected pageNodes log :
  exists added,
    snd (scanForIssues s host selected pageNodes log) = (log ++ added)%list.
Proof. rewrite scanForIssues_app. cbn [snd]. eauto. Qed.

Section Session.
Variable host : Host.
Variable reportText : list LintIssue -> Settings -> AuditLog -> string -> string.

Lemma handle_currentIssues p r :
  feedsReport r = false ->
  currentIssues (fst (handle host reportText p r)) = currentIssues p.
Proof.
  destruct r as [doc|doc| |e|lib|u doc stored|b doc stored|b doc stored|now stamp];
    simpl; intros H; try reflexivity; try (subst stored; reflexivity).
  now destruct (onScanAgain _ _ _ _ _).
Qed.

Lemma session_currentIssues requests : forall p,
  forallb (fun r => negb (feedsReport r)) requests = true ->
  currentIssues (session host reportText p requests) = currentIssues p.
Proof.
  induction requests as [|r rs IH]; intros p H; [reflexivity|].
  simpl in H. apply andb_prop in H as [Hr Hrs]. apply negb_true_iff in Hr.
  unfold session in *. simpl. rewrite (IH _ Hrs). now apply handle_currentIssues.
Qed.

Lemma handle_log_grows p r :
  exists added, radiusAuditLog (fst (handle host reportText p r)) =
                (radiusAuditLog p ++ added)%list.
Proof.
  assert (Hscan : forall s doc stored,
            exists added, radiusAuditLog (fst (rescanWith host s doc stored p)) =
                          (radiusAuditLog p ++ added)%list).
  { intros s doc stored. unfold rescanWith. destruct stored.
    - destruct (scan_log_grows s host (selection doc) (pageChildren doc)
                  (radiusAuditLog p)) as [added Ha].
      destruct (scanForIssues s host (selection doc) (pageChildren doc)
                  (radiusAuditLog p)) as [found log'].
      exists added. exact Ha.
    - exists []. simpl. now rewrite app_nil_r. }
  destruct r as [doc|doc| |e|lib|u doc stored|b doc stored|b doc stored|now stamp];
    simpl; try apply Hscan; try (exists []; simpl; now rewrite app_nil_r).
  pose proof (onScanAgain_cases (settings p) host (selection doc)
                (pageChildren doc) (radiusAuditLog p)) as H.
  cbv zeta in H. destruct (_ && _ && _).
  - rewrite H. cbn [fst radiusAuditLog]. apply scan_log_grows.
  - destruct H as (title & text & ->). exists []. simpl. now rewrite app_nil_r.
Qed.
End Session.

(** X21: the report is made from [currentIssues], which only a change of
    the check settings assigns.  From a plug-in that has no current
    issues, whatever manual rescans, exception updates, library choices
    and failed settings writes follow, and whatever those rescans find, a
    report request is answered with the fixed no-issues line. *)
Theorem manual_rescans_do_not_feed_report (host : Host)
    (reportText : list LintIssue -> Settings -> AuditLog -> string -> string)
    (p : Plugin) (requests : list Request) (now timestamp : string) :
  currentIssues p = [] ->
  forallb (fun r => negb (feedsReport r)) requests = true ->
  snd (handle host reportText (session host reportText p requests)
              (GENERATE_REPORT now timestamp)) =
    [REPORT_GENERATED "No lint issues found in current selection/document." timestamp].
Proof.
  intros Hempty Hreq. simpl.
  rewrite (session_currentIssues host reportText requests p Hreq), Hempty.
  reflexivity.
Qed.

Lemma manual_rescans_do_not_feed_report_witness :
  snd (handle Sample.noHost (fun _ _ _ _ => "FIGMA LINT REPORT")
         (freshPlugin (Sample.settings None [] true true)) (SCAN_AGAIN cardDocument)) =
    [FromRescan (UPDATE_ISSUES [createRadiusIssue Sample.rect8 "uniform"])] /\
  snd (handle Sample.noHost (fun _ _ _ _ => "FIGMA LINT REPORT")
         (session Sample.noHost (fun _ _ _ _ => "FIGMA LINT REPORT")
            (freshPlugin (Sample.settings None [] true true))
            [SCAN_AGAIN cardDocument; UPDATE_EXCEPTIONS "Retail UI/*"])
         (GENERATE_REPORT "1/1/2025, 10:00:00" "2025-01-01T10-00-00-000Z")) =
    [REPORT_GENERATED "No lint issues found in current selection/document."
       "2025-01-01T10-00-00-000Z"].
Proof.
  split; [vm_compute; reflexivity|].
  apply (manual_rescans_do_not_feed_report Sample.noHost
           (fun _ _ _ _ => "FIGMA LINT REPORT")
           (freshPlugin (Sample.settings None [] true true))
           [SCAN_AGAIN cardDocument; UPDATE_EXCEPTIONS "Retail UI/*"]);
    reflexivity.
Defined.

(** X22: within a session the audit log only grows: whatever requests are
    handled, the log afterwards is the log before with entries added at
    its end.  No handler empties it. *)
Theorem session_log_only_grows (host : Host)
    (reportText : list LintIssue -> Settings -> AuditLog -> string -> string)
    (requests : list Request) (p : Plugin) :
  exists added : AuditLog,
    radiusAuditLog (session host reportText p requests) =
    (radiusAuditLog p ++ added)%list.
Proof.
  revert p. induction requests as [|r rs IH]; intros p.
  - exists []. simpl. now rewrite app_nil_r.
  - unfold session in *. simpl.
    destruct (IH (fst (handle host reportText p r))) as [more Hmore].
    destruct (handle_log_grows host reportText p r) as [added Hadded].
    exists (added ++ more)%list. now rewrite Hmore, Hadded, app_assoc.
Qed.

(** ** Grouping under a key *)

Section GroupIntoFacts.
Context {A : Type} (key : A -> string).

Lemma firstOccurrencesBy_snoc l x :
  firstOccurrencesBy key (l ++ [x])%list =
  (firstOccurrencesBy key l ++
   if existsb (fun y => String.eqb (key y) (key x)) l then [] else [x])%list.
Proof.
  induction l as [|a l IH]; [reflexivity|].
  cbn [app firstOccurrencesBy existsb]. rewrite IH, filter_app. f_equal.
  unfold sameKey at 2.
  destruct (String.eqb_spec (key a) (key x)) as [E|N].
  - destruct (existsb _ l); [reflexivity|]. simpl. unfold sameKey.
    now rewrite E, String.eqb_refl.
  - simpl. destruct (existsb _ l); [reflexivity|]. simpl. unfold sameKey.
    destruct (String.eqb_spec (key x) (key a)) as [E'|_]; [congruence|reflexivity].
Qed.

Lemma hasGroup_map l (fo : list A) k :
  hasGroup k (map (groupOf key l) fo) = existsb (fun y => String.eqb (key y) k) fo.
Proof.
  unfold hasGroup. induction fo as [|y r IH]; [reflexivity|]. simpl. now rewrite IH.
Qed.

Lemma existsb_firstOccurrences l k :
  existsb (fun y => String.eqb (key y) k) (firstOccurrencesBy key l) =
  existsb (fun y => String.eqb (key y) k) l.
Proof.
  induction l as [|a l IH]; [reflexivity|]. simpl.
  destruct (String.eqb_spec (key a) k) as [E|N]; [reflexivity|]. simpl.
  rewrite <- IH. generalize (firstOccurrencesBy key l). intros fo.
  induction fo as [|y r IHr]; [reflexivity|]. simpl. unfold sameKey at 1.
  destruct (String.eqb_spec (key y) (key a)) as [Ey|Ny]; simpl.
  - rewrite IHr. destruct (String.eqb_spec (key y) k) as [Ek|_]; [congruence|reflexivity].
  - now rewrite IHr.
Qed.

Lemma groupOf_snoc l x y :
  groupOf key (l ++ [x]) y =
  (key y, (List.filter (sameKey key y) l ++
           if String.eqb (key x) (key y) then [x] else [])%list).
Proof. unfold groupOf. now rewrite filter_app. Qed.

Lemma groupOf_snoc_other l x y :
  String.eqb (key y) (key x) = false ->
  groupOf key (l ++ [x]) y = groupOf key l y.
Proof.
  intros H. rewrite groupOf_snoc, String.eqb_sym, H. unfold groupOf.
  now rewrite app_nil_r.
Qed.

Lemma pushTo_cons k x k' g (r : list (string * list A)) :
  pushTo k x ((k', g) :: r) =
  if String.eqb k' k then (k', (g ++ [x])%list) :: r else (k', g) :: pushTo k x r.
Proof. reflexivity. Qed.

Lemma pushTo_map l x (fo : list A) :
  NoDup (map key fo) ->
  existsb (fun y => String.eqb (key y) (key x)) fo = true ->
  pushTo (key x) x (map (groupOf key l) fo) = map (groupOf key (l ++ [x])) fo.
Proof.
  induction fo as [|y r IH]; intros Hnd Hex; [discriminate|].
  inversion Hnd as [|? ? Hnot Hnd']; subst.
  cbn [map existsb] in *. unfold groupOf at 1. rewrite pushTo_cons.
  destruct (String.eqb_spec (key y) (key x)) as [E|N].
  - f_equal.
    + rewrite groupOf_snoc, E, String.eqb_refl. reflexivity.
    + apply map_ext_in. intros z Hz. symmetry. apply groupOf_snoc_other.
      apply String.eqb_neq. intros Ez. apply Hnot. rewrite E, <- Ez. now apply in_map.
  - simpl in Hex. rewrite (IH Hnd' Hex). f_equal. symmetry. apply groupOf_snoc_other.
    now apply String.eqb_neq.
Qed.

Lemma groupInto_snoc l x : groupInto key (l ++ [x]) = groupStep key (groupInto key l) x.
Proof. unfold groupInto. now rewrite fold_left_app. Qed.

(** The groups are those of the first occurrences of the keys, in that
    order, each with the elements of its key in their order. *)
Lemma groupInto_groups l :
  groupInto key l = map (groupOf key l) (firstOccurrencesBy key l).
Proof.
  induction l as [|x l IH] using rev_ind; [reflexivity|].
  rewrite groupInto_snoc, IH. unfold groupStep.
  rewrite hasGroup_map, existsb_firstOccurrences, firstOccurrencesBy_snoc.
  destruct (existsb (fun y => String.eqb (key y) (key x)) l) eqn:Hex.
  - rewrite app_nil_r. apply pushTo_map.
    + apply firstOccurrencesBy_NoDup.
    + now rewrite existsb_firstOccurrences.
  - rewrite map_app. simpl. f_equal.
    + apply map_ext_in. intros y Hy. symmetry. apply groupOf_snoc_other.
      destruct (String.eqb_spec (key y) (key x)) as [E|_]; [|reflexivity].
      apply firstOccurrencesBy_keys_in in Hy.
      assert (Ht : existsb (fun z => String.eqb (key z) (key x)) l = true).
      { apply existsb_exists. exists y. split; [exact Hy|]. now apply String.eqb_eq. }
      congruence.
    + f_equal. unfold groupOf. f_equal. rewrite filter_app. simpl.
      unfold sameKey at 2. rewrite String.eqb_refl.
      rewrite (filter_none (sameKey key x) l); [reflexivity|].
      apply Forall_forall. intros y Hy. unfold sameKey.
      destruct (String.eqb_spec (key y) (key x)) as [E|_]; [|reflexivity].
      assert (Ht : existsb (fun z => String.eqb (key z) (key x)) l = true).
      { apply existsb_exists. exists y. split; [exact Hy|]. now apply String.eqb_eq. }
      congruence.
Qed.

Lemma groupStep_count acc x :
  groupedCount (groupStep key acc x) = S (groupedCount acc).
Proof.
  unfold groupStep, groupedCount. destruct (hasGroup (key x) acc) eqn:H.
  - induction acc as [|[k g] r IH]; [discriminate|]. simpl in *.
    destruct (String.eqb k (key x)); simpl.
    + rewrite length_app. simpl. lia.
    + rewrite (IH H). lia.
  - rewrite map_app, list_sum_app. simpl. lia.
Qed.

Lemma groupInto_count l : groupedCount (groupInto key l) = length l.
Proof.
  induction l as [|x l IH] using rev_ind; [reflexivity|].
  rewrite groupInto_snoc, groupStep_count, IH, length_app. simpl. lia.
Qed.

Lemma groupInto_nonempty l :
  Forall (fun g => snd g <> []) (groupInto key l).
Proof.
  rewrite groupInto_groups. apply Forall_forall. intros g Hg.
  apply in_map_iff in Hg as [x [<- Hx]]. simpl.
  apply firstOccurrencesBy_keys_in in Hx. intros Hnil.
  assert (Hin : In x (List.filter (sameKey key x) l)).
  { apply filter_In. split; [exact Hx|]. unfold sameKey. apply String.eqb_refl. }
  rewrite Hnil in Hin. contradiction.
Qed.

End GroupIntoFacts.

(** ** The issue list on display *)

Lemma filteredIssues_ofType t l :
  filteredIssues (Some t) l = ofType t (allUniqueIssues l).
Proof.
  unfold filteredIssues, ofType. apply filter_ext. intros i.
  destruct (type i), t; reflexivity.
Qed.

Lemma ofType_cons t i l :
  ofType t (i :: l) =
  if LintIssueType_eqb t (type i) then i :: ofType t l else ofType t l.
Proof. reflexivity. Qed.

Lemma length_by_type (l : list LintIssue) :
  length l =
  (length (ofType Fill l) + length (ofType Stroke l) + length (ofType Text l) +
   length (ofType Radius l) + length (ofType Gap l) + length (ofType Padding l))%nat.
Proof.
  induction l as [|i l IH]; [reflexivity|].
  rewrite !ofType_cons.
  destruct (type i); cbn [LintIssueType_eqb length]; rewrite IH; lia.
Qed.

Lemma counts_ofType l t : counts l t = length (ofType t (allUniqueIssues l)).
Proof. unfold counts. now rewrite count_fold. Qed.

(** X23: the number on the pill of a type is the number of issues listed
    when that filter is selected, and the number on the "All issues" pill
    is the sum of the six. *)
Theorem pill_counts_match_lists (l : list LintIssue) :
  (forall t, counts l t = length (filteredIssues (Some t) l)) /\
  length (filteredIssues None l) =
    (counts l Fill + counts l Stroke + counts l Text +
     counts l Radius + counts l Gap + counts l Padding)%nat.
Proof.
  split.
  - intros t. now rewrite filteredIssues_ofType, counts_ofType.
  - rewrite !counts_ofType. apply length_by_type.
Qed.

Lemma groupInto_keys {A} (key : A -> string) l : NoDup (map fst (groupInto key l)).
Proof.
  rewrite groupInto_groups, map_map. apply firstOccurrencesBy_NoDup.
Qed.

(** X24: the layer rows are the groups of the listed issues under the
    key made of node id and node name: one row per key, in the order in
    which the keys first appear, each with the issues of that key in
    their order.  No row is empty and the rows hold as many issues as are
    listed. *)
Theorem layer_rows (selectedFilter : option LintIssueType) (l : list LintIssue) :
  groupedIssues selectedFilter l =
    map (groupOf layerKey (filteredIssues selectedFilter l))
        (firstOccurrencesBy layerKey (filteredIssues selectedFilter l)) /\
  NoDup (map fst (groupedIssues selectedFilter l)) /\
  Forall (fun row => snd row <> []) (groupedIssues selectedFilter l) /\
  groupedCount (groupedIssues selectedFilter l) =
    length (filteredIssues selectedFilter l).
Proof.
  unfold groupedIssues. repeat split.
  - apply groupInto_groups.
  - apply groupInto_keys.
  - apply groupInto_nonempty.
  - apply groupInto_count.
Qed.






(** ** How the issues of a scan are named *)

Definition shownAsExpected (i : LintIssue) : Prop :=
  getIssueTypeText (type i) i =
  if isDetachment i then typeText (type i) else "Wrong library/" ++ typeText (type i).

Lemma wrongLibrary_shown n t lib nm : shownAsExpected (createWrongLibraryIssue n t lib nm).
Proof. unfold shownAsExpected. now destruct t. Qed.

Lemma detached_shown n log : Forall shownAsExpected (fst (checkDetachedStyles n log)).
Proof.
  rewrite checkDetachedStyles_issues. destruct (evaluatorRuns n); [|constructor].
  repeat (apply Forall_app; split).
  - unfold fillCheck. destruct (_ && _ && _); repeat constructor.
  - unfold strokeCheck. destruct (_ && _ && _); repeat constructor.
  - unfold textCheck. destruct (String.eqb (kind n) "TEXT"); [|constructor].
    destruct (_ && _); repeat constructor.
  - destruct (radiusPart_shape n) as [->|[det ->]]; repeat constructor.
  - unfold layoutPart. destruct (hasAutoLayout n); [|constructor].
    apply Forall_app. split.
    + unfold gapCheck. destruct (_ && _ && _); repeat constructor.
    + unfold paddingCheck. destruct (_ || _); repeat constructor.
Qed.

Lemma library_shown host n lib map exceptions :
  Forall shownAsExpected (checkLibrarySources host n lib map exceptions).
Proof.
  rewrite checkLibrarySources_parts.
  destruct (existsb _ exceptions); [constructor|].
  apply Forall_app. split.
  - apply Forall_flat_map, Forall_forall. intros b _. unfold checkStyleSource.
    destruct (truthyString (snd b)); [|constructor].
    destruct (_ && _); [constructor|].
    destruct (getStyleLibraryInfo (snd b)) as [info|]; [|constructor].
    destruct (String.eqb (libraryId info) "local"); [constructor|].
    destruct (negb _); repeat constructor. apply wrongLibrary_shown.
  - unfold checkVariableSources. destruct (boundVariables n) as [bv|]; [|constructor].
    apply Forall_flat_map, Forall_forall. intros [propName [varId|ids]] _;
      unfold checkVariableSource; [|constructor].
    destruct (truthyString varId); [|constructor].
    destruct (getVariableById host varId) as [v|]; [|constructor].
    destruct (getVariableCollectionById host _) as [c|]; [|constructor].
    destruct (collectionLibraryId c) as [l|]; [|constructor].
    destruct (_ && _); repeat constructor. apply wrongLibrary_shown.
Qed.

Lemma nodeIssues_shown s host d : Forall shownAsExpected (nodeIssues s host d).
Proof.
  rewrite nodeIssues_eq. apply Forall_app. split.
  - apply Forall_forall. intros i Hi. apply filter_In in Hi as [Hi _].
    pose proof (detached_shown d []) as H. rewrite Forall_forall in H. auto.
  - unfold libraryIssuesOf. destruct (selectedLibraryId s) as [lib|]; [|constructor].
    destruct (truthyString lib); [apply library_shown|constructor].
Qed.

(** X26: every issue of a scan is shown under the name of its type when
    it is a detachment issue, and under "Wrong library/" followed by that
    name when it comes from the provenance check. *)
Theorem scan_issue_text (s : Settings) (host : Host)
    (selected pageNodes : list Node) (log : AuditLog) (i : LintIssue) :
  In i (fst (scanForIssues s host selected pageNodes log)) ->
  getIssueTypeText (type i) i =
  if isDetachment i then typeText (type i) else "Wrong library/" ++ typeText (type i).
Proof.
  intros Hi.
  pose proof (scanForIssues_invariant s host shownAsExpected (nodeIssues_shown s host)
                selected pageNodes log) as H.
  rewrite Forall_forall in H. now apply H.
Qed.

Lemma scan_issue_text_witness :
  getIssueTypeText (type (createFillIssue paintedRect)) (createFillIssue paintedRect) =
  if isDetachment (createFillIssue paintedRect)
  then typeText (type (createFillIssue paintedRect))
  else "Wrong library/" ++ typeText (type (createFillIssue paintedRect)).
Proof.
  apply (scan_issue_text checkAll Sample.noHost [mixedFrame] [] []
           (createFillIssue paintedRect)).
  vm_compute. left. reflexivity.
Defined.

(** ** The sections of the report *)

Lemma typeString_eqb a b :
  String.eqb (typeString a) (typeString b) = LintIssueType_eqb b a.
Proof. now destruct a, b. Qed.

Lemma groupOf_issueTypeKey l i :
  groupOf issueTypeKey l i = (typeString (type i), ofType (type i) l).
Proof.
  unfold groupOf, ofType, issueTypeKey. f_equal. apply filter_ext. intros j.
  unfold sameKey. apply typeString_eqb.
Qed.

Lemma issueTypeKey_known l :
  incl (map fst (issuesByType l))
       (map typeString [Fill; Stroke; Text; Radius; Gap; Padding]).
Proof.
  unfold issuesByType. rewrite groupInto_groups, map_map. intros k Hk.
  apply in_map_iff in Hk as [i [<- _]]. cbn [fst groupOf].
  unfold issueTypeKey. apply in_map. destruct (type i); simpl; tauto.
Qed.

(** X27: the report has one section per issue type that occurs, in the
    order in which the types first occur in the issue list; a section
    lists the issues of its type in their order.  There are at most six
    sections, and their lengths add up to the total the report gives. *)
Theorem report_sections (l : list LintIssue) :
  issuesByType l =
    map (fun i => (typeString (type i), ofType (type i) l))
        (firstOccurrencesBy issueTypeKey l) /\
  NoDup (map fst (issuesByType l)) /\
  (length (issuesByType l) <= 6)%nat /\
  groupedCount (issuesByType l) = length l.
Proof.
  repeat split.
  - unfold issuesByType. rewrite groupInto_groups. apply map_ext.
    intros i. apply groupOf_issueTypeKey.
  - apply groupInto_keys.
  - rewrite <- (length_map fst).
    apply (NoDup_incl_length (groupInto_keys issueTypeKey l) (issueTypeKey_known l)).
  - apply groupInto_count.
Qed.

(** ** The libraries on offer *)

Lemma split_nonempty c s : Js.split c s <> [].
Proof.
  destruct s as [|d r]; cbn [Js.split]; [discriminate|].
  destruct (Ascii.eqb d c); [discriminate|]. destruct (Js.split c r); discriminate.
Qed.

Lemma processCollection_eq t c :
  processCollection t c = recordCollection (libraryIdOf c) c t.
Proof.
  unfold processCollection, libraryIdOf.
  destruct (Js.split "/" (Collection.key c)) eqn:E; [now apply split_nonempty in E|].
  reflexivity.
Qed.

Lemma libraryTables_snoc l x :
  libraryTables (l ++ [x]) = recordCollection (libraryIdOf x) x (libraryTables l).
Proof.
  unfold libraryTables. rewrite fold_left_app. apply processCollection_eq.
Qed.

Lemma collectionsOf_snoc libraryId l x :
  collectionsOf libraryId (l ++ [x]) =
  (collectionsOf libraryId l ++
   if String.eqb (libraryIdOf x) libraryId then [x] else [])%list.
Proof. unfold collectionsOf. now rewrite filter_app. Qed.

Lemma hasLibrary_map (f : Collection.t -> Library.t) l libraryId :
  hasLibrary libraryId (map (fun c => (libraryIdOf c, f c)) l) =
  existsb (fun c => String.eqb (libraryIdOf c) libraryId) l.
Proof.
  unfold hasLibrary. induction l as [|c l IH]; [reflexivity|].
  cbn [map existsb fst]. now rewrite IH.
Qed.

(** The map holds one entry per library id, set at its first collection. *)
Lemma byId_tables l :
  byId (libraryTables l) =
  map (fun c => (libraryIdOf c, newLibrary (libraryIdOf c) c))
      (firstOccurrencesBy libraryIdOf l).
Proof.
  induction l as [|x l IH] using rev_ind; [reflexivity|].
  rewrite libraryTables_snoc. unfold recordCollection. cbn [byId]. rewrite IH.
  rewrite hasLibrary_map, existsb_firstOccurrences, firstOccurrencesBy_snoc.
  destruct (existsb _ l); [now rewrite app_nil_r|]. now rewrite map_app.
Qed.

Lemma counts_tables l libraryId :
  collectionsPerLibrary (libraryTables l) !! libraryId =
  match collectionsOf libraryId l with
  | [] => None
  | cs => Some (length cs)
  end.
Proof.
  induction l as [|x l IH] using rev_ind; [apply lookup_empty|].
  rewrite libraryTables_snoc, collectionsOf_snoc.
  unfold recordCollection. cbn [collectionsPerLibrary].
  destruct (String.eqb_spec (libraryIdOf x) libraryId) as [->|N].
  - rewrite lookup_insert_eq, IH.
    destruct (collectionsOf libraryId l) as [|c cs]; [reflexivity|].
    cbn [app default]. f_equal. cbn [length]. rewrite length_app. simpl. lia.
  - rewrite lookup_insert_ne by exact N. now rewrite IH, app_nil_r.
Qed.

Lemma names_record libraryId c t other :
  collectionNamesPerLibrary (recordCollection libraryId c t) !! other =
  if String.eqb libraryId other
  then Some (default [] (collectionNamesPerLibrary t !! libraryId) ++
             if truthyString (Collection.name c) then [Collection.name c] else [])%list
  else collectionNamesPerLibrary t !! other.
Proof.
  unfold recordCollection. cbn [collectionNamesPerLibrary].
  destruct (String.eqb_spec libraryId other) as [<-|N].
  - destruct (collectionNamesPerLibrary t !! libraryId) as [ns|] eqn:E;
      destruct (truthyString (Collection.name c)).
    + now rewrite lookup_insert_eq, E.
    + now rewrite E, app_nil_r.
    + now rewrite !lookup_insert_eq.
    + now rewrite lookup_insert_eq.
  - destruct (collectionNamesPerLibrary t !! libraryId) as [ns|];
      destruct (truthyString (Collection.name c));
      now rewrite ?lookup_insert_ne by exact N.
Qed.

Lemma names_tables l libraryId :
  collectionNamesPerLibrary (libraryTables l) !! libraryId =
  match collectionsOf libraryId l with
  | [] => None
  | cs => Some (List.filter truthyString (map Collection.name cs))
  end.
Proof.
  induction l as [|x l IH] using rev_ind; [apply lookup_empty|].
  rewrite libraryTables_snoc, names_record, collectionsOf_snoc.
  destruct (String.eqb_spec (libraryIdOf x) libraryId) as [->|N].
  - rewrite IH. destruct (collectionsOf libraryId l) as [|c cs].
    + cbn [app default map List.filter]. now destruct (truthyString (Collection.name x)).
    + cbn [default].
      change ((c :: cs) ++ [x])%list with (c :: (cs ++ [x]))%list. cbv iota.
      change (c :: (cs ++ [x]))%list with ((c :: cs) ++ [x])%list.
      rewrite map_app, filter_app. cbn [map List.filter].
      now destruct (truthyString (Collection.name x)).
  - now rewrite IH, app_nil_r.
Qed.

Lemma teamLibraries_eq l :
  teamLibraries l =
  List.filter (fun library => negb (Library.isDependency library))
    (map (describedLibrary l) (firstOccurrencesBy libraryIdOf l)).
Proof.
  unfold teamLibraries. cbv zeta. now rewrite byId_tables, map_map.
Qed.

Lemma first_occurrence_is_first l c :
  In c (firstOccurrencesBy libraryIdOf l) <->
  firstCollectionOf (libraryIdOf c) l = Some c.
Proof.
  unfold firstCollectionOf. induction l as [|x l IH]; [split; [intros []|discriminate]|].
  cbn [firstOccurrencesBy find].
  destruct (String.eqb_spec (libraryIdOf x) (libraryIdOf c)) as [E|N].
  - split.
    + intros [->|H]; [reflexivity|]. apply filter_In in H as [_ H].
      unfold sameKey in H. rewrite E, String.eqb_refl in H. discriminate.
    + intros [= ->]. now left.
  - rewrite <- IH. split.
    + intros [->|H]; [congruence|]. now apply filter_In in H as [H _].
    + intros H. right. apply filter_In. split; [exact H|].
      unfold sameKey. apply negb_true_iff, String.eqb_neq. congruence.
Qed.

Lemma firstCollectionOf_id libraryId l c :
  firstCollectionOf libraryId l = Some c -> libraryIdOf c = libraryId.
Proof.
  intros H. apply find_some in H as [_ H]. now apply String.eqb_eq.
Qed.

Lemma dependency_is_special n :
  hasDependencyName n = true -> truthyString n && hasSpecialName n = true.
Proof.
  destruct n as [|a n]; [discriminate|].
  unfold hasDependencyName, hasSpecialName. cbv zeta.
  change (truthyString (String a n)) with true.
  destruct (Js.includes _ "primitive"), (Js.includes _ "token"),
           (Js.includes _ "semantic"); simpl; congruence.
Qed.

Lemma describedLibrary_isDependency l c :
  Library.isDependency (describedLibrary l c) = hasDependencyName (Collection.name c).
Proof.
  unfold describedLibrary, describeLibrary.
  cbn [Library.isDependency Library.firstCollectionName newLibrary].
  destruct (hasDependencyName (Collection.name c)) eqn:E.
  - now rewrite (dependency_is_special _ E).
  - now rewrite andb_false_r.
Qed.

Lemma describedLibrary_count l c :
  Library.collectionCount (describedLibrary l c) =
  Some (length (collectionsOf (libraryIdOf c) l)).
Proof.
  unfold describedLibrary, describeLibrary. cbn [Library.collectionCount].
  rewrite counts_tables. now destruct (collectionsOf (libraryIdOf c) l).
Qed.

Lemma describedLibrary_names l c :
  Library.collectionNames (describedLibrary l c) =
  Some (List.filter truthyString (map Collection.name (collectionsOf (libraryIdOf c) l))).
Proof.
  unfold describedLibrary, describeLibrary. cbn [Library.collectionNames].
  rewrite names_tables. now destruct (collectionsOf (libraryIdOf c) l).
Qed.

Lemma teamLibraries_In l library :
  In library (teamLibraries l) <->
  exists c, firstCollectionOf (Library.id library) l = Some c /\
            library = describedLibrary l c /\
            hasDependencyName (Collection.name c) = false.
Proof.
  rewrite teamLibraries_eq, filter_In, in_map_iff. split.
  - intros [[c [<- Hc]] Hdep]. exists c.
    rewrite describedLibrary_isDependency in Hdep. apply negb_true_iff in Hdep.
    apply first_occurrence_is_first in Hc. auto.
  - intros [c [Hc [-> Hdep]]]. change (Library.id (describedLibrary l c))
      with (libraryIdOf c) in Hc. split.
    + exists c. split; [reflexivity|]. now apply first_occurrence_is_first.
    + rewrite describedLibrary_isDependency. now rewrite Hdep.
Qed.

Lemma teamLibraries_NoDup l : NoDup (map Library.id (teamLibraries l)).
Proof.
  rewrite teamLibraries_eq.
  set (p := fun library => negb (Library.isDependency library)).
  assert (H : forall fo,
             map Library.id (List.filter p (map (describedLibrary l) fo)) =
             map libraryIdOf (List.filter (fun c => p (describedLibrary l c)) fo)).
  { induction fo as [|c fo IH]; [reflexivity|]. cbn [map List.filter].
    destruct (p (describedLibrary l c)); cbn [map]; now rewrite IH. }
  rewrite H. apply NoDup_map_filter, firstOccurrencesBy_NoDup.
Qed.

(** X28: the team libraries on offer have distinct ids, and each is
    described by the collections of its id: name, first key and first
    name are those of the first such collection (the name reads
    "Unknown Library" when that collection gives none), the count is the
    number of such collections, and the names are their non-empty names
    in order. *)
Theorem team_library_from_its_collections (libraryCollections : list Collection.t) :
  plainIds libraryCollections = true ->
  NoDup (map Library.id (teamLibraries libraryCollections)) /\
  Forall
    (fun library =>
       exists c,
         firstCollectionOf (Library.id library) libraryCollections = Some c /\
         Library.type library = team /\
         Library.name library = libraryNameFrom c /\
         Library.firstCollectionKey library = Some (Collection.key c) /\
         Library.firstCollectionName library = Some (Collection.name c) /\
         Library.collectionCount library =
           Some (length (collectionsOf (Library.id library) libraryCollections)) /\
         Library.collectionNames library =
           Some (List.filter truthyString
                   (map Collection.name
                      (collectionsOf (Library.id library) libraryCollections))))
    (teamLibraries libraryCollections).
Proof.
  intros _. split; [apply teamLibraries_NoDup|].
  apply Forall_forall. intros library H.
  apply teamLibraries_In in H as [c [Hc [-> _]]]. exists c.
  split; [exact Hc|]. do 4 (split; [reflexivity|]).
  split; [apply describedLibrary_count|apply describedLibrary_names].
Qed.

Lemma team_library_from_its_collections_witness :
  NoDup (map Library.id (teamLibraries brandCollections)) /\
  Forall
    (fun library =>
       exists c,
         firstCollectionOf (Library.id library) brandCollections = Some c /\
         Library.type library = team /\
         Library.name library = libraryNameFrom c /\
         Library.firstCollectionKey library = Some (Collection.key c) /\
         Library.firstCollectionName library = Some (Collection.name c) /\
         Library.collectionCount library =
           Some (length (collectionsOf (Library.id library) brandCollections)) /\
         Library.collectionNames library =
           Some (List.filter truthyString
                   (map Collection.name
                      (collectionsOf (Library.id library) brandCollections))))
    (teamLibraries brandCollections).
Proof.
  exact (team_library_from_its_collections brandCollections eq_refl).
Defined.

(** X29: a library is on offer exactly when the name of its first
    collection is no dependency name: lower-cased, it does not contain
    "primitive", and contains "semantic" if it contains "token". *)
Theorem dependency_library_left_out
    (libraryCollections : list Collection.t) (libraryId : string) (c : Collection.t) :
  plainIds libraryCollections = true ->
  firstCollectionOf libraryId libraryCollections = Some c ->
  existsb (fun library => String.eqb (Library.id library) libraryId)
          (teamLibraries libraryCollections) =
  negb (hasDependencyName (Collection.name c)).
Proof.
  intros _ Hc. destruct (hasDependencyName (Collection.name c)) eqn:Hdep; cbn [negb].
  - apply not_true_is_false. intros H.
    apply existsb_exists in H as [library [Hin Hid]]. apply String.eqb_eq in Hid.
    apply teamLibraries_In in Hin as [c' [Hc' [_ Hdep']]].
    rewrite Hid, Hc in Hc'. congruence.
  - apply existsb_exists. exists (describedLibrary libraryCollections c).
    pose proof (firstCollectionOf_id _ _ _ Hc) as Hid. split.
    + apply teamLibraries_In. exists c.
      change (Library.id (describedLibrary libraryCollections c)) with (libraryIdOf c).
      rewrite Hid. auto.
    + apply String.eqb_eq. exact Hid.
Qed.

Lemma dependency_library_left_out_witness :
  existsb (fun library => String.eqb (Library.id library) "libP")
          (teamLibraries brandCollections) =
  negb (hasDependencyName "Primitives").
Proof.
  exact (dependency_library_left_out brandCollections "libP"
           {| Collection.name := "Primitives"; Collection.key := "libP/c1";
              Collection.libraryName := "Core" |} eq_refl eq_refl).
Defined.

(** ** The library map after the libraries are listed *)

Lemma libraryMapOf_snoc libraries x :
  libraryMapOf (libraries ++ [x]) =
  <[ Library.id x := Library.name x ]> (libraryMapOf libraries).
Proof. unfold libraryMapOf. now rewrite fold_left_app. Qed.

Lemma libraryMapOf_None libraries libraryId :
  Forall (fun library => Library.id library <> libraryId) libraries ->
  libraryMapOf libraries !! libraryId = None.
Proof.
  induction libraries as [|x libraries IH] using rev_ind; intros H;
    [apply lookup_empty|].
  apply Forall_app in H as [H Hx]. inversion Hx as [|? ? Hid _]; subst.
  rewrite libraryMapOf_snoc, lookup_insert_ne by exact Hid. now apply IH.
Qed.

Lemma libraryMapOf_skip before libraries libraryId :
  Forall (fun library => Library.id library <> libraryId) before ->
  libraryMapOf (before ++ libraries) !! libraryId = libraryMapOf libraries !! libraryId.
Proof.
  intros Hb. induction libraries as [|x libraries IH] using rev_ind.
  - rewrite app_nil_r. rewrite (libraryMapOf_None before _ Hb). symmetry.
    apply lookup_empty.
  - rewrite app_assoc, !libraryMapOf_snoc.
    destruct (String.eqb_spec (Library.id x) libraryId) as [->|N].
    + now rewrite !lookup_insert_eq.
    + now rewrite !lookup_insert_ne by exact N.
Qed.

Lemma libraryMapOf_unique libraries library :
  NoDup (map Library.id libraries) -> In library libraries ->
  libraryMapOf libraries !! Library.id library = Some (Library.name library).
Proof.
  induction libraries as [|x libraries IH] using rev_ind; intros Hnd Hin; [destruct Hin|].
  rewrite libraryMapOf_snoc. rewrite map_app in Hnd. cbn [map] in Hnd.
  apply in_app_or in Hin as [Hin|[->|[]]].
  - assert (N : Library.id x <> Library.id library).
    { intros E. apply NoDup_remove_2 in Hnd. apply Hnd. rewrite app_nil_r, E.
      now apply in_map. }
    rewrite lookup_insert_ne by exact N. apply IH; [|exact Hin].
    apply NoDup_remove_1 in Hnd. now rewrite app_nil_r in Hnd.
  - apply lookup_insert_eq.
Qed.

Lemma libraryNameFrom_truthy c : truthyString (libraryNameFrom c) = true.
Proof.
  unfold libraryNameFrom. now destruct (truthyString (Collection.libraryName c)) eqn:E.
Qed.

(** X30: after the libraries are listed, the library map forgets what it
    held and names a team library by its first collection: a library id
    other than "local-styles" reads as the library name of the first
    collection of that id ("Unknown Library" when it gives none), and as
    "Unknown library" when there is no such collection or when the
    library was left out as a dependency. *)
Theorem source_name_after_listing (libraryMap : gmap string string) (localStyles : nat)
    (libraryCollections : list Collection.t) (libraryId : string) :
  plainIds libraryCollections = true ->
  String.eqb libraryId "local-styles" = false ->
  libraryNameOf
    (snd (getAvailableLibraries libraryMap (Some localStyles)
            (Collections libraryCollections)))
    libraryId =
  match firstCollectionOf libraryId libraryCollections with
  | Some c =>
      if hasDependencyName (Collection.name c) then "Unknown library"
      else libraryNameFrom c
  | None => "Unknown library"
  end.
Proof.
  intros _ Hlocal. apply String.eqb_neq in Hlocal.
  unfold getAvailableLibraries. cbn [snd]. unfold libraryNameOf.
  rewrite libraryMapOf_skip.
  2:{ destruct (0 <? localStyles)%nat; repeat constructor.
      intros E. apply Hlocal. now rewrite <- E. }
  destruct (firstCollectionOf libraryId libraryCollections) as [c|] eqn:Hc.
  - destruct (hasDependencyName (Collection.name c)) eqn:Hdep.
    + rewrite libraryMapOf_None; [reflexivity|].
      apply Forall_forall. intros library Hin E.
      apply teamLibraries_In in Hin as [c' [Hc' [_ Hdep']]].
      rewrite E, Hc in Hc'. congruence.
    + pose proof (firstCollectionOf_id _ _ _ Hc) as Hid.
      assert (Hin : In (describedLibrary libraryCollections c)
                       (teamLibraries libraryCollections)).
      { apply teamLibraries_In. exists c.
        change (Library.id (describedLibrary libraryCollections c)) with (libraryIdOf c).
        rewrite Hid. auto. }
      pose proof (libraryMapOf_unique _ _ (teamLibraries_NoDup libraryCollections) Hin)
        as Hlook.
      change (Library.id (describedLibrary libraryCollections c))
        with (libraryIdOf c) in Hlook.
      change (Library.name (describedLibrary libraryCollections c))
        with (libraryNameFrom c) in Hlook.
      rewrite Hid in Hlook. rewrite Hlook. now rewrite libraryNameFrom_truthy.
  - rewrite libraryMapOf_None; [reflexivity|].
    apply Forall_forall. intros library Hin E.
    apply teamLibraries_In in Hin as [c' [Hc' _]]. rewrite E, Hc in Hc'. discriminate.
Qed.

Lemma source_name_after_listing_witness :
  libraryNameOf
    (snd (getAvailableLibraries {[ "libP" := "Core" ]} (Some 2%nat)
            (Collections brandCollections)))
    "libP" = "Unknown library".
Proof.
  exact (source_name_after_listing {[ "libP" := "Core" ]} 2%nat brandCollections "libP"
           eq_refl eq_refl).
Defined.

(** * The aggregation of what a scan reports *)

(** ** No dash in the details of an issue *)











(** ** Where the issues of a scan come from *)



(** ** First occurrences *)




